(** * ViewSarn: the content-to-page fitting of [src/render.js]

    A shallow embedding of [parseMarginToMm], [clampScale] and
    [renderHtmlToBuffer], with the JavaScript builtins they call, and the
    properties of the fitting algorithm stated over it; then of the rate
    limiter, of the key check of [src/auth.js] and of the middleware of
    [server.js], with further properties of all four.

    JavaScript numbers are IEEE-754 binary64 values: they are modelled by
    Rocq's primitive [float], whose operations are specified by
    [SpecFloat].  A JavaScript string is modelled by the Rocq string of
    its UTF-8 bytes: a character of ASCII is one byte, and the white space
    outside ASCII is recognised by its two or three bytes. *)

From Stdlib Require Import ZArith QArith Qabs Floats String Ascii List Bool Lia.
From Stdlib Require DecimalString DecimalN.
Import ListNotations.

Set Warnings "-inexact-float".

Local Open Scope float_scope.

(** ** JavaScript values and builtins *)

Module JS.

(** The values an option of the request body can hold.  [VObj n] is an
    array or a plain object: the code only observes that it is truthy, that
    it is not a string or a number, that it has no callable [endsWith] or
    [toUpperCase], and what [Number(o)] does with it: it returns the number
    [x] when [n] is [Some x] ([Number([])] is 0, [Number(["1.5"])] is 1.5,
    [Number({})] is NaN), and it throws a TypeError when [n] is [None] (an
    object whose [toString] is not callable, and whose [valueOf] is not
    callable or is the inherited one: the JSON object with the one key
    toString and the value 1). *)
Inductive value : Type :=
| VUndefined
| VNull
| VBool (b : bool)
| VNum (n : float)
| VStr (s : string)
| VObj (n : option float).

(** What a call can do: return, or throw. *)
Inductive outcome (A : Type) : Type :=
| Ok (a : A)
| Throw (e : string).
Arguments Ok {A} a.
Arguments Throw {A} e.

Definition obind {A B} (x : outcome A) (f : A -> outcome B) : outcome B :=
  match x with
  | Ok a => f a
  | Throw e => Throw e
  end.

(** *** Numbers *)

(** [!!n] for a number: false for NaN, +0 and -0. *)
Definition num_truthy (n : float) : bool := negb (is_nan n || is_zero n).

(** [a || b] where [a] is a number. *)
Definition num_or (a b : float) : float := if num_truthy a then a else b.

(** [Math.max(a, b)]: NaN if either is NaN; +0 is larger than -0. *)
Definition Math_max (a b : float) : float :=
  if is_nan a || is_nan b then nan
  else if a <? b then b
  else if b <? a then a
  else if get_sign a then b else a.

(** [Math.min(a, b)]: NaN if either is NaN; -0 is smaller than +0. *)
Definition Math_min (a b : float) : float :=
  if is_nan a || is_nan b then nan
  else if a <? b then a
  else if b <? a then b
  else if get_sign a then a else b.

(** [Math.ceil(x)]: the smallest integer not below [x]; NaN, the
    infinities and the zeros are returned as they are, and a negative [x]
    above -1 gives -0. *)
Definition Math_ceil (x : float) : float :=
  match Prim2SF x with
  | S754_finite s m (Zneg k) =>
      let d := (2 ^ Zpos k)%Z in
      let q := (Zpos m / d)%Z in
      let r := (Zpos m mod d)%Z in
      if s then
        if (q =? 0)%Z then neg_zero
        else SF2Prim (binary_normalize prec emax (- q) 0 true)
      else
        SF2Prim (binary_normalize prec emax (if (r =? 0)%Z then q else q + 1) 0 false)
  | _ => x
  end.

(** The binary64 value nearest to [(-1)^neg * m * 10^e10], ties to even:
    the value of a decimal literal. *)
Definition decimal_value (neg : bool) (m : N) (e10 : Z) : float :=
  match m with
  | N0 => if neg then neg_zero else 0
  | Npos p =>
      match e10 with
      | Zneg k =>
          SF2Prim (SFdiv prec emax (S754_finite neg p 0)
                     (S754_finite false (Pos.pow 10 k) 0))
      | _ =>
          SF2Prim (binary_normalize prec emax
                     (cond_Zopp neg (Zpos p * 10 ^ e10)) 0 false)
      end
  end.

(** *** Strings *)

Definition code (c : ascii) : nat := nat_of_ascii c.

Definition is_digit (c : ascii) : bool :=
  (48 <=? code c)%nat && (code c <=? 57)%nat.

Definition digit_val (c : ascii) : N := N.of_nat (code c - 48).

(** The white space and line terminators of JavaScript ([WhiteSpace] and
    [LineTerminator] of ECMAScript, which [trim], [parseFloat] and [Number]
    strip), by their UTF-8 bytes.  Of one byte: TAB, LF, VT, FF, CR and
    SPACE. *)
Definition is_space (c : ascii) : bool :=
  ((9 <=? code c)%nat && (code c <=? 13)%nat) || (code c =? 32)%nat.

(** Of two bytes: U+00A0, the no-break space. *)
Definition is_space2 (c1 c2 : ascii) : bool :=
  (code c1 =? 194)%nat && (code c2 =? 160)%nat.

(** Of three bytes: U+1680, U+2000 to U+200A, the line and paragraph
    separators U+2028 and U+2029, U+202F, U+205F, U+3000, and the byte-order
    mark U+FEFF. *)
Definition is_space3 (c1 c2 c3 : ascii) : bool :=
  let a := code c1 in
  let b := code c2 in
  let c := code c3 in
  ((a =? 225) && (b =? 154) && (c =? 128))%nat
  || ((a =? 226) && (b =? 128)
      && (((128 <=? c) && (c <=? 138)) || (c =? 168) || (c =? 169) || (c =? 175)))%nat
  || ((a =? 226) && (b =? 129) && (c =? 159))%nat
  || ((a =? 227) && (b =? 128) && (c =? 128))%nat
  || ((a =? 239) && (b =? 187) && (c =? 191))%nat.

(** [s.trimStart()]: [s] without the white space at its head. *)
Fixpoint trimStart (s : string) : string :=
  match s with
  | String c1 s1 =>
      if is_space c1 then trimStart s1
      else
        match s1 with
        | String c2 s2 =>
            if is_space2 c1 c2 then trimStart s2
            else
              match s2 with
              | String c3 s3 => if is_space3 c1 c2 c3 then trimStart s3 else s
              | EmptyString => s
              end
        | EmptyString => s
        end
  | EmptyString => s
  end.

(** [s.trimEnd()]: [s] up to the point from which all is white space.  (A
    byte inside a character starts no white space, so only whole characters
    are dropped.) *)
Fixpoint trimEnd (s : string) : string :=
  match s with
  | String c s' =>
      match trimStart s with
      | EmptyString => EmptyString
      | _ => String c (trimEnd s')
      end
  | EmptyString => EmptyString
  end.

Definition trim (s : string) : string := trimEnd (trimStart s).

Definition upper (c : ascii) : ascii :=
  if (97 <=? code c)%nat && (code c <=? 122)%nat
  then ascii_of_nat (code c - 32) else c.

(** [s.toUpperCase()], on ASCII letters: the bytes of a character outside
    ASCII are left as they are.  (JavaScript also maps characters outside
    ASCII; what it maps them to holds a character outside ASCII or one of
    the letters F, H, I, J, N, S, W and Y, none of which is in A4, A5,
    LETTER or LEGAL, so the comparisons of [renderHtmlToBuffer] with these
    names are the ones JavaScript makes.) *)
Fixpoint toUpperCase (s : string) : string :=
  match s with
  | String c s' => String (upper c) (toUpperCase s')
  | EmptyString => EmptyString
  end.

(** [s.endsWith(suffix)], for a suffix of ASCII characters (no byte of a
    character outside ASCII is one). *)
Definition endsWith (s suffix : string) : bool :=
  let n := String.length s in
  let k := String.length suffix in
  (k <=? n)%nat && String.eqb (substring (n - k) k s) suffix.

(** [s.slice(0, -2)], on a string whose last two characters are ASCII:
    [parseMarginToMm] applies it after [endsWith] has found a unit. *)
Definition slice_0_m2 (s : string) : string :=
  substring 0 (String.length s - 2) s.

(** *** Numeric literals in strings *)

(** The digits at the head of [s]: their value on top of [acc], their
    count on top of [cnt], and the rest. *)
Fixpoint read_digits (s : string) (acc : N) (cnt : nat) : N * nat * string :=
  match s with
  | String c s' =>
      if is_digit c then read_digits s' (10 * acc + digit_val c)%N (S cnt)
      else (acc, cnt, s)
  | EmptyString => (acc, cnt, s)
  end.

Definition read_sign (s : string) : bool * string :=
  match s with
  | String "-"%char s' => (true, s')
  | String "+"%char s' => (false, s')
  | _ => (false, s)
  end.

(** An ExponentPart at the head of [s], if there is a whole one. *)
Definition read_exponent (s : string) : Z * string :=
  match s with
  | String c s' =>
      if Ascii.eqb c "e"%char || Ascii.eqb c "E"%char then
        let (neg, s2) := read_sign s' in
        let '(v, n, rest) := read_digits s2 0%N 0%nat in
        match n with
        | O => (0%Z, s)
        | S _ => (cond_Zopp neg (Z.of_N v), rest)
        end
      else (0%Z, s)
  | EmptyString => (0%Z, s)
  end.

(** The longest prefix of [s] that is a StrDecimalLiteral: its value and
    what follows it. *)
Definition read_StrDecimalLiteral (s : string) : option (float * string) :=
  let (neg, s1) := read_sign s in
  if String.prefix "Infinity" s1 then
    Some (if neg then neg_infinity else infinity,
          substring 8 (String.length s1 - 8) s1)
  else
    let '(ip, ni, s2) := read_digits s1 0%N 0%nat in
    let '(m, nf, s3) :=
      match s2 with
      | String "."%char s2' => read_digits s2' ip 0%nat
      | _ => (ip, 0%nat, s2)
      end in
    match (ni + nf)%nat with
    | O => None
    | S _ =>
        let (ex, s4) := read_exponent s3 in
        Some (decimal_value neg m (ex - Z.of_nat nf), s4)
    end.

(** [parseFloat(s)]. *)
Definition parseFloat (s : string) : float :=
  match read_StrDecimalLiteral (trimStart s) with
  | Some (v, _) => v
  | None => nan
  end.

(** Digits of a radix, for 0x, 0o and 0b literals. *)
Definition radix_digit (radix : N) (c : ascii) : option N :=
  let n := code c in
  let d :=
    if is_digit c then Some (N.of_nat (n - 48))
    else if (97 <=? n)%nat && (n <=? 102)%nat then Some (N.of_nat (n - 87))
    else if (65 <=? n)%nat && (n <=? 70)%nat then Some (N.of_nat (n - 55))
    else None in
  match d with
  | Some v => if (v <? radix)%N then Some v else None
  | None => None
  end.

Fixpoint read_radix (radix : N) (s : string) (acc : N) : option N :=
  match s with
  | String c s' =>
      match radix_digit radix c with
      | Some v => read_radix radix s' (radix * acc + v)%N
      | None => None
      end
  | EmptyString => Some acc
  end.

Definition radix_of (c : ascii) : option N :=
  if Ascii.eqb c "x"%char || Ascii.eqb c "X"%char then Some 16%N
  else if Ascii.eqb c "o"%char || Ascii.eqb c "O"%char then Some 8%N
  else if Ascii.eqb c "b"%char || Ascii.eqb c "B"%char then Some 2%N
  else None.

(** [Number(s)] for a string: the whole trimmed string must be a numeric
    literal; the empty string is 0. *)
Definition StringToNumber (s : string) : float :=
  match trim s with
  | EmptyString => 0
  | String "0"%char (String c (String d ds as body)) as t =>
      match radix_of c with
      | Some radix =>
          match read_radix radix body 0%N with
          | Some v => decimal_value false v 0
          | None => nan
          end
      | None =>
          match read_StrDecimalLiteral t with
          | Some (v, EmptyString) => v
          | _ => nan
          end
      end
  | t =>
      match read_StrDecimalLiteral t with
      | Some (v, EmptyString) => v
      | _ => nan
      end
  end.

(** *** Conversions of values *)

(** [!!v]. *)
Definition truthy (v : value) : bool :=
  match v with
  | VUndefined | VNull => false
  | VBool b => b
  | VNum n => num_truthy n
  | VStr s => negb (String.eqb s EmptyString)
  | VObj _ => true
  end.

(** [a || b]. *)
Definition or_else (a b : value) : value := if truthy a then a else b.

(** [Number(v)]: the number, or the TypeError of an object that has no
    primitive value. *)
Definition Number (v : value) : outcome float :=
  match v with
  | VUndefined => Ok nan
  | VNull => Ok 0
  | VBool b => Ok (if b then 1 else 0)
  | VNum n => Ok n
  | VStr s => Ok (StringToNumber s)
  | VObj (Some n) => Ok n
  | VObj None => Throw "TypeError: Cannot convert object to primitive value"
  end.

(** [v === 'text']. *)
Definition is_string (v : value) (text : string) : bool :=
  match v with
  | VStr s => String.eqb s text
  | _ => false
  end.

End JS.

(** ** [src/render.js] *)

Module Render.
Import JS.

(** [PAPER_SIZES], and [PAPER_SIZES.has(p)]. *)
Definition PAPER_SIZES : list string :=
  ["A4"; "A5"; "LETTER"; "LEGAL"]%string.

Definition PAPER_SIZES_has (p : string) : bool :=
  existsb (String.eqb p) PAPER_SIZES.

(** [parseMarginToMm(m)].  A value that is neither falsy, a number nor a
    string has no [endsWith] to call. *)
Definition parseMarginToMm (m : value) : outcome float :=
  if negb (truthy m) then Ok 0
  else
    match m with
    | VNum n => Ok n
    | VStr s =>
        if endsWith s "mm" then Ok (parseFloat (slice_0_m2 s))
        else if endsWith s "cm" then Ok (parseFloat (slice_0_m2 s) * 10)
        else if endsWith s "in" then Ok (parseFloat (slice_0_m2 s) * 25.4)
        else Ok (parseFloat s)
    | _ => Throw "TypeError: m.endsWith is not a function"
    end.

(** [clampScale(s)] at the type of its one call, [clampScale(Number(..))]:
    [s] is a number, so the first test of the source, [s === null ||
    s === undefined], is false; [None] is the [null] it returns. *)
Definition clampScale (s : float) : option float :=
  if is_nan s then None
  else if s <? 0.1 then Some 0.1
  else if 2 <? s then Some 2
  else Some s.

(** The options of a request; a missing property is [VUndefined]. *)
Record Options : Type := {
  format : value;
  orientation : value;
  margin : value;
  single : value;
  scale : value;
  png : value;
  dpi : value
}.

(** What [page.evaluate] measures. *)
Record ContentBox : Type := { width : float; height : float }.

(** *** The fitting computation (lines 72 to 96) *)

Definition pxPerMm : float := 96 / 25.4.

(** [paper]: line 73. *)
Definition paper_of (opts : Options) : outcome string :=
  match or_else (format opts) (VStr "A4") with
  | VStr s => Ok (toUpperCase s)
  | _ => Throw "TypeError: (opts.format || 'A4').toUpperCase is not a function"
  end.

(** [paperMm], as [(w, h)]: lines 74 to 77. *)
Definition paperMm (paper : string) : float * float :=
  if String.eqb paper "A5" then (148, 210)
  else if String.eqb paper "LETTER" then (216, 279)
  else if String.eqb paper "LEGAL" then (216, 356)
  else (210, 297).

(** [opts.orientation === 'landscape']. *)
Definition isLandscape (opts : Options) : bool :=
  is_string (orientation opts) "landscape".

(** [(paperWidthMm, paperHeightMm)]: lines 79 and 80. *)
Definition orient (opts : Options) (mm : float * float) : float * float :=
  if isLandscape opts then (snd mm, fst mm) else mm.

(** The margin conversion of line 82, [parseMarginToMm(m) || 0]. *)
Definition parseMarginToMm_or_0 (m : value) : outcome float :=
  obind (parseMarginToMm m) (fun mm => Ok (num_or mm 0)).

(** [marginMm]: line 82. *)
Definition marginMm_of (opts : Options) : outcome float :=
  parseMarginToMm_or_0 (or_else (margin opts) (VStr "10mm")).

(** Lines 83 and 84, for one side of the paper. *)
Definition availablePx (sideMm marginMm : float) : float :=
  Math_max 1 ((sideMm - 2 * marginMm) * pxPerMm).

(** [scale] after lines 86 to 90. *)
Definition computedScale (opts : Options) (contentSize : ContentBox)
    (availableWidthPx availableHeightPx : float) : float :=
  let scale := availableWidthPx / width contentSize in
  if truthy (single opts) then
    let scaleH := availableHeightPx / height contentSize in
    Math_min scale scaleH
  else scale.

(** [scale] after lines 91 to 94, or what [Number(opts.scale)] throws. *)
Definition overrideScale (opts : Options) (scale0 : float) : outcome float :=
  if truthy (scale opts) then
    obind (Number (scale opts)) (fun n =>
    match clampScale n with
    | Some cl => Ok (if num_truthy cl then cl else scale0)
    | None => Ok scale0
    end)
  else Ok scale0.

(** [scale] after lines 95 and 96. *)
Definition safetyClamp (scale0 : float) : float :=
  let scale1 := if scale0 <? 0.1 then 0.1 else scale0 in
  if 2 <? scale1 then 2 else scale1.

(** The local variables of lines 72 to 96. *)
Record Fit : Type := {
  paper : string;
  paperWidthMm : float;
  paperHeightMm : float;
  marginMm : float;
  availableWidthPx : float;
  availableHeightPx : float;
  scaleComputed : float;     (* scale after line 90 *)
  scaleChosen : float;       (* scale after line 94 *)
  scaleFinal : float         (* scale after line 96 *)
}.

Definition fit (opts : Options) (contentSize : ContentBox) : outcome Fit :=
  obind (paper_of opts) (fun paper =>
  let '(paperWidthMm, paperHeightMm) := orient opts (paperMm paper) in
  obind (marginMm_of opts) (fun marginMm =>
  let availableWidthPx := availablePx paperWidthMm marginMm in
  let availableHeightPx := availablePx paperHeightMm marginMm in
  let scale0 := computedScale opts contentSize availableWidthPx availableHeightPx in
  obind (overrideScale opts scale0) (fun scale1 =>
  Ok {| paper := paper;
        paperWidthMm := paperWidthMm;
        paperHeightMm := paperHeightMm;
        marginMm := marginMm;
        availableWidthPx := availableWidthPx;
        availableHeightPx := availableHeightPx;
        scaleComputed := scale0;
        scaleChosen := scale1;
        scaleFinal := safetyClamp scale1 |}))).

(** *** The rendering backend *)

Record ContextOptions : Type := {
  deviceScaleFactor : option float;
  viewport : option (float * float)
}.

Record Margins : Type := { top : value; bottom : value; left : value; right : value }.

Record PdfOptions : Type := {
  printBackground : bool;
  pdf_format : string;
  landscape : bool;
  pdf_margin : Margins;
  pdf_scale : float
}.

(** The calls made on the backend and the logger, in order. *)
Inductive call : Type :=
| LoggerInfo (msg : string)
| Launch
| NewContext (o : ContextOptions)
| NewPage
| SetContent (html : string)
| Evaluate
| SetViewportSize (w h : float)
| Screenshot (fullPage : bool)
| Pdf (o : PdfOptions)
| PageClose
| ContextClose.

(** How the backend answers each call of a request: every one may throw.
    What the page measures and what a screenshot holds depend on the device
    scale factor and the viewport of the page at that time, which
    [evaluate] and [screenshot] are given. *)
Record Backend : Type := {
  launch : outcome unit;
  newContext : ContextOptions -> outcome unit;
  newPage : outcome unit;
  setContent : string -> outcome unit;
  evaluate : ContextOptions -> string -> outcome ContentBox;
  setViewportSize : float -> float -> outcome unit;
  screenshot : ContextOptions -> bool -> outcome string;
  pdf : PdfOptions -> outcome string;
  page_close : outcome unit;
  context_close : outcome unit
}.

(** The state a request runs in: the module's [browser] variable (set or
    not), the contexts and pages that are open, the device scale factor and
    the viewport of the page of the request (those of its context when it
    is opened, the viewport then as resized), and the calls made so far
    (latest first). *)
Record World : Type := {
  browser : bool;
  openContexts : nat;
  openPages : nat;
  page : ContextOptions;
  calls : list call
}.

Definition M (A : Type) : Type := World -> outcome A * World.

Definition ret {A} (a : A) : M A := fun w => (Ok a, w).

Definition bind {A B} (m : M A) (f : A -> M B) : M B :=
  fun w =>
    match m w with
    | (Ok a, w') => f a w'
    | (Throw e, w') => (Throw e, w')
    end.

Notation "x <- m ;; k" := (bind m (fun x => k))
  (at level 61, m at next level, right associativity).
Notation "m ;;; k" := (bind m (fun _ => k))
  (at level 61, right associativity).

Definition lift {A} (x : outcome A) : M A := fun w => (x, w).

(** [try { body } finally { fin }]: [fin] runs on every exit of [body]; if
    [fin] throws, its error is what the statement throws. *)
Definition try_finally {A} (body : M A) (fin : M unit) : M A :=
  fun w =>
    let (r, w1) := body w in
    match fin w1 with
    | (Ok _, w2) => (r, w2)
    | (Throw e, w2) => (Throw e, w2)
    end.

(** [try { m } catch (e) { }]. *)
Definition try_catch_ignore (m : M unit) : M unit :=
  fun w => let (_, w') := m w in (Ok tt, w').

(** A call on the backend: recorded, and on success the state is updated. *)
Definition perform {A} (c : call) (r : outcome A) (upd : World -> World) : M A :=
  fun w =>
    let w1 := {| browser := browser w; openContexts := openContexts w;
                 openPages := openPages w; page := page w;
                 calls := c :: calls w |} in
    match r with
    | Ok a => (Ok a, upd w1)
    | Throw e => (Throw e, w1)
    end.

(** A call whose answer depends on the page as it is. *)
Definition perform_on {A} (c : call) (r : ContextOptions -> outcome A) : M A :=
  fun w => perform c (r (page w)) (fun w1 => w1) w.

Definition logger_info (msg : string) : M unit :=
  perform (LoggerInfo msg) (Ok tt) (fun w => w).

Definition set_browser (b : bool) (w : World) : World :=
  {| browser := b; openContexts := openContexts w;
     openPages := openPages w; page := page w; calls := calls w |}.

Definition add_context (w : World) : World :=
  {| browser := browser w; openContexts := S (openContexts w);
     openPages := openPages w; page := page w; calls := calls w |}.

(** A page opened in a context created with [contextOptions]. *)
Definition add_page (contextOptions : ContextOptions) (w : World) : World :=
  {| browser := browser w; openContexts := openContexts w;
     openPages := S (openPages w); page := contextOptions; calls := calls w |}.

(** The page after a [setViewportSize] that returned. *)
Definition resize_page (width height : float) (w : World) : World :=
  {| browser := browser w; openContexts := openContexts w;
     openPages := openPages w;
     page := {| deviceScaleFactor := deviceScaleFactor (page w);
                viewport := Some (width, height) |};
     calls := calls w |}.

Definition drop_page (w : World) : World :=
  {| browser := browser w; openContexts := openContexts w;
     openPages := pred (openPages w); page := page w; calls := calls w |}.

Definition drop_context (w : World) : World :=
  {| browser := browser w; openContexts := pred (openContexts w);
     openPages := openPages w; page := page w; calls := calls w |}.

(** [initBrowser()]. *)
Definition initBrowser (be : Backend) : M unit :=
  fun w =>
    if browser w then ret tt w
    else
      (logger_info "Launching Playwright browser..." ;;;
       perform Launch (launch be) (set_browser true) ;;;
       logger_info "Browser launched.") w.

(** What [renderHtmlToBuffer] returns. *)
Record Result : Type := {
  r_buffer : string;
  r_scale : float;
  r_contentSize : ContentBox;
  r_paper : string;
  r_orientation : value
}.

(** [dpi]: line 49, or what [Number(opts.dpi)] throws. *)
Definition dpi_of (opts : Options) : outcome float :=
  if truthy (dpi opts) then
    obind (Number (dpi opts)) (fun n => Ok (if 0 <? n then n else 96))
  else Ok 96.

(** [contextOptions]: lines 48 to 56. *)
Definition contextOptions_of (opts : Options) : outcome ContextOptions :=
  obind (dpi_of opts) (fun dpi =>
  Ok (if truthy (png opts) then
        {| deviceScaleFactor := Some (dpi / 96);
           viewport := Some (1280, 800) |}
      else
        {| deviceScaleFactor := None; viewport := None |})).

(** [pdfOptions]: lines 105 to 111. *)
Definition pdfOptions_of (opts : Options) (f : Fit) : PdfOptions :=
  let m := or_else (margin opts) (VStr "10mm") in
  {| printBackground := true;
     pdf_format := if PAPER_SIZES_has (paper f) then paper f else "A4"%string;
     landscape := isLandscape opts;
     pdf_margin := {| top := m; bottom := m; left := m; right := m |};
     pdf_scale := scaleFinal f |}.

(** The [try] block: lines 62 to 115.  (The 100 ms pause of line 63 does
    nothing to the state.)  A [setViewportSize] that throws is taken to
    leave the viewport of the page as it was. *)
Definition renderBody (be : Backend) (html : string) (opts : Options) : M Result :=
  perform (SetContent html) (setContent be html) (fun w => w) ;;;
  contentSize <- perform_on Evaluate (fun p => evaluate be p html) ;;
  f <- lift (fit opts contentSize) ;;
  buffer <-
    (if truthy (png opts) then
       let targetWidth := Math_max 1 (Math_ceil (width contentSize * scaleFinal f)) in
       let targetHeight :=
         if truthy (single opts)
         then Math_max 1 (Math_ceil (height contentSize * scaleFinal f))
         else Math_max 1 (Math_ceil (availableHeightPx f)) in
       try_catch_ignore
         (perform (SetViewportSize targetWidth targetHeight)
                  (setViewportSize be targetWidth targetHeight)
                  (resize_page targetWidth targetHeight)) ;;;
       perform_on (Screenshot (truthy (single opts)))
                  (fun p => screenshot be p (truthy (single opts)))
     else
       perform (Pdf (pdfOptions_of opts f)) (pdf be (pdfOptions_of opts f)) (fun w => w)) ;;
  ret {| r_buffer := buffer;
         r_scale := scaleFinal f;
         r_contentSize := contentSize;
         r_paper := paper f;
         r_orientation := or_else (orientation opts) (VStr "portrait") |}.

(** The [finally] block: lines 117 and 118. *)
Definition teardown (be : Backend) : M unit :=
  perform PageClose (page_close be) drop_page ;;;
  perform ContextClose (context_close be) drop_context.

(** Lines 47 to 59: the shared browser, the options of the context, then
    the context and the page of this request. *)
Definition openSession (be : Backend) (opts : Options) : M unit :=
  initBrowser be ;;;
  contextOptions <- lift (contextOptions_of opts) ;;
  perform (NewContext contextOptions) (newContext be contextOptions) add_context ;;;
  perform NewPage (newPage be) (add_page contextOptions).

(** [renderHtmlToBuffer(html, opts)]. *)
Definition renderHtmlToBuffer (be : Backend) (html : string) (opts : Options) : M Result :=
  openSession be opts ;;;
  try_finally (renderBody be html opts) (teardown be).

End Render.

(** ** Sample requests *)

Module Examples.
Import JS Render.

(** A backend on which every call succeeds, measuring 800 x 600 pixels. *)
Definition be_ok : Backend :=
  {| launch := Ok tt;
     newContext := fun _ => Ok tt;
     newPage := Ok tt;
     setContent := fun _ => Ok tt;
     evaluate := fun _ _ => Ok {| width := 800; height := 600 |};
     setViewportSize := fun _ _ => Ok tt;
     screenshot := fun _ _ => Ok "png bytes"%string;
     pdf := fun _ => Ok "pdf bytes"%string;
     page_close := Ok tt;
     context_close := Ok tt |}.

(** The same backend, except that [page.close()] throws. *)
Definition be_close_throws : Backend :=
  {| launch := Ok tt;
     newContext := fun _ => Ok tt;
     newPage := Ok tt;
     setContent := fun _ => Ok tt;
     evaluate := fun _ _ => Ok {| width := 800; height := 600 |};
     setViewportSize := fun _ _ => Ok tt;
     screenshot := fun _ _ => Ok "png bytes"%string;
     pdf := fun _ => Ok "pdf bytes"%string;
     page_close := Throw "page.close: Target closed";
     context_close := Ok tt |}.

(** A process whose browser is not launched yet. *)
Definition w_start : World :=
  {| browser := false; openContexts := 0; openPages := 0;
     page := {| deviceScaleFactor := None; viewport := None |};
     calls := [] |}.

(** The options of a request that gives none: the defaults that
    [server.js] merges in. *)
Definition defaults : Options :=
  {| format := VStr "A4";
     orientation := VStr "portrait";
     margin := VStr "10mm";
     single := VBool false;
     scale := VNull;
     png := VBool false;
     dpi := VNum 96 |}.

Definition with_scale (v : value) (o : Options) : Options :=
  {| format := format o; orientation := orientation o; margin := margin o;
     single := single o; scale := v; png := png o; dpi := dpi o |}.

Definition with_dpi (v : value) (o : Options) : Options :=
  {| format := format o; orientation := orientation o; margin := margin o;
     single := single o; scale := scale o; png := png o; dpi := v |}.

Definition with_format (v : value) (o : Options) : Options :=
  {| format := v; orientation := orientation o; margin := margin o;
     single := single o; scale := scale o; png := png o; dpi := dpi o |}.

Definition with_orientation (v : value) (o : Options) : Options :=
  {| format := format o; orientation := v; margin := margin o;
     single := single o; scale := scale o; png := png o; dpi := dpi o |}.

Definition with_single (v : value) (o : Options) : Options :=
  {| format := format o; orientation := orientation o; margin := margin o;
     single := v; scale := scale o; png := png o; dpi := dpi o |}.

Definition with_png (v : value) (o : Options) : Options :=
  {| format := format o; orientation := orientation o; margin := margin o;
     single := single o; scale := scale o; png := v; dpi := dpi o |}.

(** A backend whose page is twice as wide when the device scale factor is
    above 1 (a page with a media query on the resolution). *)
Definition be_measures_by_factor : Backend :=
  {| launch := Ok tt;
     newContext := fun _ => Ok tt;
     newPage := Ok tt;
     setContent := fun _ => Ok tt;
     evaluate := fun p _ =>
       match deviceScaleFactor p with
       | Some x => if 1 <? x then Ok {| width := 1600; height := 600 |}
                   else Ok {| width := 800; height := 600 |}
       | None => Ok {| width := 800; height := 600 |}
       end;
     setViewportSize := fun _ _ => Ok tt;
     screenshot := fun _ _ => Ok "png bytes"%string;
     pdf := fun _ => Ok "pdf bytes"%string;
     page_close := Ok tt;
     context_close := Ok tt |}.

Definition box_800_600 : ContentBox := {| width := 800; height := 600 |}.

(** The no-break space U+00A0 and the byte-order mark U+FEFF, in UTF-8. *)
Definition nbsp : string :=
  String (ascii_of_nat 194) (String (ascii_of_nat 160) EmptyString).

Definition bom : string :=
  String (ascii_of_nat 239) (String (ascii_of_nat 187)
    (String (ascii_of_nat 191) EmptyString)).

(** A JSON object whose [toString] is not callable: [Number] of it throws. *)
Definition no_primitive : value := VObj None.

End Examples.

(** ** What the properties are stated with *)

Module Statements.
Import JS Render Examples.

(** [x] is not NaN. *)
Definition nn (x : float) : Prop := is_nan x = false.

(** [x] is finite and not zero. *)
Definition finite_nz (x : float) : bool :=
  match Prim2SF x with
  | S754_finite _ _ _ => true
  | _ => false
  end.

(** The six comparisons of two floats, read off one three-way comparison. *)
Definition lt_of (c : option comparison) : bool :=
  match c with Some Lt => true | _ => false end.
Definition le_of (c : option comparison) : bool :=
  match c with Some (Lt | Eq) => true | _ => false end.
Definition gt_of (c : option comparison) : bool :=
  match c with Some Gt => true | _ => false end.
Definition ge_of (c : option comparison) : bool :=
  match c with Some (Gt | Eq) => true | _ => false end.
Definition eq_of (c : option comparison) : bool :=
  match c with Some Eq => true | _ => false end.

(** The rational number that a finite float is (0 for the others). *)
Definition to_Q (x : float) : Q :=
  match Prim2SF x with
  | S754_finite s m e => (inject_Z (cond_Zopp s (Zpos m)) * Qpower 2 e)%Q
  | _ => 0%Q
  end.

(** The scale that the fitting ends with, or what it throws. *)
Definition finalScale_of (opts : Options) (cs : ContentBox) : outcome float :=
  obind (fit opts cs) (fun f => Ok (scaleFinal f)).

(** C4 as the specification states it, for one manual-scale value [v]: the
    fitting ends with the scale it ends with when there is no manual scale. *)
Definition falls_back_to_computed
    (v : value) (opts : Options) (cs : ContentBox) : Prop :=
  finalScale_of (with_scale v opts) cs = finalScale_of (with_scale VUndefined opts) cs.

(** C5 as the specification states it, for one request: the request ends
    with the outcome of the [try] block, and the context and the page it
    opened are closed. *)
Definition released_with_primary_outcome
    (be : Backend) (html : string) (opts : Options) (w : World) : Prop :=
  forall w1, openSession be opts w = (Ok tt, w1) ->
    fst (renderHtmlToBuffer be html opts w) = fst (renderBody be html opts w1) /\
    openContexts (snd (renderHtmlToBuffer be html opts w)) = openContexts w /\
    openPages (snd (renderHtmlToBuffer be html opts w)) = openPages w.




(** A backend that answers every call of a request without throwing, and
    measures [cs] in a page of a context created with [ctx]. *)
Definition backend_succeeds
    (be : Backend) (html : string) (ctx : ContextOptions) (cs : ContentBox) : Prop :=
  launch be = Ok tt /\
  newContext be ctx = Ok tt /\
  newPage be = Ok tt /\
  setContent be html = Ok tt /\
  evaluate be ctx html = Ok cs /\
  (forall o, exists b, pdf be o = Ok b) /\
  (forall p fp, exists b, screenshot be p fp = Ok b) /\
  page_close be = Ok tt /\
  context_close be = Ok tt.

(** The decimal writing of a natural number, and the binary64 number
    nearest to it (ties to even). *)
Definition decimal (n : N) : string :=
  DecimalString.NilEmpty.string_of_uint (N.to_uint n).

Definition nearest (n : N) : float :=
  SF2Prim (binary_normalize prec emax (Z.of_N n) 0 false).

(** A text that does not go on with a digit. *)
Definition no_digit_ahead (rest : string) : Prop :=
  match rest with
  | String c _ => is_digit c = false
  | EmptyString => True
  end.

(** A text that does not go on with a digit, a point or an exponent: what
    may follow a whole number without being read with it. *)
Definition ends_number (rest : string) : Prop :=
  match rest with
  | String c _ =>
      is_digit c = false /\ c <> "."%char /\ c <> "e"%char /\ c <> "E"%char
  | EmptyString => True
  end.

(** Options whose paper name is a string (or falsy) and whose margin is a
    string or a number (or falsy), as the API documents them. *)
Definition well_typed (opts : Options) : Prop :=
  (truthy (format opts) = false \/ exists s, format opts = VStr s) /\
  (truthy (margin opts) = false \/ (exists s, margin opts = VStr s) \/
   exists n, margin opts = VNum n).

End Statements.

(** ** More builtins, for [src/auth.js] and [server.js] *)

Module JSMore.
Import JS.

Definition lower (c : ascii) : ascii :=
  if (65 <=? code c)%nat && (code c <=? 90)%nat
  then ascii_of_nat (code c + 32) else c.

(** [s.toLowerCase()], on ASCII letters: the bytes of a character outside
    ASCII are left as they are.  The one use compares the start of the
    result with [bearer] and a space; no character outside ASCII has a
    lower case that starts with one of its letters, so the comparison is
    the one JavaScript makes. *)
Fixpoint toLowerCase (s : string) : string :=
  match s with
  | String c s' => String (lower c) (toLowerCase s')
  | EmptyString => EmptyString
  end.

(** [s.startsWith(p)]. *)
Definition startsWith (s p : string) : bool := String.prefix p s.

(** [s.slice(n)] for [n >= 0], on a string whose first [n] characters are
    ASCII (one byte each): line 45 applies it after the comparison with
    [bearer] and a space has succeeded. *)
Definition slice_from (n : nat) (s : string) : string :=
  substring n (String.length s - n) s.

Definition is_lf (c : ascii) : bool := (code c =? 10)%nat.
Definition is_cr (c : ascii) : bool := (code c =? 13)%nat.

(** [s.split(/\r?\n/)]: the pieces between line feeds, a carriage return
    right before a line feed being part of the separator. *)
Fixpoint split_lines (s : string) : list string :=
  match s with
  | EmptyString => [EmptyString]
  | String c s' =>
      let rest := split_lines s' in
      if is_lf c then EmptyString :: rest
      else if is_cr c && match s' with String d _ => is_lf d | EmptyString => false end
      then rest
      else
        match rest with
        | l :: ls => String c l :: ls
        | [] => [String c EmptyString]
        end
  end.

(** A [Set] of strings, in insertion order. *)
Definition set_has (s : list string) (k : string) : bool :=
  existsb (String.eqb k) s.

Definition set_add (k : string) (s : list string) : list string :=
  if set_has s k then s else s ++ [k].

(** [!!s] for a string or [null]/[undefined]. *)
Definition text_truthy (s : option string) : bool :=
  match s with
  | Some t => negb (String.eqb t EmptyString)
  | None => false
  end.

(** [a || b] where [a] is a string, [null] or [undefined]. *)
Definition text_or (a : option string) (b : string) : string :=
  match a with
  | Some t => if text_truthy a then t else b
  | None => b
  end.

(** [Math.ceil(x / 1000)] for an integer [x]. *)
Definition ceil_div_1000 (x : Z) : Z := (- ((- x) / 1000))%Z.

End JSMore.

(** ** [src/rateLimit.js] *)

Module RateLimit.

(** A record of [counters]. *)
Record Rec : Type := { windowStart : Z; count : Z }.

(** The [counters] map, from id to record. *)
Definition Counters : Type := string -> option Rec.

Definition no_counters : Counters := fun _ => None.

(** [counters.set(id, rec)]. *)
Definition counters_set (counters : Counters) (id : string) (rec : Rec) : Counters :=
  fun k => if String.eqb k id then Some rec else counters k.

(** What [isRateLimitedFor] returns. *)
Record Verdict : Type := { limited : bool; remaining : Z; resetMs : Z }.

Section Config.

(** [RATE_LIMIT_MAX] and [RATE_LIMIT_WINDOW_MS] of [src/config.js], for
    integer settings (the defaults are 120 and 60000).  [Date.now()] and the
    counts are integers too, on which the arithmetic of JavaScript numbers
    is that of [Z] (below 2^53). *)
Variables RATE_LIMIT_MAX RATE_LIMIT_WINDOW_MS : Z.

(** [isRateLimitedFor(id)], when [Date.now()] is [now]. *)
Definition isRateLimitedFor (now : Z) (id : string) (counters : Counters)
  : Verdict * Counters :=
  match counters id with
  | None =>
      ({| limited := false; remaining := RATE_LIMIT_MAX - 1;
          resetMs := RATE_LIMIT_WINDOW_MS |},
       counters_set counters id {| windowStart := now; count := 1 |})
  | Some rec =>
      let elapsed := (now - windowStart rec)%Z in
      if (RATE_LIMIT_WINDOW_MS <? elapsed)%Z then
        ({| limited := false; remaining := RATE_LIMIT_MAX - 1;
            resetMs := RATE_LIMIT_WINDOW_MS |},
         counters_set counters id {| windowStart := now; count := 1 |})
      else
        let rec' := {| windowStart := windowStart rec; count := count rec + 1 |} in
        let remaining := Z.max 0 (RATE_LIMIT_MAX - count rec') in
        let counters' := counters_set counters id rec' in
        if (RATE_LIMIT_MAX <? count rec')%Z then
          ({| limited := true; remaining := 0;
              resetMs := RATE_LIMIT_WINDOW_MS - elapsed |}, counters')
        else
          ({| limited := false; remaining := remaining;
              resetMs := RATE_LIMIT_WINDOW_MS - elapsed |}, counters')
  end.

(** A sequence of calls, each at its time and for its id: the verdicts in
    order, and the counters left. *)
Fixpoint serve (reqs : list (Z * string)) (counters : Counters)
  : list (string * Verdict) * Counters :=
  match reqs with
  | [] => ([], counters)
  | (now, id) :: reqs' =>
      let (v, counters1) := isRateLimitedFor now id counters in
      let (vs, counters2) := serve reqs' counters1 in
      ((id, v) :: vs, counters2)
  end.

End Config.

(** The calls and the verdicts of one id. *)
Definition calls_of (id : string) (reqs : list (Z * string)) : list (Z * string) :=
  filter (fun r => String.eqb (snd r) id) reqs.

Definition verdicts_of (id : string) (vs : list (string * Verdict)) : list Verdict :=
  map snd (filter (fun r => String.eqb (fst r) id) vs).

(** Times that never go back. *)
Fixpoint nondecreasing (t0 : Z) (reqs : list (Z * string)) : Prop :=
  match reqs with
  | [] => True
  | (t, _) :: reqs' => (t0 <= t)%Z /\ nondecreasing t reqs'
  end.

(** What every verdict satisfies when the maximum is at least 1, the window
    is not negative and the clock does not go back, from empty counters on. *)
Definition verdict_in_bounds (MAX WINDOW : Z) (v : Verdict) : Prop :=
  (0 <= remaining v <= MAX - 1)%Z /\
  (0 <= resetMs v <= WINDOW)%Z /\
  (limited v = true -> remaining v = 0%Z).

End RateLimit.

(** ** [src/auth.js] *)

Module Auth.
Import JS JSMore.

(** The module's state: [apiKeySet] and [apiKeysFileExists]. *)
Record AuthState : Type := {
  apiKeySet : list string;
  apiKeysFileExists : bool
}.

(** What the file system answers about [API_KEYS_FILE]. *)
Inductive KeysFile : Type :=
| Missing
| Readable (txt : string)
| Unreadable (err : string).

(** What [loadApiKeysFromFile] logs. *)
Inductive LogEntry : Type :=
| Debug_loaded (n : nat)
| Error_loading (err : string).

(** Lines 19 to 25: the set of the lines that are keys. *)
Definition keys_of_lines (lines : list string) : list string :=
  fold_left
    (fun s raw =>
       let line := trim raw in
       if negb (text_truthy (Some line)) then s
       else if startsWith line "#" then s
       else set_add line s)
    lines [].

(** [loadApiKeysFromFile()]: the state it leaves and what it logs. *)
Definition loadApiKeysFromFile (f : KeysFile) : AuthState * option LogEntry :=
  match f with
  | Missing => ({| apiKeySet := []; apiKeysFileExists := false |}, None)
  | Readable txt =>
      let s := keys_of_lines (split_lines txt) in
      ({| apiKeySet := s; apiKeysFileExists := true |},
       Some (Debug_loaded (List.length s)))
  | Unreadable err =>
      ({| apiKeySet := []; apiKeysFileExists := false |},
       Some (Error_loading err))
  end.

(** [API_KEY_ENV] of [src/config.js]: [process.env.API_KEY || null]. *)
Definition API_KEY_ENV_of (env_API_KEY : option string) : option string :=
  if text_truthy env_API_KEY then env_API_KEY else None.

(** The headers [validateAuth] reads, [req.get(..)] of each. *)
Record Headers : Type := {
  authorization : option string;
  x_api_key : option string
}.

Record AuthResult : Type := {
  valid : bool;
  authRequired : bool;
  provided : option string
}.

(** [provided]: lines 41 to 48. *)
Definition provided_of (req : Headers) : option string :=
  if text_truthy (authorization req)
     && match authorization req with
        | Some authHeader => startsWith (toLowerCase authHeader) "bearer "
        | None => false
        end
  then option_map (fun authHeader => trim (slice_from 7 authHeader))
                  (authorization req)
  else if text_truthy (x_api_key req)
  then option_map trim (x_api_key req)
  else None.

(** [validateAuth(req)]. *)
Definition validateAuth (API_KEY_ENV : option string) (st : AuthState)
    (req : Headers) : AuthResult :=
  let provided := provided_of req in
  if apiKeysFileExists st && (0 <? List.length (apiKeySet st))%nat then
    {| valid :=
         text_truthy provided &&
         match provided with Some k => set_has (apiKeySet st) k | None => false end;
       authRequired := true;
       provided := provided |}
  else if text_truthy API_KEY_ENV then
    {| valid :=
         text_truthy provided &&
         match provided, API_KEY_ENV with
         | Some k, Some e => String.eqb k e
         | _, _ => false
         end;
       authRequired := true;
       provided := provided |}
  else
    {| valid := true; authRequired := false; provided := provided |}.

Definition lf : string := String (ascii_of_nat 10) EmptyString.
Definition crlf : string := String (ascii_of_nat 13) lf.

(** A keys file as an editor may save it: a byte-order mark and a first
    key, a comment, a key with blanks and a no-break space around it and a
    carriage return, an empty line, a line of one no-break space, and a
    last key. *)
Definition sample_keys_file : string :=
  (Examples.bom ++ "secret-0" ++ lf ++
   "# keys" ++ lf ++
   "  secret-1 " ++ Examples.nbsp ++ crlf ++
   lf ++
   Examples.nbsp ++ lf ++
   "secret-2")%string.

(** A line that is a key: what it trims to is not empty and is no comment. *)
Definition key_line (raw k : string) : Prop :=
  trim raw = k /\ k <> EmptyString /\ startsWith k "#" = false.

End Auth.

(** ** [server.js] *)

Module Server.
Import JS JSMore Render.

(** What the middleware reads of a request beside its headers. *)
Record Peer : Type := {
  ip : option string;
  remoteAddress : option string
}.

(** [provided || (req.ip || req.connection.remoteAddress || 'unknown')]. *)
Definition rate_limit_id (provided : option string) (peer : Peer) : string :=
  text_or provided
    (text_or (ip peer) (text_or (remoteAddress peer) "unknown")).

(** The rate-limit headers of a response: Limit, Remaining, Reset. *)
Record RateHeaders : Type := {
  x_ratelimit_limit : Z;
  x_ratelimit_remaining : Z;
  x_ratelimit_reset : Z
}.

(** How the middleware ends. *)
Inductive Passage : Type :=
| Unauthorized_401
| TooMany_429 (h : RateHeaders) (retry_after : Z)
| Next (h : RateHeaders) (authId : string).

(** The auth and rate-limit middleware (lines 138 to 164), when
    [Date.now()] is [now]. *)
Definition middleware (RATE_LIMIT_MAX RATE_LIMIT_WINDOW_MS : Z)
    (API_KEY_ENV : option string) (st : Auth.AuthState)
    (now : Z) (req : Auth.Headers) (peer : Peer)
    (counters : RateLimit.Counters) : Passage * RateLimit.Counters :=
  let a := Auth.validateAuth API_KEY_ENV st req in
  if negb (Auth.valid a) then (Unauthorized_401, counters)
  else
    let id := rate_limit_id (Auth.provided a) peer in
    let (rl, counters') :=
      RateLimit.isRateLimitedFor RATE_LIMIT_MAX RATE_LIMIT_WINDOW_MS now id counters in
    let h := {| x_ratelimit_limit := RATE_LIMIT_MAX;
                x_ratelimit_remaining := RateLimit.remaining rl;
                x_ratelimit_reset := ceil_div_1000 (RateLimit.resetMs rl) |} in
    if RateLimit.limited rl
    then (TooMany_429 h (ceil_div_1000 (RateLimit.resetMs rl)), counters')
    else (Next h id, counters').

(** A request as the middleware sees it, and the time it arrives at. *)
Record Incoming : Type := {
  arrival : Z;
  headers : Auth.Headers;
  peer : Peer
}.

(** The middleware over a sequence of requests, with the keys that are
    loaded throughout: how each ends, and the counters left. *)
Fixpoint serve_all (RATE_LIMIT_MAX RATE_LIMIT_WINDOW_MS : Z)
    (API_KEY_ENV : option string) (st : Auth.AuthState)
    (reqs : list Incoming) (counters : RateLimit.Counters)
  : list Passage * RateLimit.Counters :=
  match reqs with
  | [] => ([], counters)
  | r :: reqs' =>
      let (p, counters1) :=
        middleware RATE_LIMIT_MAX RATE_LIMIT_WINDOW_MS API_KEY_ENV st
                   (arrival r) (headers r) (peer r) counters in
      let (ps, counters2) :=
        serve_all RATE_LIMIT_MAX RATE_LIMIT_WINDOW_MS API_KEY_ENV st reqs' counters1 in
      (p :: ps, counters2)
  end.

Definition is_401 (p : Passage) : bool :=
  match p with
  | Unauthorized_401 => true
  | _ => false
  end.

Definition is_next (p : Passage) : bool :=
  match p with
  | Next _ _ => true
  | _ => false
  end.

(** The requests that [validateAuth] finds valid. *)
Definition authorized (API_KEY_ENV : option string) (st : Auth.AuthState)
    (r : Incoming) : bool :=
  Auth.valid (Auth.validateAuth API_KEY_ENV st (headers r)).

(** [body.options]: each key is absent or holds a value. *)
Record BodyOptions : Type := {
  b_format : option value;
  b_orientation : option value;
  b_margin : option value;
  b_single : option value;
  b_scale : option value;
  b_png : option value;
  b_dpi : option value
}.

Definition assign (default : value) (given : option value) : value :=
  match given with
  | Some v => v
  | None => default
  end.

(** [options]: the [Object.assign] of lines 173 to 182, on the keys that
    [renderHtmlToBuffer] reads. *)
Definition options_of (b : BodyOptions) : Options :=
  {| format := assign (VStr "A4") (b_format b);
     orientation := assign (VStr "portrait") (b_orientation b);
     margin := assign (VStr "10mm") (b_margin b);
     single := assign (VBool false) (b_single b);
     scale := assign VNull (b_scale b);
     png := assign (VBool false) (b_png b);
     dpi := assign (VNum 96) (b_dpi b) |}.

End Server.

(** ** Runs of [renderHtmlToBuffer] *)

Module RenderRuns.
Import JS Render.

(** Requests served one after the other, as [await]ed by the handler: the
    outcome of each, and the state left. *)
Fixpoint serve_requests (be : Backend) (reqs : list (string * Options)) (w : World)
  : list (outcome Result) * World :=
  match reqs with
  | [] => ([], w)
  | (html, opts) :: reqs' =>
      let (r, w1) := renderHtmlToBuffer be html opts w in
      let (rs, w2) := serve_requests be reqs' w1 in
      (r :: rs, w2)
  end.

Definition is_launch (c : call) : bool :=
  match c with
  | Launch => true
  | _ => false
  end.

(** How many times the browser was launched. *)
Definition launches (w : World) : nat := List.length (filter is_launch (calls w)).

Definition is_emission (c : call) : bool :=
  match c with
  | Pdf _ | Screenshot _ | SetViewportSize _ _ => true
  | _ => false
  end.

Definition is_context_close (c : call) : bool :=
  match c with
  | ContextClose => true
  | _ => false
  end.

(** The same backend, with another answer to [context.newPage]. *)
Definition with_newPage (r : outcome unit) (be : Backend) : Backend :=
  {| launch := launch be;
     newContext := newContext be;
     newPage := r;
     setContent := setContent be;
     evaluate := evaluate be;
     setViewportSize := setViewportSize be;
     screenshot := screenshot be;
     pdf := pdf be;
     page_close := page_close be;
     context_close := context_close be |}.


Definition with_margin (v : value) (o : Options) : Options :=
  {| format := format o; orientation := orientation o; margin := v;
     single := single o; scale := scale o; png := png o; dpi := dpi o |}.

(** The options as [renderHtmlToBuffer] reads them: each with its default
    in place of a falsy value, the flags as booleans. *)
Definition normalized (o : Options) : Options :=
  {| format := or_else (format o) (VStr "A4");
     orientation := or_else (orientation o) (VStr "portrait");
     margin := or_else (margin o) (VStr "10mm");
     single := VBool (truthy (single o));
     scale := if truthy (scale o) then scale o else VNull;
     png := VBool (truthy (png o));
     dpi := if truthy (dpi o) then dpi o else VNum 96 |}.



(** A key of [body.options] left out when its value is falsy. *)
Definition drop_falsy (given : option value) : option value :=
  match given with
  | Some v => if truthy v then Some v else None
  | None => None
  end.

Definition without_falsy (b : Server.BodyOptions) : Server.BodyOptions :=
  {| Server.b_format := drop_falsy (Server.b_format b);
     Server.b_orientation := drop_falsy (Server.b_orientation b);
     Server.b_margin := drop_falsy (Server.b_margin b);
     Server.b_single := drop_falsy (Server.b_single b);
     Server.b_scale := drop_falsy (Server.b_scale b);
     Server.b_png := drop_falsy (Server.b_png b);
     Server.b_dpi := drop_falsy (Server.b_dpi b) |}.

(** [closeBrowser()], when [browser.close()] answers [close]. *)
Definition closeBrowser (close : outcome unit) : M unit :=
  fun w =>
    if browser w then
      (logger_info "Closing Playwright browser..." ;;;
       lift close ;;;
       (fun w1 => (Ok tt, set_browser false w1)) ;;;
       logger_info "Browser closed.") w
    else ret tt w.

End RenderRuns.

(** ** The order of the numbers *)

Module Rank.

(** Three integers on which the order of the numbers is lexicographic. *)
Definition r1 (x : spec_float) : Z :=
  match x with
  | S754_infinity s => if s then -2 else 2
  | S754_finite s _ _ => if s then -1 else 1
  | _ => 0
  end.

Definition r2 (x : spec_float) : Z :=
  match x with
  | S754_finite s _ e => if s then - e else e
  | _ => 0
  end.

Definition r3 (x : spec_float) : Z :=
  match x with
  | S754_finite s m _ => if s then Zneg m else Zpos m
  | _ => 0
  end.

Definition below (x y : spec_float) : Prop :=
  (r1 x < r1 y \/
   (r1 x = r1 y /\ (r2 x < r2 y \/ (r2 x = r2 y /\ r3 x < r3 y))))%Z.

Definition level (x y : spec_float) : Prop :=
  (r1 x = r1 y /\ r2 x = r2 y /\ r3 x = r3 y)%Z.

End Rank.

(** ** Facts about binary64 arithmetic *)

Module F64.
Import Statements.

(** *** Rounding never makes a NaN *)

Section Rounding.
Variables prec emax : Z.

Lemma shr_1_nonneg (mrs : shr_record) :
  (0 <= shr_m mrs)%Z -> (0 <= shr_m (shr_1 mrs))%Z.
Proof.
  destruct mrs as [m r s]; simpl.
  destruct m as [|p|p]; simpl; intros H; try lia.
  - destruct p; simpl; lia.
Qed.

Lemma iter_shr_1_nonneg (p : positive) :
  forall mrs, (0 <= shr_m mrs)%Z -> (0 <= shr_m (iter_pos shr_1 p mrs))%Z.
Proof.
  induction p as [p IH|p IH|]; simpl; intros mrs H.
  - apply IH, IH, shr_1_nonneg, H.
  - apply IH, IH, H.
  - apply shr_1_nonneg, H.
Qed.

Lemma shr_nonneg (mrs : shr_record) (e n : Z) :
  (0 <= shr_m mrs)%Z -> (0 <= shr_m (fst (shr mrs e n)))%Z.
Proof.
  intros H. unfold shr. destruct n; simpl; auto using iter_shr_1_nonneg.
Qed.

Lemma shr_m_of_loc (m : Z) (l : location) : shr_m (shr_record_of_loc m l) = m.
Proof. destruct l as [|[]]; reflexivity. Qed.

Lemma shr_fexp_nonneg (m e : Z) (l : location) :
  (0 <= m)%Z -> (0 <= shr_m (fst (shr_fexp prec emax m e l)))%Z.
Proof.
  intros H. unfold shr_fexp. apply shr_nonneg. now rewrite shr_m_of_loc.
Qed.

Lemma round_nearest_even_nonneg (m : Z) (l : location) :
  (0 <= m)%Z -> (0 <= round_nearest_even m l)%Z.
Proof.
  intros H. destruct l as [|[]]; simpl; try lia.
  destruct (Z.even m); lia.
Qed.

Lemma binary_round_aux_not_nan (s : bool) (m e : Z) (l : location) :
  (0 <= m)%Z -> binary_round_aux prec emax s m e l <> S754_nan.
Proof.
  intros H. unfold binary_round_aux.
  pose proof (shr_fexp_nonneg m e l H) as H1.
  destruct (shr_fexp prec emax m e l) as [mrs' e']. simpl in H1.
  pose proof (shr_fexp_nonneg _ e' loc_Exact
                (round_nearest_even_nonneg _ (loc_of_shr_record mrs') H1)) as H2.
  destruct (shr_fexp prec emax _ e' loc_Exact) as [mrs'' e'']. simpl in H2.
  destruct (shr_m mrs'') as [|q|q]; try discriminate; try lia.
  destruct (e'' <=? emax - prec)%Z; discriminate.
Qed.

Lemma binary_round_not_nan (s : bool) (m : positive) (e : Z) :
  binary_round prec emax s m e <> S754_nan.
Proof.
  unfold binary_round.
  destruct (shl_align m e _) as [mz ez].
  apply binary_round_aux_not_nan. lia.
Qed.

Lemma binary_normalize_not_nan (m e : Z) (sz : bool) :
  binary_normalize prec emax m e sz <> S754_nan.
Proof.
  destruct m; simpl; try discriminate; apply binary_round_not_nan.
Qed.

Lemma SFmul_finite_l (sx : bool) (mx : positive) (ex : Z) (y : spec_float) :
  y <> S754_nan -> SFmul prec emax (S754_finite sx mx ex) y <> S754_nan.
Proof.
  destruct y; simpl; intros H; try discriminate; try congruence.
  apply binary_round_aux_not_nan. lia.
Qed.

Lemma SFmul_finite_r (x : spec_float) (sy : bool) (my : positive) (ey : Z) :
  x <> S754_nan -> SFmul prec emax x (S754_finite sy my ey) <> S754_nan.
Proof.
  destruct x; simpl; intros H; try discriminate; try congruence.
  apply binary_round_aux_not_nan. lia.
Qed.

Lemma SFsub_finite_l (sx : bool) (mx : positive) (ex : Z) (y : spec_float) :
  y <> S754_nan -> SFsub prec emax (S754_finite sx mx ex) y <> S754_nan.
Proof.
  destruct y; simpl; intros H; try discriminate; try congruence.
  apply binary_normalize_not_nan.
Qed.

Lemma SFdiv_finite_r (x : spec_float) (sy : bool) (my : positive) (ey : Z) :
  x <> S754_nan -> SFdiv prec emax x (S754_finite sy my ey) <> S754_nan.
Proof.
  destruct x as [sx|sx| |sx mx ex]; simpl; intros H; try discriminate; try congruence.
  unfold SFdiv_core_binary.
  set (e' := Z.min _ _). set (s := (ex - ey - e')%Z).
  set (m' := match s with Z0 => Zpos mx | Zpos _ => Z.shiftl (Zpos mx) s | Zneg _ => 0%Z end).
  assert (Hm : (0 <= m')%Z).
  { unfold m'. destruct s; try lia. apply Z.shiftl_nonneg. lia. }
  pose proof (Z_div_mod m' (Zpos my) eq_refl) as Hd.
  destruct (Z.div_eucl m' (Zpos my)) as [q r].
  apply binary_round_aux_not_nan. nia.
Qed.

End Rounding.

(** *** Comparison *)

Lemma SFcompare_antisym (x y : spec_float) :
  SFcompare y x = option_map CompOpp (SFcompare x y).
Proof.
  destruct x as [sx|sx| |sx mx ex], y as [sy|sy| |sy my ey]; simpl;
    try reflexivity;
    try (destruct sx; reflexivity); try (destruct sy; reflexivity);
    try (destruct sx, sy; reflexivity).
  pose proof (Pos.compare_cont_antisym mx my Eq) as A. simpl in A.
  destruct sx, sy; simpl; try reflexivity;
    rewrite (Z.compare_antisym ex ey);
    destruct (ex ?= ey)%Z; simpl; try reflexivity;
    rewrite <- A; destruct (Pos.compare_cont Eq mx my); reflexivity.
Qed.

Lemma SFcompare_refl (x : spec_float) :
  x <> S754_nan -> SFcompare x x = Some Eq.
Proof.
  destruct x as [s|s| |s m e]; simpl; intros H; try congruence.
  - destruct s; reflexivity.
  - rewrite Z.compare_refl, Pos.compare_cont_refl. destruct s; reflexivity.
Qed.

Lemma SFcompare_None (x y : spec_float) :
  SFcompare x y = None <-> x = S754_nan \/ y = S754_nan.
Proof.
  destruct x as [sx|sx| |sx mx ex], y as [sy|sy| |sy my ey]; simpl;
    split; intros H; try discriminate; auto;
    destruct H as [H|H]; discriminate.
Qed.

Lemma is_nan_Prim2SF (x : float) :
  is_nan x = match Prim2SF x with S754_nan => true | _ => false end.
Proof.
  unfold is_nan. rewrite FloatAxioms.eqb_spec. unfold SFeqb.
  destruct (Prim2SF x) eqn:E; try reflexivity;
    rewrite SFcompare_refl; try reflexivity; discriminate.
Qed.

Lemma nn_Prim2SF (x : float) : nn x <-> Prim2SF x <> S754_nan.
Proof.
  unfold nn. rewrite is_nan_Prim2SF.
  destruct (Prim2SF x); split; intros; congruence.
Qed.

Lemma finite_nz_nn (x : float) : finite_nz x = true -> nn x.
Proof.
  unfold finite_nz. intros H. apply nn_Prim2SF. destruct (Prim2SF x); congruence.
Qed.

Lemma compare_cases (x y : float) :
  exists c : option comparison,
    (x <? y) = lt_of c /\ (x <=? y) = le_of c /\
    (y <? x) = gt_of c /\ (y <=? x) = ge_of c /\
    (x =? y) = eq_of c /\ (y =? x) = eq_of c /\
    (c = None <-> is_nan x = true \/ is_nan y = true).
Proof.
  exists (SFcompare (Prim2SF x) (Prim2SF y)).
  rewrite !FloatAxioms.ltb_spec, !FloatAxioms.leb_spec, !FloatAxioms.eqb_spec.
  unfold SFltb, SFleb, SFeqb.
  rewrite (SFcompare_antisym (Prim2SF x) (Prim2SF y)).
  rewrite SFcompare_None, !is_nan_Prim2SF.
  repeat split.
  - destruct (SFcompare (Prim2SF x) (Prim2SF y)) as [[]|]; reflexivity.
  - destruct (SFcompare (Prim2SF x) (Prim2SF y)) as [[]|]; reflexivity.
  - destruct (SFcompare (Prim2SF x) (Prim2SF y)) as [[]|]; reflexivity.
  - destruct (Prim2SF x), (Prim2SF y); intros [H|H]; auto; discriminate.
  - destruct (Prim2SF x), (Prim2SF y); intros [H|H]; auto; discriminate.
Qed.

Ltac by_compare x y :=
  let c := fresh "c" in
  let H1 := fresh in let H2 := fresh in let H3 := fresh in
  let H4 := fresh in let H5 := fresh in let H6 := fresh in
  let H7 := fresh in
  destruct (compare_cases x y) as (c & H1 & H2 & H3 & H4 & H5 & H7 & H6);
  unfold nn in *;
  rewrite ?H1, ?H2, ?H3, ?H4, ?H5, ?H7 in *;
  destruct c as [[]|]; simpl in *;
  try congruence; try reflexivity; auto;
  try (exfalso; destruct H6 as [H6 _]; destruct (H6 eq_refl); congruence).

Lemma ltb_leb (x y : float) : (x <? y) = true -> (x <=? y) = true.
Proof. intros H. by_compare x y. Qed.

Lemma nlt_le (x y : float) :
  nn x -> nn y -> (x <? y) = false -> (y <=? x) = true.
Proof. intros Hx Hy H. by_compare x y. Qed.

Lemma le_nlt (x y : float) : (x <=? y) = true -> (y <? x) = false.
Proof. intros H. by_compare x y. Qed.

Lemma lt_nlt (x y : float) : (x <? y) = true -> (y <? x) = false.
Proof. intros H. by_compare x y. Qed.

Lemma lt_irrefl (x : float) : (x <? x) = false.
Proof.
  destruct (compare_cases x x) as (c & H1 & _ & H3 & _).
  rewrite H1 in *. destruct c as [[]|]; simpl in *; congruence.
Qed.

Lemma leb_nn (x y : float) : (x <=? y) = true -> nn x /\ nn y.
Proof.
  intros H. destruct (compare_cases x y) as (c & _ & H2 & _ & _ & _ & _ & H6).
  rewrite H2 in H. unfold nn.
  destruct (is_nan x), (is_nan y); auto;
    assert (c = None) as -> by (apply H6; auto); discriminate.
Qed.

Lemma ltb_nn (x y : float) : (x <? y) = true -> nn x /\ nn y.
Proof. intros H. apply leb_nn, ltb_leb, H. Qed.

Lemma leb_refl (x : float) : nn x -> (x <=? x) = true.
Proof.
  intros H. apply nlt_le; auto using lt_irrefl.
Qed.

Lemma eqb_sym (x y : float) : (y =? x) = (x =? y).
Proof.
  destruct (compare_cases x y) as (c & _ & _ & _ & _ & H5 & H7 & _). congruence.
Qed.

Lemma eqb_refl (x : float) : nn x -> (x =? x) = true.
Proof. unfold nn, is_nan. destruct (x =? x); auto. Qed.

(** *** Results that are not NaN *)

Lemma finite_nz_inv (x : float) :
  finite_nz x = true -> exists s m e, Prim2SF x = S754_finite s m e.
Proof.
  unfold finite_nz. destruct (Prim2SF x); try discriminate. eauto.
Qed.

Lemma mul_nn_l (a b : float) : finite_nz a = true -> nn b -> nn (a * b).
Proof.
  intros Ha Hb. apply nn_Prim2SF. rewrite mul_spec.
  destruct (finite_nz_inv a Ha) as (s & m & e & ->).
  apply SFmul_finite_l, nn_Prim2SF, Hb.
Qed.

Lemma mul_nn_r (a b : float) : nn a -> finite_nz b = true -> nn (a * b).
Proof.
  intros Ha Hb. apply nn_Prim2SF. rewrite mul_spec.
  destruct (finite_nz_inv b Hb) as (s & m & e & ->).
  apply SFmul_finite_r, nn_Prim2SF, Ha.
Qed.

Lemma sub_nn (a b : float) : finite_nz a = true -> nn b -> nn (a - b).
Proof.
  intros Ha Hb. apply nn_Prim2SF. rewrite sub_spec.
  destruct (finite_nz_inv a Ha) as (s & m & e & ->).
  apply SFsub_finite_l, nn_Prim2SF, Hb.
Qed.

Lemma div_nn (a b : float) : nn a -> finite_nz b = true -> nn (a / b).
Proof.
  intros Ha Hb. apply nn_Prim2SF. rewrite div_spec.
  destruct (finite_nz_inv b Hb) as (s & m & e & ->).
  apply SFdiv_finite_r, nn_Prim2SF, Ha.
Qed.

(** A float strictly between 0 and infinity is finite and not zero. *)
Lemma positive_finite (x : float) :
  (0 <? x) = true -> (x <? infinity) = true -> finite_nz x = true.
Proof.
  rewrite !FloatAxioms.ltb_spec. unfold finite_nz, SFltb.
  replace (Prim2SF 0) with (S754_zero false) by reflexivity.
  replace (Prim2SF infinity) with (S754_infinity false) by reflexivity.
  destruct (Prim2SF x) as [s|s| |s m e]; simpl; try discriminate; auto.
  destruct s; discriminate.
Qed.

Lemma between_finite (lo hi x : float) :
  finite_nz lo = true -> (0 <? lo) = true -> finite_nz hi = true ->
  (lo <=? x) = true -> (x <=? hi) = true -> finite_nz x = true.
Proof.
  intros Hlo Hpos Hhi. rewrite !FloatAxioms.leb_spec. revert Hpos. rewrite FloatAxioms.ltb_spec.
  destruct (finite_nz_inv lo Hlo) as (s1 & m1 & e1 & ->).
  destruct (finite_nz_inv hi Hhi) as (s2 & m2 & e2 & ->).
  replace (Prim2SF 0) with (S754_zero false) by reflexivity.
  unfold finite_nz, SFleb, SFltb.
  destruct (Prim2SF x) as [s|s| |s m e]; simpl; auto; try discriminate;
    destruct s1, s; simpl; try discriminate.
Qed.

(** Above 2 is not below 0.1. *)
Lemma above_2_not_below_tenth (x : float) :
  (2 <? x) = true -> (x <? 0.1) = false.
Proof.
  rewrite !FloatAxioms.ltb_spec.
  replace (Prim2SF 2) with (S754_finite false 4503599627370496 (-51)) by reflexivity.
  replace (Prim2SF 0.1) with (S754_finite false 7205759403792794 (-56)) by reflexivity.
  unfold SFltb.
  destruct (Prim2SF x) as [s|s| |s m e]; try (destruct s);
    try reflexivity; try discriminate.
  unfold SFcompare.
  destruct (Z.compare_spec (-51) e) as [H|H|H]; try discriminate.
  - subst e. intros _. reflexivity.
  - intros _. destruct (Z.compare_spec e (-56)) as [H1|H1|H1]; try lia.
Qed.

End F64.

(** ** Facts about the fitting computation *)

Module FitFacts.
Import JS Render Examples Statements F64.

(** The builtins on sample inputs: each value is the binary64 number that
    the literal on the right denotes. *)
Lemma parseFloat_examples :
  parseFloat "25.4" = 25.4 /\ parseFloat "0.1" = 0.1 /\
  parseFloat "10" = 10 /\ parseFloat " -12.5e1px" = -125 /\
  parseFloat ".5" = 0.5 /\ parseFloat "5." = 5 /\
  parseFloat "1e" = 1 /\ parseFloat "0.30000000000000004" = 0.30000000000000004 /\
  parseFloat "9007199254740993" = 9007199254740992 /\
  parseFloat "5e-324" = 5e-324 /\
  parseFloat "1.7976931348623157e308" = 1.7976931348623157e308 /\
  parseFloat "1e400" = infinity /\ parseFloat "-Infinity" = neg_infinity /\
  parseFloat "wide" = nan /\ parseFloat "." = nan /\ parseFloat "" = nan /\
  parseFloat (nbsp ++ "1.5") = 1.5 /\ parseFloat (bom ++ " 5mm") = 5.
Proof. repeat apply conj; vm_compute; reflexivity. Qed.

Lemma Number_examples :
  Number (VStr "0.5") = Ok 0.5 /\ Number (VStr " 12 ") = Ok 12 /\
  Number (VStr "1e3") = Ok 1000 /\ Number (VStr "0x1F") = Ok 31 /\
  Number (VStr "") = Ok 0 /\ Number (VStr "12px") = Ok nan /\
  Number (VStr "abc") = Ok nan /\ Number VNull = Ok 0 /\
  Number VUndefined = Ok nan /\ Number (VBool true) = Ok 1 /\
  Number (VStr (nbsp ++ "1.5" ++ bom)) = Ok 1.5 /\
  Number (VObj (Some 1.5)) = Ok 1.5 /\
  Number no_primitive =
    Throw "TypeError: Cannot convert object to primitive value".
Proof. repeat apply conj; vm_compute; reflexivity. Qed.

Lemma Math_examples :
  Math_max 1 718.11 = 718.11 /\ Math_max 1 (-5) = 1 /\
  Math_max 1 neg_infinity = 1 /\ Math_max 1 nan = nan /\
  Math_min 0.5 0.25 = 0.25 /\ Math_min 0 neg_zero = neg_zero /\
  Math_ceil 718.11 = 719 /\ Math_ceil (-0.5) = neg_zero /\
  Math_ceil 3 = 3.
Proof. repeat apply conj; vm_compute; reflexivity. Qed.

Lemma paperMm_cases (p : string) :
  paperMm p = (148, 210) \/ paperMm p = (216, 279) \/
  paperMm p = (216, 356) \/ paperMm p = (210, 297).
Proof.
  unfold paperMm.
  destruct (String.eqb p "A5"); auto.
  destruct (String.eqb p "LETTER"); auto.
  destruct (String.eqb p "LEGAL"); auto.
Qed.

Lemma paperMm_finite (p : string) :
  finite_nz (fst (paperMm p)) = true /\ finite_nz (snd (paperMm p)) = true.
Proof.
  destruct (paperMm_cases p) as [E|[E|[E|E]]]; rewrite E; split; reflexivity.
Qed.

Lemma orient_finite (opts : Options) (mm : float * float) :
  finite_nz (fst mm) = true -> finite_nz (snd mm) = true ->
  finite_nz (fst (orient opts mm)) = true /\ finite_nz (snd (orient opts mm)) = true.
Proof.
  unfold orient. destruct (isLandscape opts); simpl; auto.
Qed.

Lemma num_or_0_nn (x : float) : nn (num_or x 0).
Proof.
  unfold num_or, num_truthy, nn.
  destruct (is_nan x) eqn:E; simpl; auto.
  destruct (is_zero x); simpl; auto.
Qed.

Lemma parseMarginToMm_or_0_nn (m : value) (mm : float) :
  parseMarginToMm_or_0 m = Ok mm -> nn mm.
Proof.
  unfold parseMarginToMm_or_0. destruct (parseMarginToMm m); simpl; try discriminate.
  intros [= <-]. apply num_or_0_nn.
Qed.

Lemma Math_max_1 (x : float) :
  nn x -> nn (Math_max 1 x) /\ (1 <=? Math_max 1 x) = true.
Proof.
  intros Hx. unfold Math_max.
  replace (is_nan 1) with false by reflexivity. rewrite Hx. simpl.
  destruct (1 <? x) eqn:E1.
  - split; auto using ltb_leb.
  - replace (get_sign 1) with false by reflexivity.
    destruct (x <? 1); split; reflexivity.
Qed.

Lemma availablePx_ge_1 (sideMm marginMm : float) :
  finite_nz sideMm = true -> nn marginMm ->
  nn (availablePx sideMm marginMm) /\ (1 <=? availablePx sideMm marginMm) = true.
Proof.
  intros Hs Hm. unfold availablePx. apply Math_max_1.
  apply mul_nn_r; [|reflexivity].
  apply sub_nn; [exact Hs|].
  apply mul_nn_l; [reflexivity|exact Hm].
Qed.

Lemma Math_min_nn (a b : float) : nn a -> nn b -> nn (Math_min a b).
Proof.
  intros Ha Hb. unfold Math_min. rewrite Ha, Hb. simpl.
  destruct (a <? b); auto. destruct (b <? a); auto. destruct (get_sign a); auto.
Qed.

(** [Math.min] is one of its arguments' lower bound. *)
Lemma Math_min_le (a b : float) :
  nn a -> nn b ->
  (Math_min a b <=? a) = true /\ (Math_min a b <=? b) = true.
Proof.
  intros Ha Hb. unfold Math_min. rewrite Ha, Hb. simpl.
  destruct (a <? b) eqn:E1; [split; auto using leb_refl, ltb_leb|].
  destruct (b <? a) eqn:E2; [split; auto using leb_refl, ltb_leb|].
  destruct (get_sign a); split; auto using leb_refl, nlt_le.
Qed.

(** Neither argument is below [Math.min], whatever the arguments. *)
Lemma Math_min_not_above (a b : float) :
  (a <? Math_min a b) = false /\ (b <? Math_min a b) = false.
Proof.
  unfold Math_min.
  destruct (is_nan a || is_nan b) eqn:En.
  - split.
    + destruct (a <? nan) eqn:E; auto. apply ltb_nn in E. destruct E as [_ E]. discriminate E.
    + destruct (b <? nan) eqn:E; auto. apply ltb_nn in E. destruct E as [_ E]. discriminate E.
  - destruct (a <? b) eqn:E1; [split; auto using lt_irrefl, lt_nlt|].
    destruct (b <? a) eqn:E2; [split; auto using lt_irrefl, lt_nlt|].
    destruct (get_sign a); split; auto using lt_irrefl.
Qed.

Lemma clampScale_range (s c : float) :
  clampScale s = Some c -> (0.1 <=? c) = true /\ (c <=? 2) = true.
Proof.
  unfold clampScale.
  destruct (is_nan s) eqn:En; try discriminate.
  destruct (s <? 0.1) eqn:E1; [intros [= <-]; split; reflexivity|].
  destruct (2 <? s) eqn:E2; intros [= <-]; [split; reflexivity|].
  split; apply nlt_le; auto; reflexivity.
Qed.

Lemma safetyClamp_range (s : float) :
  nn s -> (0.1 <=? safetyClamp s) = true /\ (safetyClamp s <=? 2) = true.
Proof.
  intros Hs. unfold safetyClamp.
  destruct (s <? 0.1) eqn:E1.
  - split; reflexivity.
  - destruct (2 <? s) eqn:E2; [split; reflexivity|].
    split; apply nlt_le; auto; reflexivity.
Qed.

(** Inside the range the safety clamp changes nothing. *)
Lemma safetyClamp_id (s : float) :
  (0.1 <=? s) = true -> (s <=? 2) = true -> safetyClamp s = s.
Proof.
  intros H1 H2. unfold safetyClamp.
  rewrite (le_nlt _ _ H1), (le_nlt _ _ H2). reflexivity.
Qed.

Lemma in_range_truthy (c : float) : (0.1 <=? c) = true -> num_truthy c = true.
Proof.
  intros H. unfold num_truthy.
  destruct (leb_nn _ _ H) as [_ Hc]. rewrite Hc. simpl.
  unfold is_zero. rewrite FloatAxioms.eqb_spec.
  revert H. rewrite FloatAxioms.leb_spec.
  replace (Prim2SF 0) with (S754_zero false) by reflexivity.
  replace (Prim2SF 0.1) with (S754_finite false 7205759403792794 (-56)) by reflexivity.
  unfold SFleb, SFeqb.
  destruct (Prim2SF c) as [s|s| |s m e]; simpl; try discriminate;
    destruct s; simpl; auto; discriminate.
Qed.

Lemma overrideScale_cases (opts : Options) (s0 s1 : float) :
  overrideScale opts s0 = Ok s1 ->
  s1 = s0 \/ (0.1 <=? s1) = true /\ (s1 <=? 2) = true.
Proof.
  unfold overrideScale.
  destruct (truthy (scale opts)); [|intros [= <-]; auto].
  destruct (Number (scale opts)) as [n|]; cbn [obind]; [|discriminate].
  destruct (clampScale n) as [cl|] eqn:E; [|intros [= <-]; auto].
  destruct (num_truthy cl); intros [= <-]; auto.
  right. eapply clampScale_range, E.
Qed.

Lemma overrideScale_nn (opts : Options) (s0 s1 : float) :
  overrideScale opts s0 = Ok s1 -> nn s0 -> nn s1.
Proof.
  intros E H. destruct (overrideScale_cases opts s0 s1 E) as [->|[H1 _]]; auto.
  apply (leb_nn _ _ H1).
Qed.

(** The fields of a [Fit], as [fit] computes them. *)
Lemma fit_inv (opts : Options) (cs : ContentBox) (f : Fit) :
  fit opts cs = Ok f ->
  paper_of opts = Ok (paper f) /\
  (paperWidthMm f, paperHeightMm f) = orient opts (paperMm (paper f)) /\
  marginMm_of opts = Ok (marginMm f) /\
  availableWidthPx f = availablePx (paperWidthMm f) (marginMm f) /\
  availableHeightPx f = availablePx (paperHeightMm f) (marginMm f) /\
  scaleComputed f =
    computedScale opts cs (availableWidthPx f) (availableHeightPx f) /\
  overrideScale opts (scaleComputed f) = Ok (scaleChosen f) /\
  scaleFinal f = safetyClamp (scaleChosen f).
Proof.
  unfold fit.
  destruct (paper_of opts) as [p|]; simpl; try discriminate.
  destruct (orient opts (paperMm p)) as [pw ph] eqn:Eo.
  destruct (marginMm_of opts) as [m|]; simpl; try discriminate.
  destruct (overrideScale opts _) as [s1|] eqn:Es; simpl; try discriminate.
  intros [= <-]. simpl. repeat split; auto.
Qed.

(** [fit] throws only where the paper name, the margin or the conversion of
    the manual scale does. *)
Lemma fit_total (opts : Options) (cs : ContentBox) (p : string) (m : float) :
  paper_of opts = Ok p -> marginMm_of opts = Ok m ->
  truthy (scale opts) = false \/ (exists n, Number (scale opts) = Ok n) ->
  exists f, fit opts cs = Ok f.
Proof.
  intros Hp Hm Hs. unfold fit. rewrite Hp. simpl.
  destruct (orient opts (paperMm p)) as [pw ph].
  rewrite Hm. simpl.
  assert (E : exists s1, overrideScale opts
                (computedScale opts cs (availablePx pw m) (availablePx ph m))
              = Ok s1).
  { unfold overrideScale. destruct Hs as [Hs|[n Hs]]; rewrite Hs.
    - eauto.
    - destruct (truthy (scale opts)); [|eauto]. cbn [obind].
      destruct (clampScale n); eauto. }
  destruct E as [s1 ->]. simpl. eauto.
Qed.

Lemma fit_available_ge_1 (opts : Options) (cs : ContentBox) (f : Fit) :
  fit opts cs = Ok f ->
  (nn (availableWidthPx f) /\ (1 <=? availableWidthPx f) = true) /\
  (nn (availableHeightPx f) /\ (1 <=? availableHeightPx f) = true).
Proof.
  intros H. destruct (fit_inv _ _ _ H) as (_ & Ho & Hm & -> & -> & _).
  apply parseMarginToMm_or_0_nn in Hm.
  destruct (paperMm_finite (paper f)) as [F1 F2].
  destruct (orient_finite opts _ F1 F2) as [G1 G2].
  rewrite <- Ho in G1, G2. simpl in G1, G2.
  split; apply availablePx_ge_1; auto.
Qed.

Lemma computedScale_nn (opts : Options) (cs : ContentBox) (aw ah : float) :
  nn aw -> nn ah ->
  finite_nz (width cs) = true -> finite_nz (height cs) = true ->
  nn (computedScale opts cs aw ah).
Proof.
  intros Ha Hh Hw Hhh. unfold computedScale.
  destruct (truthy (single opts)); auto using div_nn, Math_min_nn.
Qed.

(** What a returned [Result] holds: the locals of the [fit] of the measured
    content. *)
Lemma renderBody_inv (be : Backend) (html : string) (opts : Options)
    (w w' : World) (r : Result) :
  renderBody be html opts w = (Ok r, w') ->
  evaluate be (page w) html = Ok (r_contentSize r) /\
  exists f, fit opts (r_contentSize r) = Ok f /\
            r_scale r = scaleFinal f /\ r_paper r = paper f /\
            r_orientation r = or_else (orientation opts) (VStr "portrait").
Proof.
  unfold renderBody, bind, perform_on, perform, lift, ret, try_catch_ignore.
  destruct (setContent be html); try discriminate.
  cbn [page].
  destruct (evaluate be (page w) html) as [cs|]; try discriminate.
  destruct (fit opts cs) as [f|] eqn:Ef; try discriminate.
  destruct (truthy (png opts)).
  - destruct (setViewportSize be _ _); cbn [page resize_page];
      destruct (screenshot be _ _); try discriminate;
      intros [= <- <-]; simpl; eauto 10.
  - destruct (pdf be _); try discriminate.
    intros [= <- <-]; simpl; eauto 10.
Qed.

Lemma renderHtmlToBuffer_inv (be : Backend) (html : string) (opts : Options)
    (w w' : World) (r : Result) :
  renderHtmlToBuffer be html opts w = (Ok r, w') ->
  exists f, fit opts (r_contentSize r) = Ok f /\
            r_scale r = scaleFinal f /\ r_paper r = paper f /\
            r_orientation r = or_else (orientation opts) (VStr "portrait").
Proof.
  unfold renderHtmlToBuffer, bind at 1.
  destruct (openSession be opts w) as [[[]|e] w1]; try discriminate.
  unfold try_finally.
  destruct (renderBody be html opts w1) as [rb w2] eqn:Eb.
  destruct (teardown be w2) as [[[]|e] w3]; try discriminate.
  intros [= -> <-]. eapply renderBody_inv, Eb.
Qed.

(** Without a manual scale, lines 91 to 94 leave the computed scale. *)
Lemma overrideScale_falsy (opts : Options) (s0 : float) :
  truthy (scale opts) = false -> overrideScale opts s0 = Ok s0.
Proof. intros H. unfold overrideScale. now rewrite H. Qed.

(** A value that converts to a number in [0.1, 2] is truthy. *)
Lemma in_range_value_truthy (v : value) (n : float) :
  Number v = Ok n -> (0.1 <=? n) = true -> truthy v = true.
Proof.
  destruct v as [| |b|x|s|[x|]]; simpl; intros [= <-].
  - discriminate.
  - discriminate.
  - destruct b; [reflexivity|discriminate].
  - apply in_range_truthy.
  - destruct s; [discriminate|reflexivity].
  - reflexivity.
Qed.

(** What lines 91 to 96 make of a manual scale that converts to a number. *)
Lemma manual_scale_final (opts : Options) (s0 s1 n : float) :
  truthy (scale opts) = true -> Number (scale opts) = Ok n -> nn n ->
  overrideScale opts s0 = Ok s1 ->
  safetyClamp s1 = safetyClamp n.
Proof.
  intros Ht Hv Hn. unfold overrideScale, clampScale. rewrite Ht, Hv.
  cbn [obind]. rewrite Hn.
  destruct (n <? 0.1) eqn:E1.
  - intros [= <-]. unfold safetyClamp. rewrite E1. reflexivity.
  - destruct (2 <? n) eqn:E2.
    + intros [= <-]. unfold safetyClamp. rewrite E1, E2. reflexivity.
    + rewrite in_range_truthy; [now intros [= <-]|].
      apply nlt_le; auto. reflexivity.
Qed.

(** The fitting with a manual scale [v]: the fitting without one, then
    lines 91 to 96. *)
Lemma finalScale_with_scale (v : value) (opts : Options) (cs : ContentBox) :
  finalScale_of (with_scale v opts) cs =
  obind (fit (with_scale VUndefined opts) cs) (fun f =>
  obind (overrideScale (with_scale v opts) (scaleComputed f)) (fun s =>
    Ok (safetyClamp s))).
Proof.
  unfold finalScale_of, fit.
  change (paper_of (with_scale v opts)) with (paper_of opts).
  change (paper_of (with_scale VUndefined opts)) with (paper_of opts).
  destruct (paper_of opts) as [p|]; [|reflexivity].
  cbn [obind].
  change (orient (with_scale v opts) (paperMm p)) with (orient opts (paperMm p)).
  change (orient (with_scale VUndefined opts) (paperMm p))
    with (orient opts (paperMm p)).
  destruct (orient opts (paperMm p)) as [pw ph].
  change (marginMm_of (with_scale v opts)) with (marginMm_of opts).
  change (marginMm_of (with_scale VUndefined opts)) with (marginMm_of opts).
  destruct (marginMm_of opts) as [m|]; [|reflexivity].
  cbn [obind].
  change (overrideScale (with_scale VUndefined opts)
            (computedScale (with_scale VUndefined opts) cs
               (availablePx pw m) (availablePx ph m)))
    with (@Ok float (computedScale opts cs (availablePx pw m) (availablePx ph m))).
  cbn [obind scaleComputed].
  change (computedScale (with_scale v opts) cs) with (computedScale opts cs).
  destruct (overrideScale (with_scale v opts) _); reflexivity.
Qed.

Lemma overrideScale_invalid (v : value) (opts : Options) (s0 : float) :
  truthy v = false \/ (exists n, Number v = Ok n /\ is_nan n = true) ->
  overrideScale (with_scale v opts) s0 = Ok s0.
Proof.
  unfold overrideScale, clampScale. cbn [scale with_scale].
  intros [H|(n & Hn & H)]; [now rewrite H|].
  rewrite Hn. cbn [obind]. rewrite H.
  destruct (truthy v); reflexivity.
Qed.

(** [renderBody] opens and closes nothing. *)
Lemma renderBody_counters (be : Backend) (html : string) (opts : Options)
    (w : World) :
  openContexts (snd (renderBody be html opts w)) = openContexts w /\
  openPages (snd (renderBody be html opts w)) = openPages w.
Proof.
  unfold renderBody, bind, perform_on, perform, lift, ret, try_catch_ignore.
  destruct (setContent be html); [|split; reflexivity].
  destruct (evaluate be _ html) as [cs|]; [|split; reflexivity].
  destruct (fit opts cs) as [f|]; [|split; reflexivity].
  destruct (truthy (png opts)).
  - destruct (setViewportSize be _ _); destruct (screenshot be _ _);
      split; reflexivity.
  - destruct (pdf be _); split; reflexivity.
Qed.

(** A session that opens adds one context and one page. *)
Lemma openSession_counters (be : Backend) (opts : Options) (w w1 : World) :
  openSession be opts w = (Ok tt, w1) ->
  openContexts w1 = S (openContexts w) /\ openPages w1 = S (openPages w).
Proof.
  unfold openSession, initBrowser, bind, perform, logger_info, lift, ret.
  destruct (browser w).
  - destruct (contextOptions_of opts) as [ctx|]; try discriminate.
    destruct (newContext be _); try discriminate.
    destruct (newPage be); try discriminate.
    intros [= _ <-]. split; reflexivity.
  - destruct (launch be); try discriminate.
    destruct (contextOptions_of opts) as [ctx|]; try discriminate.
    destruct (newContext be _); try discriminate.
    destruct (newPage be); try discriminate.
    intros [= _ <-]. split; reflexivity.
Qed.

Lemma length_app (a b : string) :
  String.length (a ++ b) = (String.length a + String.length b)%nat.
Proof. induction a as [|c a IH]; simpl; auto. Qed.

Lemma substring_all (b : string) : substring 0 (String.length b) b = b.
Proof. induction b as [|c b IH]; simpl; congruence. Qed.

Lemma substring_app_r (a b : string) :
  substring (String.length a) (String.length b) (a ++ b) = b.
Proof. induction a as [|c a IH]; simpl; auto using substring_all. Qed.

Lemma substring_app_l (a b : string) :
  substring 0 (String.length a) (a ++ b) = a.
Proof.
  induction a as [|c a IH]; simpl.
  - destruct b; reflexivity.
  - congruence.
Qed.

(** A text followed by a two-letter unit ends with that unit and with no
    other, and [slice(0, -2)] gives the text back. *)
Lemma endsWith_unit (N : string) (c1 c2 d1 d2 : ascii) :
  endsWith (N ++ String c1 (String c2 "")) (String d1 (String d2 "")) =
  Ascii.eqb c1 d1 && Ascii.eqb c2 d2.
Proof.
  unfold endsWith. rewrite length_app. simpl String.length.
  replace (String.length N + 2 - 2)%nat with (String.length N) by lia.
  replace (2 <=? String.length N + 2)%nat with true
    by (symmetry; apply Nat.leb_le; lia).
  pose proof (substring_app_r N (String c1 (String c2 ""))) as S.
  simpl String.length in S. rewrite S. simpl.
  destruct (Ascii.eqb c1 d1); [|reflexivity].
  destruct (Ascii.eqb c2 d2); reflexivity.
Qed.

Lemma slice_unit (N : string) (c1 c2 : ascii) :
  slice_0_m2 (N ++ String c1 (String c2 "")) = N.
Proof.
  unfold slice_0_m2. rewrite length_app. simpl String.length.
  replace (String.length N + 2 - 2)%nat with (String.length N) by lia.
  apply substring_app_l.
Qed.

Lemma app_unit_truthy (N : string) (c1 c2 : ascii) :
  truthy (VStr (N ++ String c1 (String c2 ""))) = true.
Proof. destruct N; reflexivity. Qed.

Lemma mul_nan_l (x y : float) : is_nan x = true -> is_nan (x * y) = true.
Proof.
  rewrite !is_nan_Prim2SF, mul_spec.
  destruct (Prim2SF x); try discriminate. reflexivity.
Qed.

Lemma num_or_nan (x : float) : is_nan x = true -> num_or x 0 = 0.
Proof. intros H. unfold num_or, num_truthy. now rewrite H. Qed.

(** [x || 0] is [x], up to the sign of zero, unless [x] is NaN. *)
Lemma num_or_0_eq (x : float) : is_nan x = false -> (num_or x 0 =? x) = true.
Proof.
  intros H. unfold num_or, num_truthy, is_zero. rewrite H.
  change PrimFloat.zero with 0.
  destruct (x =? 0) eqn:E; cbn [orb negb].
  - rewrite (eqb_sym x 0). exact E.
  - apply eqb_refl, H.
Qed.



Lemma fit_with_dpi (d : value) (opts : Options) (cs : ContentBox) :
  fit (with_dpi d opts) cs = fit opts cs.
Proof. destruct opts; reflexivity. Qed.

(** The [try] block does not read [dpi]. *)
Lemma renderBody_with_dpi (be : Backend) (html : string) (d : value)
    (opts : Options) (w : World) :
  renderBody be html (with_dpi d opts) w = renderBody be html opts w.
Proof.
  unfold renderBody. cbn [png single orientation with_dpi].
  unfold bind, perform_on, perform, lift.
  destruct (setContent be html); [|reflexivity].
  destruct (evaluate be _ html) as [cs|]; [|reflexivity].
  rewrite fit_with_dpi.
  destruct (fit opts cs) as [f|]; reflexivity.
Qed.

Lemma float_neq (a b : float) : (a <? b) = true -> a <> b.
Proof. intros H ->. rewrite lt_irrefl in H. discriminate H. Qed.

(** The two sides of each paper differ. *)
Lemma paperMm_not_square (p : string) : fst (paperMm p) <> snd (paperMm p).
Proof.
  destruct (paperMm_cases p) as [E|[E|[E|E]]]; rewrite E;
    apply float_neq; reflexivity.
Qed.

Lemma is_string_iff (v : value) (text : string) :
  is_string v text = true <-> v = VStr text.
Proof.
  destruct v; simpl; split; try discriminate.
  - intros H. apply String.eqb_eq in H. now subst.
  - intros [= ->]. apply String.eqb_refl.
Qed.

Lemma openSession_returns (be : Backend) (opts : Options) (w : World)
    (ctx : ContextOptions) :
  contextOptions_of opts = Ok ctx ->
  launch be = Ok tt ->
  newContext be ctx = Ok tt ->
  newPage be = Ok tt ->
  exists w1, openSession be opts w = (Ok tt, w1) /\ page w1 = ctx.
Proof.
  intros Hx Hl Hc Hp.
  unfold openSession, initBrowser, bind, perform, logger_info, lift, ret.
  rewrite Hl, Hx, Hc, Hp. destruct (browser w); eexists; split; reflexivity.
Qed.

Lemma renderBody_returns (be : Backend) (html : string) (opts : Options)
    (w : World) (cs : ContentBox) (f : Fit) :
  setContent be html = Ok tt ->
  evaluate be (page w) html = Ok cs ->
  fit opts cs = Ok f ->
  (forall o, exists b, pdf be o = Ok b) ->
  (forall p fp, exists b, screenshot be p fp = Ok b) ->
  exists r w', renderBody be html opts w = (Ok r, w') /\ r_contentSize r = cs.
Proof.
  intros Hs He Hfit Hpdf Hpng.
  destruct (Hpdf (pdfOptions_of opts f)) as [b1 Hb1].
  unfold renderBody.
  set (tw := Math_max 1 (Math_ceil (width cs * scaleFinal f))).
  set (th := if truthy (single opts)
             then Math_max 1 (Math_ceil (height cs * scaleFinal f))
             else Math_max 1 (Math_ceil (availableHeightPx f))).
  unfold bind at 1, perform at 1. rewrite Hs.
  unfold bind at 1, perform_on at 1, perform at 1. cbn [page]. rewrite He.
  unfold bind at 1, lift. rewrite Hfit.
  fold tw th.
  destruct (truthy (png opts)).
  - unfold bind, perform_on, perform, try_catch_ignore, ret.
    destruct (setViewportSize be tw th); cbn [page resize_page].
    + destruct (Hpng {| deviceScaleFactor := deviceScaleFactor (page w);
                        viewport := Some (tw, th) |} (truthy (single opts)))
        as [b2 Hb2].
      rewrite Hb2. eexists _, _; split; reflexivity.
    + destruct (Hpng (page w) (truthy (single opts))) as [b2 Hb2].
      rewrite Hb2. eexists _, _; split; reflexivity.
  - unfold bind, perform, ret. rewrite Hb1.
    eexists _, _; split; reflexivity.
Qed.

(** With a backend on which every call succeeds, well-typed options and a
    manual scale and a [dpi] that convert to numbers, [renderHtmlToBuffer]
    returns a result. *)
Lemma renderHtmlToBuffer_returns (be : Backend) (html : string)
    (opts : Options) (w : World) (ctx : ContextOptions) (cs : ContentBox) :
  contextOptions_of opts = Ok ctx ->
  backend_succeeds be html ctx cs -> well_typed opts ->
  truthy (scale opts) = false \/ (exists n, Number (scale opts) = Ok n) ->
  exists r w',
    renderHtmlToBuffer be html opts w = (Ok r, w') /\ r_contentSize r = cs.
Proof.
  intros Hx (Hl & Hc & Hp & Hs & He & Hpdf & Hpng & Hpc & Hcc) [Hf Hm] Hsc.
  assert (Hpaper : exists p, paper_of opts = Ok p).
  { unfold paper_of, or_else. destruct Hf as [Hf|[s Hf]].
    - rewrite Hf. eauto.
    - rewrite Hf. destruct (truthy (VStr s)); eauto. }
  assert (Hmargin : exists m, marginMm_of opts = Ok m).
  { unfold marginMm_of, or_else.
    destruct (truthy (margin opts)) eqn:E;
      [|exists 10; vm_compute; reflexivity].
    unfold parseMarginToMm_or_0, parseMarginToMm. rewrite E. cbn [negb].
    destruct Hm as [Hm|[[s Hm]|[n Hm]]]; [discriminate Hm| |]; rewrite Hm.
    - destruct (endsWith s "mm"); [|destruct (endsWith s "cm");
        [|destruct (endsWith s "in")]]; cbn [obind]; eauto.
    - cbn [obind]. eauto. }
  destruct Hpaper as [p Hpp]. destruct Hmargin as [m Hmm].
  destruct (fit_total opts cs p m Hpp Hmm Hsc) as [f Hfit].
  destruct (openSession_returns be opts w ctx Hx Hl Hc Hp) as (w1 & Ho & Hpg).
  rewrite <- Hpg in He.
  destruct (renderBody_returns be html opts w1 cs f Hs He Hfit Hpdf Hpng)
    as (r & w2 & Hb & Hcs).
  exists r. unfold renderHtmlToBuffer, bind. rewrite Ho.
  unfold try_finally. rewrite Hb.
  unfold teardown, bind, perform. rewrite Hpc, Hcc.
  eexists. split; [reflexivity|exact Hcs].
Qed.

(** A manual scale that is falsy or converts to a number does not make
    lines 91 to 94 throw; a truthy one whose conversion throws does. *)
Lemma overrideScale_total (opts : Options) (s0 : float) :
  truthy (scale opts) = false \/ (exists n, Number (scale opts) = Ok n) ->
  exists s1, overrideScale opts s0 = Ok s1.
Proof.
  unfold overrideScale. intros [H|[n H]]; rewrite H; [eauto|].
  destruct (truthy (scale opts)); [|eauto]. cbn [obind].
  destruct (clampScale n); eauto.
Qed.

Lemma overrideScale_throws (opts : Options) (s0 : float) (e : string) :
  truthy (scale opts) = true -> Number (scale opts) = Throw e ->
  overrideScale opts s0 = Throw e.
Proof. intros Ht Hn. unfold overrideScale. now rewrite Ht, Hn. Qed.

(** A request whose session opens and whose page is measured, but whose
    fitting throws: the request throws that error. *)
Lemma renderHtmlToBuffer_fit_throws (be : Backend) (html : string)
    (opts : Options) (w : World) (ctx : ContextOptions) (cs : ContentBox)
    (e : string) :
  contextOptions_of opts = Ok ctx ->
  backend_succeeds be html ctx cs ->
  fit opts cs = Throw e ->
  exists w', renderHtmlToBuffer be html opts w = (Throw e, w').
Proof.
  intros Hx (Hl & Hc & Hp & Hs & He & _ & _ & Hpc & Hcc) Hf.
  destruct (openSession_returns be opts w ctx Hx Hl Hc Hp) as (w1 & Ho & Hpg).
  rewrite <- Hpg in He.
  unfold renderHtmlToBuffer, bind at 1. rewrite Ho.
  unfold try_finally.
  assert (Eb : exists w2, renderBody be html opts w1 = (Throw e, w2)).
  { unfold renderBody, bind, perform_on, perform, lift. rewrite Hs.
    cbn [page]. rewrite He, Hf. eauto. }
  destruct Eb as [w2 ->].
  unfold teardown, bind, perform. rewrite Hpc, Hcc. eauto.
Qed.

(** *** Whole numbers in decimal *)

Lemma read_digits_rest (rest : string) (acc : N) (cnt : nat) :
  no_digit_ahead rest -> read_digits rest acc cnt = (acc, cnt, rest).
Proof. destruct rest as [|c r]; cbn; [reflexivity|]. now intros ->. Qed.

Lemma read_digits_pos (d : Decimal.uint) (rest : string) :
  no_digit_ahead rest ->
  forall (p : positive) (cnt : nat),
    read_digits (DecimalString.NilEmpty.string_of_uint d ++ rest) (Npos p) cnt =
    (Npos (Pos.of_uint_acc d p), (cnt + Decimal.nb_digits d)%nat, rest).
Proof.
  intros Hr. induction d as [|d IH|d IH|d IH|d IH|d IH|d IH|d IH|d IH|d IH|d IH];
    intros p cnt;
    cbn [DecimalString.NilEmpty.string_of_uint String.append Decimal.nb_digits
         Pos.of_uint_acc].
  1: { rewrite Nat.add_0_r. now apply read_digits_rest. }
  all: cbn [read_digits];
    match goal with |- context [is_digit ?c] =>
      replace (is_digit c) with true by reflexivity end;
    match goal with |- context [digit_val ?c] =>
      let v := eval vm_compute in (digit_val c) in
      change (digit_val c) with v end;
    match goal with
    | |- read_digits _ ?a _ = (N.pos (Pos.of_uint_acc _ ?q), _, _) =>
        replace a with (N.pos q) by lia
    end;
    rewrite IH; f_equal; f_equal; lia.
Qed.

Lemma read_digits_zero (d : Decimal.uint) (rest : string) :
  no_digit_ahead rest ->
  forall cnt : nat,
    read_digits (DecimalString.NilEmpty.string_of_uint d ++ rest) 0%N cnt =
    (Pos.of_uint d, (cnt + Decimal.nb_digits d)%nat, rest).
Proof.
  intros Hr. induction d as [|d IH|d IH|d IH|d IH|d IH|d IH|d IH|d IH|d IH|d IH];
    intros cnt;
    cbn [DecimalString.NilEmpty.string_of_uint String.append Decimal.nb_digits
         Pos.of_uint].
  1: { rewrite Nat.add_0_r. now apply read_digits_rest. }
  1: { cbn [read_digits]. replace (is_digit "0") with true by reflexivity.
       change (10 * 0 + digit_val "0")%N with 0%N.
       rewrite IH. f_equal. f_equal. lia. }
  all: cbn [read_digits];
    match goal with |- context [is_digit ?c] =>
      replace (is_digit c) with true by reflexivity end;
    match goal with |- read_digits _ ?a _ = _ =>
      let v := eval vm_compute in a in change a with v end;
    rewrite (read_digits_pos d rest Hr); f_equal; f_equal; lia.
Qed.

Lemma decimal_nonempty (n : N) :
  exists c s, decimal n = String c s /\ is_digit c = true.
Proof.
  unfold decimal.
  destruct n as [|p]; [exists "0"%char, EmptyString; split; reflexivity|].
  cbn [N.to_uint].
  pose proof (DecimalPos.Unsigned.to_uint_nonnil p) as H.
  destruct (Pos.to_uint p); try contradiction;
    cbn [DecimalString.NilEmpty.string_of_uint]; eexists _, _; split; reflexivity.
Qed.

Lemma decimal_value_nearest (n : N) : decimal_value false n 0 = nearest n.
Proof.
  destruct n as [|p]; [reflexivity|].
  unfold decimal_value, nearest. cbn [cond_Zopp Z.of_N].
  now rewrite Z.pow_0_r, Z.mul_1_r.
Qed.

(** [parseFloat] of the decimal writing of [n], whatever follows it that
    is not a digit, a point or an exponent. *)
Lemma parseFloat_decimal (n : N) (rest : string) :
  ends_number rest ->
  parseFloat (decimal n ++ rest) = nearest n.
Proof.
  intros Hr.
  assert (Hn : no_digit_ahead rest) by (destruct rest; [exact I|apply Hr]).
  destruct (decimal_nonempty n) as (c & s & Ed & Hc).
  unfold parseFloat.
  assert (Et : trimStart (decimal n ++ rest) = (decimal n ++ rest)%string).
  { rewrite Ed. cbn [String.append trimStart].
    revert Hc. unfold is_digit, is_space, is_space2, is_space3.
    destruct (48 <=? code c)%nat eqn:E1; [|discriminate].
    destruct (code c <=? 57)%nat eqn:E2; [|discriminate]. intros _.
    apply Nat.leb_le in E1, E2.
    replace (code c <=? 13)%nat with false by (symmetry; apply Nat.leb_gt; lia).
    replace (code c =? 32)%nat with false by (symmetry; apply Nat.eqb_neq; lia).
    replace (code c =? 194)%nat with false by (symmetry; apply Nat.eqb_neq; lia).
    replace (code c =? 225)%nat with false by (symmetry; apply Nat.eqb_neq; lia).
    replace (code c =? 226)%nat with false by (symmetry; apply Nat.eqb_neq; lia).
    replace (code c =? 227)%nat with false by (symmetry; apply Nat.eqb_neq; lia).
    replace (code c =? 239)%nat with false by (symmetry; apply Nat.eqb_neq; lia).
    rewrite andb_false_r. cbn [orb andb].
    destruct (s ++ rest)%string as [|c2 [|c3 s3]]; reflexivity. }
  rewrite Et. unfold read_StrDecimalLiteral.
  assert (Es : read_sign (decimal n ++ rest) = (false, (decimal n ++ rest)%string)).
  { rewrite Ed. cbn [String.append]. unfold read_sign.
    destruct c as [[] [] [] [] [] [] [] []]; try reflexivity; discriminate Hc. }
  rewrite Es.
  assert (Ei : String.prefix "Infinity" (decimal n ++ rest) = false).
  { rewrite Ed. cbn [String.append String.prefix].
    destruct (ascii_dec "I" c) as [<-|]; [discriminate Hc|reflexivity]. }
  rewrite Ei.
  unfold decimal. rewrite (read_digits_zero _ rest Hn).
  fold (N.of_uint (N.to_uint n)). rewrite DecimalN.Unsigned.of_to.
  assert (Ep : match rest with
               | String "."%char s2' => read_digits s2' n 0
               | _ => (n, 0%nat, rest)
               end = (n, 0%nat, rest)).
  { destruct rest as [|c1 r]; [reflexivity|].
    destruct Hr as (_ & Hp & _).
    destruct c1 as [[] [] [] [] [] [] [] []]; try reflexivity; contradiction. }
  rewrite Ep.
  assert (Hd : exists k, (0 + Decimal.nb_digits (N.to_uint n) + 0 = S k)%nat).
  { destruct n as [|p]; [exists 0%nat; reflexivity|]. cbn [N.to_uint].
    pose proof (DecimalPos.Unsigned.to_uint_nonnil p) as H.
    destruct (Pos.to_uint p); try contradiction;
      cbn [Decimal.nb_digits]; eexists; rewrite Nat.add_0_r; reflexivity. }
  destruct Hd as [k ->].
  assert (Ee : read_exponent rest = (0%Z, rest)).
  { destruct rest as [|c1 r]; [reflexivity|].
    destruct Hr as (_ & _ & He1 & He2). unfold read_exponent.
    destruct (Ascii.eqb c1 "e") eqn:E1; [apply Ascii.eqb_eq in E1; contradiction|].
    destruct (Ascii.eqb c1 "E") eqn:E2; [apply Ascii.eqb_eq in E2; contradiction|].
    reflexivity. }
  rewrite Ee. cbn [Z.of_nat Z.sub Z.opp Z.add]. apply decimal_value_nearest.
Qed.

Lemma append_empty (s : string) : (s ++ "")%string = s.
Proof. induction s as [|c s IH]; cbn; congruence. Qed.

Lemma parseFloat_decimal_alone (n : N) : parseFloat (decimal n) = nearest n.
Proof.
  rewrite <- (append_empty (decimal n)). now apply parseFloat_decimal.
Qed.

End FitFacts.

(** ** The properties of the specification *)

Import JS Render Examples Statements F64 FitFacts.


(** C1.  Whatever the options and the backend, if [renderHtmlToBuffer]
    returns a result whose measured content is between 1 and 100000 pixels
    wide and high, the scale of the result is in [0.1, 2]; it is the safety
    clamp of lines 95 and 96 applied to the scale chosen before, computed
    or manual. *)
Theorem C1_scale_within_bounds
    (be : Backend) (html : string) (opts : Options) (w w' : World) (r : Result) :
  renderHtmlToBuffer be html opts w = (Ok r, w') ->
  (1 <=? width (r_contentSize r)) = true ->
  (width (r_contentSize r) <=? 100000) = true ->
  (1 <=? height (r_contentSize r)) = true ->
  (height (r_contentSize r) <=? 100000) = true ->
  (0.1 <=? r_scale r) = true /\ (r_scale r <=? 2) = true /\
  exists f, fit opts (r_contentSize r) = Ok f /\
            r_scale r = safetyClamp (scaleChosen f).
Proof.
  intros Hr Hw1 Hw2 Hh1 Hh2.
  destruct (renderHtmlToBuffer_inv _ _ _ _ _ _ Hr) as (f & Hf & Hs & _).
  destruct (fit_inv _ _ _ Hf) as (_ & _ & _ & _ & _ & Hc & Ho & Hfin).
  destruct (fit_available_ge_1 _ _ _ Hf) as [[Ha _] [Hb _]].
  assert (Hw : finite_nz (width (r_contentSize r)) = true)
    by (apply (between_finite 1 100000); auto).
  assert (Hh : finite_nz (height (r_contentSize r)) = true)
    by (apply (between_finite 1 100000); auto).
  assert (Hn : nn (scaleChosen f)).
  { apply (overrideScale_nn _ _ _ Ho). rewrite Hc.
    apply computedScale_nn; auto. }
  rewrite Hs, Hfin.
  destruct (safetyClamp_range _ Hn) as [H1 H2].
  repeat split; auto. exists f. rewrite <- Hfin. auto.
Qed.

(** C1 on a request with the default options. *)
Lemma C1_scale_within_bounds_witness :
  exists r w',
    renderHtmlToBuffer be_ok "<h1>Hello World</h1>" defaults w_start = (Ok r, w') /\
    (0.1 <=? r_scale r) = true /\ (r_scale r <=? 2) = true.
Proof.
  eexists _, _.
  match goal with
  | |- ?run = (Ok ?r, ?w) /\ _ =>
      assert (E : run = (Ok r, w)) by (vm_compute; reflexivity)
  end.
  split; [exact E|].
  destruct (C1_scale_within_bounds _ _ _ _ _ _ E eq_refl eq_refl eq_refl eq_refl)
    as (H1 & H2 & _).
  split; assumption.
Defined.

(** C2.  With [single] set and no manual scale, the scale before the final
    clamp is [Math.min] of the width-fit and the height-fit candidates:
    neither candidate is below it; and for a content box of positive
    (finite) width and height it is at most each of the two. *)
Theorem C2_single_page_scale_is_min
    (opts : Options) (cs : ContentBox) (f : Fit) :
  fit opts cs = Ok f ->
  truthy (single opts) = true ->
  truthy (scale opts) = false ->
  let widthFit := availableWidthPx f / width cs in
  let heightFit := availableHeightPx f / height cs in
  scaleChosen f = Math_min widthFit heightFit /\
  (widthFit <? scaleChosen f) = false /\
  (heightFit <? scaleChosen f) = false /\
  ((0 <? width cs) = true -> (width cs <? infinity) = true ->
   (0 <? height cs) = true -> (height cs <? infinity) = true ->
   (scaleChosen f <=? widthFit) = true /\
   (scaleChosen f <=? heightFit) = true).
Proof.
  intros Hf Hs Hm. cbv zeta.
  destruct (fit_inv _ _ _ Hf) as (_ & _ & _ & _ & _ & Hc & Ho & _).
  destruct (fit_available_ge_1 _ _ _ Hf) as [[Ha _] [Hb _]].
  assert (E : scaleChosen f =
              Math_min (availableWidthPx f / width cs)
                       (availableHeightPx f / height cs)).
  { rewrite overrideScale_falsy in Ho by exact Hm.
    injection Ho as <-. rewrite Hc.
    unfold computedScale. now rewrite Hs. }
  split; [exact E|]. rewrite E.
  destruct (Math_min_not_above (availableWidthPx f / width cs)
              (availableHeightPx f / height cs)) as [N1 N2].
  split; [exact N1|]. split; [exact N2|].
  intros Hw0 Hw1 Hh0 Hh1.
  apply Math_min_le; apply div_nn; auto using positive_finite.
Qed.

(** C2 on 800 x 600 pixels, A4, with [single] set. *)
Lemma C2_single_page_scale_is_min_witness :
  exists f,
    fit (with_single (VBool true) defaults) box_800_600 = Ok f /\
    scaleChosen f =
      Math_min (availableWidthPx f / 800) (availableHeightPx f / 600) /\
    (scaleChosen f <=? availableWidthPx f / 800) = true /\
    (scaleChosen f <=? availableHeightPx f / 600) = true.
Proof.
  eexists.
  match goal with
  | |- ?run = Ok ?f /\ _ => assert (E : run = Ok f) by (vm_compute; reflexivity)
  end.
  split; [exact E|].
  destruct (C2_single_page_scale_is_min _ _ _ E eq_refl eq_refl)
    as (H1 & _ & _ & H2).
  split; [exact H1|].
  exact (H2 eq_refl eq_refl eq_refl eq_refl).
Defined.

(** C3.  A manual scale inside [0.1, 2] is the scale of the result, whatever
    the content, the paper and the margin: 0.5 gives 0.5.  A manual scale
    above 2 gives 2: 5.0 gives 2.0; one below 0.1 gives 0.1. *)
Theorem C3_manual_scale_overrides
    (be : Backend) (html : string) (opts : Options) (w w' : World) (r : Result) :
  renderHtmlToBuffer be html opts w = (Ok r, w') ->
  (forall n, Number (scale opts) = Ok n ->
   (0.1 <=? n) = true -> (n <=? 2) = true -> r_scale r = n) /\
  (scale opts = VNum 0.5 -> r_scale r = 0.5) /\
  (scale opts = VNum 5 -> r_scale r = 2) /\
  (forall n, truthy (scale opts) = true -> Number (scale opts) = Ok n ->
   (2 <? n) = true -> r_scale r = 2) /\
  (forall n, truthy (scale opts) = true -> Number (scale opts) = Ok n ->
   (n <? 0.1) = true -> r_scale r = 0.1).
Proof.
  intros Hr.
  destruct (renderHtmlToBuffer_inv _ _ _ _ _ _ Hr) as (f & Hf & Hs & _).
  destruct (fit_inv _ _ _ Hf) as (_ & _ & _ & _ & _ & _ & Ho & Hfin).
  rewrite Hs, Hfin. clear Hs Hfin Hr Hf.
  assert (In : forall n, Number (scale opts) = Ok n ->
               (0.1 <=? n) = true -> (n <=? 2) = true ->
               safetyClamp (scaleChosen f) = n).
  { intros n Hn H1 H2.
    rewrite (manual_scale_final opts _ _ n
               (in_range_value_truthy _ _ Hn H1) Hn (proj2 (leb_nn _ _ H1)) Ho).
    apply safetyClamp_id; assumption. }
  assert (Hi : forall n, truthy (scale opts) = true ->
               Number (scale opts) = Ok n -> (2 <? n) = true ->
               safetyClamp (scaleChosen f) = 2).
  { intros n Ht Hn H2.
    rewrite (manual_scale_final opts _ _ n Ht Hn (proj2 (ltb_nn _ _ H2)) Ho).
    unfold safetyClamp.
    rewrite (above_2_not_below_tenth _ H2), H2. reflexivity. }
  assert (Lo : forall n, truthy (scale opts) = true ->
               Number (scale opts) = Ok n -> (n <? 0.1) = true ->
               safetyClamp (scaleChosen f) = 0.1).
  { intros n Ht Hn H2.
    rewrite (manual_scale_final opts _ _ n Ht Hn (proj1 (ltb_nn _ _ H2)) Ho).
    unfold safetyClamp. rewrite H2. reflexivity. }
  split; [exact In|]. split; [|split; [|split; [exact Hi|exact Lo]]].
  - intros E. apply (In 0.5); rewrite ?E; reflexivity.
  - intros E. apply (Hi 5); rewrite ?E; reflexivity.
Qed.

(** C3 on a request with a manual scale of 0.5. *)
Lemma C3_manual_scale_overrides_witness :
  exists r w',
    renderHtmlToBuffer be_ok "<h1>Hello World</h1>"
      (with_scale (VNum 0.5) defaults) w_start = (Ok r, w') /\
    r_scale r = 0.5.
Proof.
  eexists _, _.
  match goal with
  | |- ?run = (Ok ?r, ?w) /\ _ =>
      assert (E : run = (Ok r, w)) by (vm_compute; reflexivity)
  end.
  split; [exact E|].
  exact (proj1 (proj2 (C3_manual_scale_overrides _ _ _ _ _ _ E)) eq_refl).
Defined.

(** C4 fails as stated: a manual scale of 5 is outside [0.1, 2], and the
    fitting of 800 x 600 pixels on A4 ends with 2, not with the computed
    0.8976.  And a manual scale that is an object with no primitive value
    is not numeric, and the request with it throws. *)
Lemma C4_manual_scale_5_is_clamped :
  Number (VNum 5) = Ok 5 /\ (5 <=? 2) = false /\
  finalScale_of (with_scale (VNum 5) defaults) box_800_600 = Ok 2 /\
  finalScale_of (with_scale VUndefined defaults) box_800_600
    = Ok 0.89763779527559062 /\
  ~ falls_back_to_computed (VNum 5) defaults box_800_600 /\
  fst (renderHtmlToBuffer be_ok "<h1>Hello World</h1>"
         (with_scale no_primitive defaults) w_start)
    = Throw "TypeError: Cannot convert object to primitive value" /\
  exists r w',
    renderHtmlToBuffer be_ok "<h1>Hello World</h1>"
      (with_scale (VNum 5) defaults) w_start = (Ok r, w') /\
    r_scale r = 2.
Proof.
  repeat apply conj; try (vm_compute; reflexivity).
  - unfold falls_back_to_computed. intros H.
    assert (E : forall a b : float, Ok a = Ok b -> (a <? 1) = (b <? 1))
      by (intros a b [= ->]; reflexivity).
    apply E in H. vm_compute in H. discriminate H.
  - eexists _, _. apply conj; [vm_compute; reflexivity|reflexivity].
Qed.

(** C4, amended.  A manual-scale value that is falsy (null, absent, 0, the
    empty string) or that converts to NaN leaves the computed scale.  A
    number outside [0.1, 2] does not: the fitting ends with the nearer
    bound.  A value that is falsy or converts to a number never makes the
    fitting throw, and a request with such a value, well-typed options and
    a backend that does not fail returns a result.  A truthy value whose
    conversion to a number throws (an object with no primitive value) makes
    the fitting throw, and the request with it. *)
Theorem C4_invalid_manual_scale (opts : Options) (v : value) (cs : ContentBox) :
  (truthy v = false \/ (exists n, Number v = Ok n /\ is_nan n = true) ->
   falls_back_to_computed v opts cs) /\
  (forall n, truthy v = true -> Number v = Ok n -> (n <? 0.1) = true ->
   forall s, finalScale_of (with_scale v opts) cs = Ok s -> s = 0.1) /\
  (forall n, truthy v = true -> Number v = Ok n -> (2 <? n) = true ->
   forall s, finalScale_of (with_scale v opts) cs = Ok s -> s = 2) /\
  (truthy v = false \/ (exists n, Number v = Ok n) ->
   (forall e, finalScale_of (with_scale v opts) cs = Throw e <->
              finalScale_of (with_scale VUndefined opts) cs = Throw e) /\
   (forall be html w ctx,
      contextOptions_of opts = Ok ctx ->
      backend_succeeds be html ctx cs -> well_typed opts ->
      exists r w', renderHtmlToBuffer be html (with_scale v opts) w = (Ok r, w'))) /\
  (forall e, truthy v = true -> Number v = Throw e ->
   (exists e', finalScale_of (with_scale v opts) cs = Throw e') /\
   (forall be html w ctx,
      contextOptions_of opts = Ok ctx ->
      backend_succeeds be html ctx cs -> well_typed opts ->
      exists w', renderHtmlToBuffer be html (with_scale v opts) w = (Throw e, w'))).
Proof.
  assert (R : truthy v = false \/ (exists n, Number v = Ok n) ->
            forall be html w ctx,
              contextOptions_of opts = Ok ctx ->
              backend_succeeds be html ctx cs -> well_typed opts ->
              exists r w',
                renderHtmlToBuffer be html (with_scale v opts) w = (Ok r, w')).
  { intros Hv be html w ctx Hx Hb Ht.
    destruct (renderHtmlToBuffer_returns be html (with_scale v opts) w ctx cs
                Hx Hb Ht Hv) as (r & w' & H & _).
    eauto. }
  assert (T : forall e, truthy v = true -> Number v = Throw e ->
            forall be html w ctx,
              contextOptions_of opts = Ok ctx ->
              backend_succeeds be html ctx cs -> well_typed opts ->
              exists w',
                renderHtmlToBuffer be html (with_scale v opts) w = (Throw e, w')).
  { intros e Hv Hn be html w ctx Hx Hb [Hf Hm].
    apply (renderHtmlToBuffer_fit_throws be html (with_scale v opts) w ctx cs e Hx Hb).
    unfold fit.
    change (paper_of (with_scale v opts)) with (paper_of opts).
    assert (Hpaper : exists p, paper_of opts = Ok p).
    { unfold paper_of, or_else. destruct Hf as [Hf|[s Hf]].
      - rewrite Hf. eauto.
      - rewrite Hf. destruct (truthy (VStr s)); eauto. }
    destruct Hpaper as [p ->]. cbn [obind].
    change (orient (with_scale v opts) (paperMm p)) with (orient opts (paperMm p)).
    destruct (orient opts (paperMm p)) as [pw ph].
    change (marginMm_of (with_scale v opts)) with (marginMm_of opts).
    assert (Hmargin : exists m, marginMm_of opts = Ok m).
    { unfold marginMm_of, or_else.
      destruct (truthy (margin opts)) eqn:E;
        [|exists 10; vm_compute; reflexivity].
      unfold parseMarginToMm_or_0, parseMarginToMm. rewrite E. cbn [negb].
      destruct Hm as [Hm|[[s Hm]|[n Hm]]]; [discriminate Hm| |]; rewrite Hm.
      - destruct (endsWith s "mm"); [|destruct (endsWith s "cm");
          [|destruct (endsWith s "in")]]; cbn [obind]; eauto.
      - cbn [obind]. eauto. }
    destruct Hmargin as [m ->]. cbn [obind].
    rewrite (overrideScale_throws (with_scale v opts) _ e Hv Hn).
    reflexivity. }
  unfold falls_back_to_computed. rewrite !finalScale_with_scale.
  change (overrideScale (with_scale VUndefined opts))
    with (fun s : float => @Ok float s).
  destruct (fit (with_scale VUndefined opts) cs) as [f|e0]; cbn [obind].
  - split; [intros H; now rewrite overrideScale_invalid|].
    split; [|split; [|split]].
    + intros n Ht Hn Hlo s.
      destruct (overrideScale (with_scale v opts) (scaleComputed f))
        as [s1|] eqn:E; cbn [obind]; [|discriminate].
      intros [= <-].
      rewrite (manual_scale_final (with_scale v opts) _ s1 n Ht Hn
                 (proj1 (ltb_nn _ _ Hlo)) E).
      unfold safetyClamp. rewrite Hlo. reflexivity.
    + intros n Ht Hn Hhi s.
      destruct (overrideScale (with_scale v opts) (scaleComputed f))
        as [s1|] eqn:E; cbn [obind]; [|discriminate].
      intros [= <-].
      rewrite (manual_scale_final (with_scale v opts) _ s1 n Ht Hn
                 (proj2 (ltb_nn _ _ Hhi)) E).
      unfold safetyClamp.
      rewrite (above_2_not_below_tenth _ Hhi), Hhi. reflexivity.
    + intros Hv. split; [|exact (R Hv)].
      destruct (overrideScale_total (with_scale v opts) (scaleComputed f) Hv)
        as [s1 ->].
      cbn [obind]. split; discriminate.
    + intros e Ht Hn. split; [|exact (T e Ht Hn)].
      rewrite (overrideScale_throws (with_scale v opts) _ e Ht Hn).
      cbn [obind]. eauto.
  - split; [reflexivity|].
    split; [discriminate|]. split; [discriminate|].
    split; [intros Hv; split; [reflexivity|exact (R Hv)]|].
    intros e Ht Hn. split; [eauto|exact (T e Ht Hn)].
Qed.

(** C5 fails as stated: when [page.close()] throws after a successful
    emission, the request throws that error instead of returning the
    result, [context.close()] is not called, the context stays open, and
    nothing is logged about it. *)
Lemma C5_teardown_failure_overrides :
  exists w1 r w2,
    openSession be_close_throws defaults w_start = (Ok tt, w1) /\
    renderBody be_close_throws "<h1>Hello World</h1>" defaults w1 = (Ok r, w2) /\
    exists w',
      renderHtmlToBuffer be_close_throws "<h1>Hello World</h1>" defaults w_start
        = (Throw "page.close: Target closed", w') /\
      openContexts w' = 1%nat /\
      calls w' = PageClose :: calls w2 /\
      ~ released_with_primary_outcome be_close_throws "<h1>Hello World</h1>"
          defaults w_start.
Proof.
  eexists _, _, _.
  split; [vm_compute; reflexivity|].
  split; [vm_compute; reflexivity|].
  eexists. split; [vm_compute; reflexivity|].
  split; [reflexivity|]. split; [reflexivity|].
  intros H. destruct (H _ eq_refl) as [H1 _].
  vm_compute in H1. discriminate H1.
Qed.

(** C5, amended.  Once the context and the page are open, every exit of the
    [try] block, a result or a throw, is followed by [page.close()] and,
    when that returns, by [context.close()].  When both return, the request
    ends with the outcome of the [try] block and with its context and page
    closed.  A throw of either is not caught: the request throws it. *)
Theorem C5_session_teardown
    (be : Backend) (html : string) (opts : Options) (w w1 : World) :
  openSession be opts w = (Ok tt, w1) ->
  let primary := fst (renderBody be html opts w1) in
  let w2 := snd (renderBody be html opts w1) in
  let final := fst (renderHtmlToBuffer be html opts w) in
  let w' := snd (renderHtmlToBuffer be html opts w) in
  (page_close be = Ok tt -> context_close be = Ok tt ->
   final = primary /\
   calls w' = ContextClose :: PageClose :: calls w2 /\
   openContexts w' = openContexts w /\ openPages w' = openPages w) /\
  (forall e, page_close be = Throw e ->
   final = Throw e /\ calls w' = PageClose :: calls w2) /\
  (forall e, page_close be = Ok tt -> context_close be = Throw e ->
   final = Throw e /\ calls w' = ContextClose :: PageClose :: calls w2).
Proof.
  intros Ho. cbv zeta.
  destruct (openSession_counters _ _ _ _ Ho) as [Hc Hp].
  destruct (renderBody_counters be html opts w1) as [Hc2 Hp2].
  assert (E : renderHtmlToBuffer be html opts w =
              try_finally (renderBody be html opts) (teardown be) w1)
    by (unfold renderHtmlToBuffer, bind; rewrite Ho; reflexivity).
  rewrite E. unfold try_finally.
  destruct (renderBody be html opts w1) as [primary w2]. simpl in Hc2, Hp2 |- *.
  unfold teardown, bind, perform.
  split; [|split].
  - intros H1 H2. rewrite H1, H2. simpl. rewrite Hc2, Hp2, Hc, Hp. auto.
  - intros e H1. rewrite H1. simpl. auto.
  - intros e H1 H2. rewrite H1, H2. simpl. auto.
Qed.

(** C5, amended, on a request whose teardown succeeds. *)
Lemma C5_session_teardown_witness :
  fst (renderHtmlToBuffer be_ok "<h1>Hello World</h1>" defaults w_start)
    = fst (renderBody be_ok "<h1>Hello World</h1>" defaults
             (snd (openSession be_ok defaults w_start))) /\
  openContexts (snd (renderHtmlToBuffer be_ok "<h1>Hello World</h1>" defaults w_start))
    = 0%nat.
Proof.
  pose proof (C5_session_teardown be_ok "<h1>Hello World</h1>" defaults w_start
                (snd (openSession be_ok defaults w_start)) eq_refl) as H.
  destruct H as [H _]. destruct (H eq_refl eq_refl) as (H1 & _ & H2 & _).
  split; [exact H1|exact H2].
Defined.

(** C6 fails as stated: for a text that does not start with a number
    [parseMarginToMm] returns NaN, not 0 (it is line 82 that replaces it by
    0), and for a value that is truthy and neither a string nor a number
    it throws. *)
Lemma C6_unparsable_margin_is_NaN :
  parseMarginToMm (VStr "wide") = Ok nan /\
  parseMarginToMm (VStr "wide") <> Ok 0 /\
  parseMarginToMm (VStr "automm") = Ok nan /\
  parseMarginToMm (VBool true) = Throw "TypeError: m.endsWith is not a function".
Proof.
  repeat apply conj; try (vm_compute; reflexivity).
  intros H.
  assert (E : forall a b : float, Ok a = Ok b -> is_nan a = is_nan b)
    by (intros a b [= ->]; reflexivity).
  apply E in H. vm_compute in H. discriminate H.
Qed.

(** C6, amended.  [parseMarginToMm] maps a whole number N written in
    decimal and followed by mm to the number N, followed by cm to ten times
    it, followed by in to 25.4 times it, and whatever text stands before
    the suffix to the number [parseFloat] reads at its head; a number to
    itself; a string with none of the three suffixes to the number at its
    head, so a whole number followed by anything that is not a digit, a
    point or an exponent to that number; and a falsy value to 0.
    Fractions, signs, exponents and leading white space are read too, as
    the samples show.  For a text that does not start with a number it
    returns NaN; line 82 replaces NaN by 0, and nothing else.  It never
    throws for a string, a number or a falsy value, and throws for every
    other value. *)
Theorem C6_margin_conversion :
  (forall n, parseMarginToMm (VStr (decimal n ++ "mm")) = Ok (nearest n)) /\
  (forall n, parseMarginToMm (VStr (decimal n ++ "cm")) = Ok (nearest n * 10)) /\
  (forall n, parseMarginToMm (VStr (decimal n ++ "in")) = Ok (nearest n * 25.4)) /\
  (forall s, parseMarginToMm (VStr (s ++ "mm")) = Ok (parseFloat s) /\
             parseMarginToMm (VStr (s ++ "cm")) = Ok (parseFloat s * 10) /\
             parseMarginToMm (VStr (s ++ "in")) = Ok (parseFloat s * 25.4)) /\
  (forall x, parseMarginToMm (VNum x) = Ok (if num_truthy x then x else 0)) /\
  (forall s, s <> EmptyString ->
             endsWith s "mm" = false -> endsWith s "cm" = false ->
             endsWith s "in" = false ->
             parseMarginToMm (VStr s) = Ok (parseFloat s)) /\
  (forall n rest, ends_number rest -> parseFloat (decimal n ++ rest) = nearest n) /\
  (decimal 10 = "10"%string /\ nearest 10 = 10 /\
   nearest 0 = 0 /\ nearest 9007199254740993 = 9007199254740992) /\
  (parseMarginToMm (VStr "10mm") = Ok 10 /\
   parseMarginToMm (VStr "1cm") = Ok 10 /\
   parseMarginToMm (VStr "2.5cm") = Ok 25 /\
   parseMarginToMm (VStr "1in") = Ok 25.4 /\
   parseMarginToMm (VStr "0.5in") = Ok 12.7 /\
   parseMarginToMm (VNum 7.5) = Ok 7.5 /\
   parseMarginToMm (VStr "12") = Ok 12 /\
   parseMarginToMm (VStr "12px") = Ok 12 /\
   parseMarginToMm (VStr "12.5pt") = Ok 12.5 /\
   parseMarginToMm (VStr "-3mm") = Ok (-3) /\
   parseMarginToMm (VStr "1e1mm") = Ok 10 /\
   parseMarginToMm (VStr (nbsp ++ "5mm")) = Ok 5) /\
  (parseMarginToMm (VStr "wide") = Ok nan /\
   parseMarginToMm (VStr "automm") = Ok nan /\
   parseMarginToMm_or_0 (VStr "wide") = Ok 0 /\
   parseMarginToMm_or_0 (VStr "automm") = Ok 0 /\
   parseMarginToMm_or_0 (VStr "1in") = Ok 25.4) /\
  (forall m, (exists s, m = VStr s) \/ (exists x, m = VNum x) \/ truthy m = false ->
             exists x, parseMarginToMm m = Ok x) /\
  (forall m x, parseMarginToMm m = Ok x ->
     parseMarginToMm_or_0 m = Ok (num_or x 0) /\
     is_nan (num_or x 0) = false /\
     (is_nan x = true -> num_or x 0 = 0) /\
     (is_nan x = false -> (num_or x 0 =? x) = true)) /\
  (forall m, truthy m = false -> parseMarginToMm m = Ok 0) /\
  (forall m, truthy m = true ->
     (forall s, m <> VStr s) -> (forall x, m <> VNum x) ->
     parseMarginToMm m = Throw "TypeError: m.endsWith is not a function").
Proof.
  assert (U : forall s,
             parseMarginToMm (VStr (s ++ "mm")) = Ok (parseFloat s) /\
             parseMarginToMm (VStr (s ++ "cm")) = Ok (parseFloat s * 10) /\
             parseMarginToMm (VStr (s ++ "in")) = Ok (parseFloat s * 25.4)).
  { intros s. unfold parseMarginToMm.
    rewrite !app_unit_truthy, !endsWith_unit, !slice_unit. cbn [negb].
    repeat apply conj; reflexivity. }
  split; [|split; [|split; [|split; [|split; [|split; [|split; [|split; [|split;
    [|split; [|split; [|split; [|split]]]]]]]]]]]].
  - intros n. rewrite (proj1 (U _)). now rewrite parseFloat_decimal_alone.
  - intros n. rewrite (proj1 (proj2 (U _))). now rewrite parseFloat_decimal_alone.
  - intros n. rewrite (proj2 (proj2 (U _))). now rewrite parseFloat_decimal_alone.
  - exact U.
  - intros x. unfold parseMarginToMm. cbn [truthy].
    destruct (num_truthy x); reflexivity.
  - intros s Hs H1 H2 H3. unfold parseMarginToMm. rewrite H1, H2, H3.
    destruct s; [contradiction|reflexivity].
  - apply parseFloat_decimal.
  - repeat apply conj; vm_compute; reflexivity.
  - repeat apply conj; vm_compute; reflexivity.
  - repeat apply conj; vm_compute; reflexivity.
  - intros m [[s ->]|[[x ->]|Hf]]; unfold parseMarginToMm.
    + destruct (truthy (VStr s)); cbn [negb]; [|eauto].
      destruct (endsWith s "mm"); [|destruct (endsWith s "cm");
        [|destruct (endsWith s "in")]]; eauto.
    + destruct (truthy (VNum x)); cbn [negb]; eauto.
    + rewrite Hf. cbn [negb]. eauto.
  - intros m x H. unfold parseMarginToMm_or_0. rewrite H. cbn [obind].
    split; [reflexivity|]. split; [apply num_or_0_nn|].
    split; [apply num_or_nan|apply num_or_0_eq].
  - intros m H. unfold parseMarginToMm. now rewrite H.
  - intros m Ht Hs Hn. unfold parseMarginToMm. rewrite Ht. cbn [negb].
    destruct m as [| |b|x|s|o]; try reflexivity.
    + exfalso. exact (Hn x eq_refl).
    + exfalso. exact (Hs s eq_refl).
Qed.



(** C8.  For 800 x 600 pixels on A4, portrait, margin 10mm, without manual
    scale and with single-page off: the available width is
    max(1, (210 - 2 * 10) * 96 / 25.4), within 1e-12 of that quotient of
    real numbers and so within 0.01 of 718.11; the scale is the available
    width divided by 800, within 1e-15 of the real quotient and within
    0.0001 of 0.8976; and it is the scale of the result. *)
Theorem C8_A4_800x600_scale :
  exists f,
    fit defaults box_800_600 = Ok f /\
    availableWidthPx f = Math_max 1 ((210 - 2 * 10) * (96 / 25.4)) /\
    scaleChosen f = availableWidthPx f / 800 /\
    scaleFinal f = availableWidthPx f / 800 /\
    (Qabs (to_Q (availableWidthPx f) - (210 - 2 * 10) * 96 / (254 / 10))
       <= 1 / 10 ^ 12)%Q /\
    (Qabs (to_Q (availableWidthPx f) - 71811 / 100) <= 1 / 100)%Q /\
    (Qabs (to_Q (scaleFinal f) - (210 - 2 * 10) * 96 / (254 / 10) / 800)
       <= 1 / 10 ^ 15)%Q /\
    (Qabs (to_Q (scaleFinal f) - 8976 / 10000) <= 1 / 10000)%Q /\
    exists r w',
      renderHtmlToBuffer be_ok "<h1>Hello World</h1>" defaults w_start = (Ok r, w') /\
      r_contentSize r = box_800_600 /\ r_scale r = scaleFinal f.
Proof.
  eexists. apply conj; [vm_compute; reflexivity|].
  repeat apply conj; try (vm_compute; reflexivity);
    try (apply Qle_bool_imp_le; vm_compute; reflexivity).
  eexists _, _. apply conj; [vm_compute; reflexivity|].
  apply conj; reflexivity.
Qed.

(** C9 fails as stated.  A [dpi] that cannot be converted to a number makes
    the request throw, a document request too, where the same request
    with 96 returns.  And the page of an image request is measured under the
    device scale factor that [dpi] sets: where the page measures 1600
    pixels wide at a factor of 2 and 800 at a factor of 1, the scales of
    the results differ. *)
Lemma C9_dpi_changes_the_run :
  (exists r w',
     renderHtmlToBuffer be_ok "<h1>Hello World</h1>" defaults w_start
       = (Ok r, w')) /\
  fst (renderHtmlToBuffer be_ok "<h1>Hello World</h1>"
         (with_dpi no_primitive defaults) w_start)
    = Throw "TypeError: Cannot convert object to primitive value" /\
  exists r1 w1 r2 w2,
    renderHtmlToBuffer be_measures_by_factor "<h1>Hello World</h1>"
      (with_dpi (VNum 96) (with_png (VBool true) defaults)) w_start
      = (Ok r1, w1) /\
    renderHtmlToBuffer be_measures_by_factor "<h1>Hello World</h1>"
      (with_dpi (VNum 192) (with_png (VBool true) defaults)) w_start
      = (Ok r2, w2) /\
    r_scale r1 = 0.89763779527559062 /\ r_scale r2 = 0.44881889763779531.
Proof.
  split; [eexists _, _; vm_compute; reflexivity|].
  split; [vm_compute; reflexivity|].
  eexists _, _, _, _.
  split; [vm_compute; reflexivity|].
  split; [vm_compute; reflexivity|].
  split; vm_compute; reflexivity.
Qed.

(** C9, amended.  The fitting does not read [dpi]: with any other [dpi]
    value the paper, its geometry, the margin, the available area and the
    three scales are the same for the same content, and the [try] block
    runs the same on the same page; the conversion constant is 96 / 25.4.
    [dpi] is converted to a number on every request: when the conversion
    throws, the request throws before a context is created.  Otherwise
    [dpi] only sets the device scale factor of the context of an image
    request: the viewport is the same, a document request runs the same
    with any [dpi] that converts, and two requests that return with the
    same measured content return the same scale, paper and orientation. *)
Theorem C9_fitting_independent_of_dpi (opts : Options) (d : value) :
  (forall cs, fit (with_dpi d opts) cs = fit opts cs) /\
  pxPerMm = 96 / 25.4 /\
  (forall be html w,
     renderBody be html (with_dpi d opts) w = renderBody be html opts w) /\
  (forall n, dpi_of opts = Ok n ->
     contextOptions_of opts =
       Ok (if truthy (png opts)
           then {| deviceScaleFactor := Some (n / 96);
                   viewport := Some (1280, 800) |}
           else {| deviceScaleFactor := None; viewport := None |})) /\
  (forall c1 c2,
     contextOptions_of (with_dpi d opts) = Ok c1 ->
     contextOptions_of opts = Ok c2 ->
     viewport c1 = viewport c2 /\
     (truthy (png opts) = false ->
      forall be html w,
        renderHtmlToBuffer be html (with_dpi d opts) w =
        renderHtmlToBuffer be html opts w)) /\
  (forall e, dpi_of opts = Throw e ->
     forall be html w,
       browser w = true \/ launch be = Ok tt ->
       fst (renderHtmlToBuffer be html opts w) = Throw e /\
       openContexts (snd (renderHtmlToBuffer be html opts w)) = openContexts w) /\
  (forall be html w w1 w2 r1 r2,
     renderHtmlToBuffer be html (with_dpi d opts) w = (Ok r1, w1) ->
     renderHtmlToBuffer be html opts w = (Ok r2, w2) ->
     r_contentSize r1 = r_contentSize r2 ->
     r_scale r1 = r_scale r2 /\ r_paper r1 = r_paper r2 /\
     r_orientation r1 = r_orientation r2).
Proof.
  split; [intros cs; apply fit_with_dpi|].
  split; [reflexivity|].
  split; [intros be html w; apply renderBody_with_dpi|].
  split.
  { intros n Hn. unfold contextOptions_of. rewrite Hn. reflexivity. }
  split.
  { intros c1 c2 H1 H2.
    assert (V : viewport c1 = viewport c2 /\
                (truthy (png opts) = false -> c1 = c2)).
    { revert H1 H2. unfold contextOptions_of. cbn [png with_dpi].
      destruct (dpi_of (with_dpi d opts)) as [n1|]; [|discriminate].
      destruct (dpi_of opts) as [n2|]; [|discriminate].
      cbn [obind]. intros [= <-] [= <-].
      destruct (truthy (png opts)); split; try reflexivity; discriminate. }
    split; [apply V|].
    intros Hp be html w. destruct V as [_ V]. specialize (V Hp). subst c2.
    unfold renderHtmlToBuffer, openSession, bind, lift.
    rewrite H1, H2.
    destruct (initBrowser be w) as [[u|e] w0]; [|reflexivity].
    destruct (perform _ _ _ w0) as [[u1|e] w3]; [|reflexivity].
    destruct (perform _ _ _ w3) as [[u2|e] w4]; [|reflexivity].
    unfold try_finally. now rewrite renderBody_with_dpi. }
  split.
  { intros e He be html w Hb.
    unfold renderHtmlToBuffer, openSession, contextOptions_of, initBrowser,
      bind, perform, logger_info, lift, ret.
    rewrite He. cbn [obind].
    destruct (browser w) eqn:E; [split; reflexivity|].
    destruct Hb as [Hb|Hb]; [discriminate|]. rewrite Hb. split; reflexivity. }
  intros be html w w1 w2 r1 r2 H1 H2 Hcs.
  destruct (renderHtmlToBuffer_inv _ _ _ _ _ _ H1) as (f1 & Hf1 & S1 & P1 & O1).
  destruct (renderHtmlToBuffer_inv _ _ _ _ _ _ H2) as (f2 & Hf2 & S2 & P2 & O2).
  rewrite fit_with_dpi, Hcs, Hf2 in Hf1. injection Hf1 as <-.
  rewrite S1, S2, P1, P2, O1, O2. auto.
Qed.

(** C10.  The width and height of the paper are swapped, and [landscape] is
    set for [page.pdf], exactly when [orientation] is the string
    landscape in lower case; Landscape and LANDSCAPE are handled as
    portrait.  Paper names are matched without case: a5 is A5. *)
Theorem C10_orientation_case_sensitive
    (opts : Options) (cs : ContentBox) (f : Fit) :
  fit opts cs = Ok f ->
  ((paperWidthMm f, paperHeightMm f) =
     (snd (paperMm (paper f)), fst (paperMm (paper f)))
   <-> orientation opts = VStr "landscape") /\
  ((paperWidthMm f, paperHeightMm f) = paperMm (paper f)
   <-> orientation opts <> VStr "landscape") /\
  (landscape (pdfOptions_of opts f) = true
   <-> orientation opts = VStr "landscape") /\
  (orientation opts = VStr "Landscape" \/ orientation opts = VStr "LANDSCAPE" ->
   (paperWidthMm f, paperHeightMm f) = paperMm (paper f) /\
   landscape (pdfOptions_of opts f) = false) /\
  paper_of (with_format (VStr "a5") opts) = paper_of (with_format (VStr "A5") opts) /\
  paper_of (with_format (VStr "letter") opts) = Ok "LETTER"%string.
Proof.
  intros Hf.
  destruct (fit_inv _ _ _ Hf) as (_ & Ho & _).
  pose proof (paperMm_not_square (paper f)) as Hsq.
  pose proof (is_string_iff (orientation opts) "landscape") as Hl.
  fold (isLandscape opts) in Hl.
  rewrite Ho. unfold orient. cbn [landscape pdfOptions_of].
  destruct (paperMm (paper f)) as [pw ph]. simpl in Hsq |- *.
  destruct (isLandscape opts) eqn:E.
  - assert (El : orientation opts = VStr "landscape") by (apply Hl; reflexivity).
    split; [split; auto|].
    split; [split; [intros [= H1 H2]; exfalso; apply Hsq; congruence
                   |intros H; contradiction]|].
    split; [split; auto|].
    split; [intros [H|H]; rewrite H in El; discriminate El|].
    split; reflexivity.
  - assert (El : orientation opts <> VStr "landscape").
    { intros H. apply Hl in H. discriminate H. }
    split; [split; [intros [= H1 H2]; exfalso; apply Hsq; congruence
                   |intros H; contradiction]|].
    split; [split; auto|].
    split; [split; [discriminate|intros H; contradiction]|].
    split; [intros _; split; reflexivity|].
    split; reflexivity.
Qed.

(** C10 on the orientation Landscape, with a capital. *)
Lemma C10_orientation_case_sensitive_witness :
  exists f,
    fit (with_orientation (VStr "Landscape") defaults) box_800_600 = Ok f /\
    (paperWidthMm f, paperHeightMm f) = paperMm (paper f) /\
    landscape (pdfOptions_of (with_orientation (VStr "Landscape") defaults) f) = false.
Proof.
  eexists.
  match goal with
  | |- ?run = Ok ?f /\ _ => assert (E : run = Ok f) by (vm_compute; reflexivity)
  end.
  split; [exact E|].
  exact (proj1 (proj2 (proj2 (proj2
           (C10_orientation_case_sensitive _ _ _ E)))) (or_introl eq_refl)).
Defined.

(** ** Further properties: [src/rateLimit.js] *)

Module RateLimitFacts.
Import RateLimit.

Section Config.
Variables MAX WINDOW : Z.

Lemma counters_set_same (c : Counters) (id : string) (r : Rec) :
  counters_set c id r id = Some r.
Proof. unfold counters_set. now rewrite String.eqb_refl. Qed.

Lemma counters_set_other (c : Counters) (id k : string) (r : Rec) :
  k <> id -> counters_set c id r k = c k.
Proof.
  intros H. unfold counters_set.
  destruct (String.eqb k id) eqn:E; auto.
  apply String.eqb_eq in E. contradiction.
Qed.

(** A call only writes the record of its id. *)
Lemma step_frame (now : Z) (id k : string) (c : Counters) :
  k <> id -> snd (isRateLimitedFor MAX WINDOW now id c) k = c k.
Proof.
  intros H. unfold isRateLimitedFor.
  destruct (c id) as [r|]; simpl; [|now apply counters_set_other].
  destruct (WINDOW <? now - windowStart r)%Z; simpl;
    [now apply counters_set_other|].
  destruct (MAX <? count r + 1)%Z; simpl; now apply counters_set_other.
Qed.

(** A call only reads the record of its id. *)
Lemma step_local (now : Z) (id : string) (c1 c2 : Counters) :
  c1 id = c2 id ->
  fst (isRateLimitedFor MAX WINDOW now id c1) =
    fst (isRateLimitedFor MAX WINDOW now id c2) /\
  snd (isRateLimitedFor MAX WINDOW now id c1) id =
    snd (isRateLimitedFor MAX WINDOW now id c2) id.
Proof.
  intros H. unfold isRateLimitedFor. rewrite H.
  destruct (c2 id) as [r|]; simpl; [|now rewrite !counters_set_same].
  destruct (WINDOW <? now - windowStart r)%Z; simpl;
    [now rewrite !counters_set_same|].
  destruct (MAX <? count r + 1)%Z; simpl; now rewrite !counters_set_same.
Qed.

(** Inside a window: the call counts, and is limited when the count passes
    the maximum. *)
Lemma step_in_window (now t0 n : Z) (id : string) (c : Counters) :
  c id = Some {| windowStart := t0; count := n |} ->
  (now - t0 <= WINDOW)%Z ->
  limited (fst (isRateLimitedFor MAX WINDOW now id c)) = (MAX <? n + 1)%Z /\
  snd (isRateLimitedFor MAX WINDOW now id c) id =
    Some {| windowStart := t0; count := n + 1 |}.
Proof.
  intros H Hw. unfold isRateLimitedFor. rewrite H. simpl.
  replace (WINDOW <? now - t0)%Z with false by (symmetry; apply Z.ltb_ge; lia).
  destruct (MAX <? n + 1)%Z; simpl; now rewrite counters_set_same.
Qed.

Lemma serve_cons (now : Z) (id : string) (reqs : list (Z * string)) (c : Counters) :
  serve MAX WINDOW ((now, id) :: reqs) c =
  ((id, fst (isRateLimitedFor MAX WINDOW now id c))
     :: fst (serve MAX WINDOW reqs (snd (isRateLimitedFor MAX WINDOW now id c))),
   snd (serve MAX WINDOW reqs (snd (isRateLimitedFor MAX WINDOW now id c)))).
Proof.
  simpl. destruct (isRateLimitedFor MAX WINDOW now id c) as [v c1]. simpl.
  destruct (serve MAX WINDOW reqs c1) as [vs c2]. reflexivity.
Qed.

Lemma serve_app (r1 r2 : list (Z * string)) (c : Counters) :
  serve MAX WINDOW (r1 ++ r2) c =
  (fst (serve MAX WINDOW r1 c) ++ fst (serve MAX WINDOW r2 (snd (serve MAX WINDOW r1 c))),
   snd (serve MAX WINDOW r2 (snd (serve MAX WINDOW r1 c)))).
Proof.
  revert c. induction r1 as [|[t i] r1 IH]; intros c.
  - simpl. now destruct (serve MAX WINDOW r2 c).
  - rewrite <- app_comm_cons, !serve_cons, IH. reflexivity.
Qed.

(** The calls of one id that stay inside its window. *)
Lemma serve_in_window (id : string) (t0 : Z) (rest : list Z) :
  forall (n : Z) (c : Counters),
    c id = Some {| windowStart := t0; count := n |} ->
    Forall (fun t => (t - t0 <= WINDOW)%Z) rest ->
    map (fun iv => limited (snd iv))
        (fst (serve MAX WINDOW (map (fun t => (t, id)) rest) c)) =
      map (fun k => (MAX <? n + Z.of_nat k)%Z) (seq 1 (List.length rest)) /\
    snd (serve MAX WINDOW (map (fun t => (t, id)) rest) c) id =
      Some {| windowStart := t0; count := n + Z.of_nat (List.length rest) |}.
Proof.
  induction rest as [|t rest IH]; intros n c Hc Hall.
  - simpl. rewrite Hc. split; [reflexivity|]. f_equal. f_equal. lia.
  - inversion Hall as [|? ? Ht Hrest]; subst.
    cbn [map]. rewrite serve_cons. cbn [fst snd map List.length seq].
    destruct (step_in_window t t0 n id c Hc Ht) as [Hl Hs].
    destruct (IH (n + 1)%Z _ Hs Hrest) as [IH1 IH2].
    split.
    + rewrite Hl, IH1. f_equal.
      rewrite <- (seq_shift (List.length rest) 1), map_map.
      apply map_ext. intros k. f_equal. lia.
    + rewrite IH2. f_equal. f_equal. lia.
Qed.

End Config.

End RateLimitFacts.

Import RateLimit RateLimitFacts.

(** X1.  In one window the k-th call of an id is limited exactly when k is above
    the maximum.  For an id without a record, the first call opens a window
    and is allowed; of the calls that follow within [WINDOW] ms of it, the
    k-th (counting the first) is limited if and only if [MAX < k]; every
    call is counted, the limited ones too, and the window start stays. *)
Theorem rate_limit_window_quota
    (MAX WINDOW : Z) (id : string) (t0 : Z) (rest : list Z) (c : Counters) :
  c id = None ->
  Forall (fun t => (t - t0 <= WINDOW)%Z) rest ->
  map (fun iv => limited (snd iv))
      (fst (serve MAX WINDOW (map (fun t => (t, id)) (t0 :: rest)) c)) =
    false :: map (fun k => (MAX <? Z.of_nat k)%Z) (seq 2 (List.length rest)) /\
  snd (serve MAX WINDOW (map (fun t => (t, id)) (t0 :: rest)) c) id =
    Some {| windowStart := t0; count := Z.of_nat (S (List.length rest)) |}.
Proof.
  intros Hc Hall. cbn [map]. rewrite serve_cons. cbn [fst snd map].
  assert (H1 : isRateLimitedFor MAX WINDOW t0 id c =
               ({| limited := false; remaining := MAX - 1; resetMs := WINDOW |},
                counters_set c id {| windowStart := t0; count := 1 |}))
    by (unfold isRateLimitedFor; now rewrite Hc).
  rewrite H1. cbn [fst snd limited].
  destruct (serve_in_window MAX WINDOW id t0 rest 1 _
              (counters_set_same c id _) Hall) as [E1 E2].
  split.
  - f_equal. rewrite E1.
    rewrite <- (seq_shift (List.length rest) 1), map_map.
    apply map_ext. intros k. f_equal. lia.
  - rewrite E2. f_equal. f_equal. lia.
Qed.

Lemma rate_limit_window_quota_witness :
  map (fun iv => limited (snd iv))
      (fst (serve 2 1000 (map (fun t => (t, "k"%string)) [0; 10; 20; 1000]%Z)
              no_counters)) =
    [false; false; true; true].
Proof.
  refine (proj1 (rate_limit_window_quota 2 1000 "k" 0 [10; 20; 1000]%Z
                   no_counters eq_refl _)).
  repeat constructor; discriminate.
Defined.

(** X2.  The calls of other ids change nothing for an id: the verdicts it gets in
    a sequence of calls, and the record it is left with, are those it gets
    when its own calls are made alone. *)
Theorem rate_limit_ids_independent
    (MAX WINDOW : Z) (id : string) (reqs : list (Z * string)) (c : Counters) :
  verdicts_of id (fst (serve MAX WINDOW reqs c)) =
    map snd (fst (serve MAX WINDOW (calls_of id reqs) c)) /\
  snd (serve MAX WINDOW reqs c) id =
    snd (serve MAX WINDOW (calls_of id reqs) c) id.
Proof.
  enough (G : forall c1 c2, c1 id = c2 id ->
            verdicts_of id (fst (serve MAX WINDOW reqs c1)) =
              map snd (fst (serve MAX WINDOW (calls_of id reqs) c2)) /\
            snd (serve MAX WINDOW reqs c1) id =
              snd (serve MAX WINDOW (calls_of id reqs) c2) id)
    by (apply G; reflexivity).
  induction reqs as [|[t i] reqs IH]; intros c1 c2 Hc.
  - simpl. auto.
  - rewrite serve_cons. unfold calls_of, verdicts_of in *.
    cbn [filter fst snd].
    destruct (String.eqb i id) eqn:E.
    + apply String.eqb_eq in E. subst i.
      rewrite serve_cons. cbn [fst snd map].
      destruct (step_local MAX WINDOW t id c1 c2 Hc) as [Hv Hs].
      destruct (IH _ _ Hs) as [IH1 IH2].
      rewrite Hv, IH1, IH2. auto.
    + apply IH. rewrite step_frame; auto.
      intros ->. rewrite String.eqb_refl in E. discriminate E.
Qed.

Lemma serve_bounds (MAX WINDOW : Z) :
  (1 <= MAX)%Z -> (0 <= WINDOW)%Z ->
  forall reqs t0 c,
    (forall id r, c id = Some r -> (windowStart r <= t0)%Z /\ (1 <= count r)%Z) ->
    nondecreasing t0 reqs ->
    Forall (fun iv => verdict_in_bounds MAX WINDOW (snd iv))
           (fst (serve MAX WINDOW reqs c)).
Proof.
  intros HM HW. induction reqs as [|[t i] reqs IH]; intros t0 c Hinv Hmono.
  - constructor.
  - destruct Hmono as [Ht Hmono]. rewrite serve_cons. cbn [fst].
    constructor.
    + cbn [snd]. unfold isRateLimitedFor, verdict_in_bounds.
      destruct (c i) as [r|] eqn:Ei;
        [|simpl; split; [lia|split; [lia|discriminate]]].
      destruct (Hinv _ _ Ei) as [Hs Hc].
      destruct (WINDOW <? t - windowStart r)%Z eqn:Ew;
        [simpl; split; [lia|split; [lia|discriminate]]|].
      apply Z.ltb_ge in Ew. simpl.
      destruct (MAX <? count r + 1)%Z eqn:El; simpl;
        (split; [lia|split; [lia|]]); [reflexivity|discriminate].
    + apply (IH t); [|exact Hmono].
      intros k r Hk.
      destruct (String.eqb k i) eqn:E.
      * apply String.eqb_eq in E. subst k. revert Hk.
        unfold isRateLimitedFor.
        destruct (c i) as [r0|] eqn:Ei.
        -- destruct (Hinv _ _ Ei) as [Hs Hc].
           destruct (WINDOW <? t - windowStart r0)%Z; simpl;
             [|destruct (MAX <? count r0 + 1)%Z; simpl];
             rewrite counters_set_same; intros [= <-]; simpl; lia.
        -- simpl. rewrite counters_set_same. intros [= <-]. simpl. lia.
      * assert (Hne : k <> i)
          by (intros ->; rewrite String.eqb_refl in E; discriminate E).
        rewrite step_frame in Hk by exact Hne.
        destruct (Hinv _ _ Hk). lia.
Qed.

(** X3.  With a maximum of at least 1, a window that is not negative and a clock
    that does not go back, every verdict from empty counters on has
    [0 <= remaining <= MAX - 1] and [0 <= resetMs <= WINDOW], and a limited
    one has [remaining = 0]. *)
Theorem rate_limit_verdict_bounds
    (MAX WINDOW : Z) (t0 : Z) (reqs : list (Z * string)) :
  (1 <= MAX)%Z -> (0 <= WINDOW)%Z ->
  nondecreasing t0 reqs ->
  Forall (fun iv => verdict_in_bounds MAX WINDOW (snd iv))
         (fst (serve MAX WINDOW reqs no_counters)).
Proof.
  intros HM HW Hm. apply (serve_bounds MAX WINDOW HM HW reqs t0); auto.
  intros id r H. discriminate H.
Qed.

Lemma rate_limit_verdict_bounds_witness :
  Forall (fun iv => verdict_in_bounds 120 60000 (snd iv))
         (fst (serve 120 60000 [(5, "a"); (7, "b"); (7, "a"); (70000, "a")]%Z%string
                 no_counters)).
Proof.
  apply (rate_limit_verdict_bounds 120 60000 0); try lia.
  simpl. lia.
Defined.

(** X4.  The window is fixed: however many calls an id made in its window, the
    limited ones included, its first call more than [WINDOW] ms after the
    window start is allowed, with [MAX - 1] remaining, and starts a window
    at that time with a count of 1. *)
Theorem rate_limit_window_restart
    (MAX WINDOW : Z) (id : string) (t0 t : Z) (rest : list Z) (c : Counters) :
  c id = None ->
  Forall (fun u => (u - t0 <= WINDOW)%Z) rest ->
  (WINDOW < t - t0)%Z ->
  let c' := snd (serve MAX WINDOW (map (fun u => (u, id)) (t0 :: rest)) c) in
  fst (isRateLimitedFor MAX WINDOW t id c') =
    {| limited := false; remaining := MAX - 1; resetMs := WINDOW |} /\
  snd (isRateLimitedFor MAX WINDOW t id c') id =
    Some {| windowStart := t; count := 1 |}.
Proof.
  intros Hc Hall Ht c'.
  destruct (serve_in_window MAX WINDOW id t0 rest 1
              (counters_set c id {| windowStart := t0; count := 1 |})
              (counters_set_same c id _) Hall) as [_ E].
  assert (Ec : c' id = Some {| windowStart := t0;
                               count := 1 + Z.of_nat (List.length rest) |}).
  { unfold c'. cbn [map]. rewrite serve_cons. cbn [snd].
    assert (H1 : snd (isRateLimitedFor MAX WINDOW t0 id c) =
                 counters_set c id {| windowStart := t0; count := 1 |})
      by (unfold isRateLimitedFor; now rewrite Hc).
    rewrite H1. exact E. }
  unfold isRateLimitedFor. rewrite Ec. cbn [windowStart].
  replace (WINDOW <? t - t0)%Z with true by (symmetry; apply Z.ltb_lt; lia).
  cbn [fst snd]. now rewrite counters_set_same.
Qed.

Lemma rate_limit_window_restart_witness :
  fst (isRateLimitedFor 1 1000 1001 "k"
         (snd (serve 1 1000 (map (fun u => (u, "k"%string)) [0; 1; 2; 3]%Z)
                 no_counters))) =
    {| limited := false; remaining := 0; resetMs := 1000 |}.
Proof.
  refine (proj1 (rate_limit_window_restart 1 1000 "k" 0 1001 [1; 2; 3]%Z
                   no_counters eq_refl _ _)).
  - repeat constructor; discriminate.
  - lia.
Defined.

(** ** Further properties: [src/auth.js] *)

Module AuthFacts.
Import JS JSMore Auth.

(** [trim] on sample texts: white space outside ASCII is stripped too (the
    byte-order mark, the no-break space, the line separator U+2028), and
    nothing else is (the letter U+00E9, the control U+0085, white space
    inside the text). *)
Lemma trim_examples :
  trim "  secret-1  " = "secret-1"%string /\
  trim (Examples.bom ++ "secret-1" ++ Examples.nbsp) = "secret-1"%string /\
  trim (Examples.nbsp ++ Examples.bom ++ " ") = EmptyString /\
  trim (String (ascii_of_nat 226) (String (ascii_of_nat 128)
          (String (ascii_of_nat 168) "k"))) = "k"%string /\
  trim (" a b " ++ Examples.nbsp) = "a b"%string /\
  trim (String (ascii_of_nat 195) (String (ascii_of_nat 169) " "))
    = String (ascii_of_nat 195) (String (ascii_of_nat 169) "") /\
  trim (String (ascii_of_nat 194) (String (ascii_of_nat 133) "k"))
    = String (ascii_of_nat 194) (String (ascii_of_nat 133) "k").
Proof. repeat apply conj; vm_compute; reflexivity. Qed.

(** The keys of the sample file: the byte-order mark and the no-break
    spaces are no part of a key, and the line of one no-break space is no
    key. *)
Lemma sample_keys_loaded :
  loadApiKeysFromFile (Readable sample_keys_file) =
    ({| apiKeySet := ["secret-0"; "secret-1"; "secret-2"]%string;
        apiKeysFileExists := true |}, Some (Debug_loaded 3)).
Proof. vm_compute. reflexivity. Qed.

(** [provided] on sample headers: the no-break space after a key is
    trimmed, and a Bearer header hides X-API-Key. *)
Lemma provided_examples :
  provided_of {| authorization := Some ("Bearer secret" ++ Examples.nbsp)%string;
                 x_api_key := None |} = Some "secret"%string /\
  provided_of {| authorization := Some "bEaReR   k1  "%string;
                 x_api_key := Some "k2"%string |} = Some "k1"%string /\
  provided_of {| authorization := Some "Basic abc"%string;
                 x_api_key := Some (Examples.nbsp ++ "k2 ")%string |}
    = Some "k2"%string /\
  provided_of {| authorization := Some "Bearer"%string; x_api_key := None |}
    = None.
Proof. repeat apply conj; vm_compute; reflexivity. Qed.

Lemma text_truthy_Some (s : string) :
  text_truthy (Some s) = true <-> s <> EmptyString.
Proof.
  cbn [text_truthy]. destruct (String.eqb s "") eqn:E; cbn [negb].
  - apply String.eqb_eq in E. split; [discriminate|]. intros H. contradiction.
  - split; [|reflexivity]. intros _ H. subst s. discriminate E.
Qed.

Lemma set_has_In (s : list string) (k : string) :
  set_has s k = true <-> In k s.
Proof.
  unfold set_has. rewrite existsb_exists. split.
  - intros (x & Hx & E). apply String.eqb_eq in E. now subst.
  - intros H. exists k. split; [exact H|apply String.eqb_refl].
Qed.

Lemma set_add_In (x k : string) (s : list string) :
  In k (set_add x s) <-> k = x \/ In k s.
Proof.
  unfold set_add. destruct (set_has s x) eqn:E.
  - apply set_has_In in E. split; auto. intros [->|H]; auto.
  - rewrite in_app_iff. simpl. split; intros [H|H]; auto.
    + destruct H as [H|[]]; auto.
Qed.

Lemma set_add_NoDup (x : string) (s : list string) :
  NoDup s -> NoDup (set_add x s).
Proof.
  intros H. unfold set_add. destruct (set_has s x) eqn:E; auto.
  assert (Hn : ~ In x s).
  { intros Hin. apply set_has_In in Hin. congruence. }
  clear E. induction H as [|y l Hy Hl IH]; simpl.
  - constructor; auto. constructor.
  - constructor.
    + rewrite in_app_iff. simpl. intros [H1|[H1|[]]]; [contradiction|].
      subst. apply Hn. now left.
    + apply IH. intros H1. apply Hn. now right.
Qed.

Lemma keys_fold (lines : list string) :
  forall acc k,
    In k (fold_left
            (fun s raw =>
               let line := trim raw in
               if negb (text_truthy (Some line)) then s
               else if startsWith line "#" then s
               else set_add line s) lines acc)
    <-> In k acc \/ exists raw, In raw lines /\ key_line raw k.
Proof.
  induction lines as [|raw lines IH]; intros acc k; cbn [fold_left].
  - split; auto. intros [H|(raw & [] & _)]. exact H.
  - rewrite IH. cbv zeta.
    destruct (text_truthy (Some (trim raw))) eqn:Et; cbn [negb].
    + destruct (startsWith (trim raw) "#") eqn:Ec.
      * split; intros [H|(r & Hr & Hk)]; auto.
        -- right. exists r. split; [now right|exact Hk].
        -- destruct Hr as [<-|Hr]; [|right; eauto].
           destruct Hk as (E & _ & Hc). subst k. congruence.
      * rewrite set_add_In. split.
        -- intros [[->|H]|(r & Hr & Hk)]; auto.
           ++ right. exists raw. split; [now left|].
              split; [reflexivity|]. split; [now apply text_truthy_Some|exact Ec].
           ++ right. exists r. split; [now right|exact Hk].
        -- intros [H|(r & [<-|Hr] & Hk)]; auto.
           ++ left. left. symmetry. apply Hk.
           ++ right. eauto.
    + split; intros [H|(r & Hr & Hk)]; auto.
      * right. exists r. split; [now right|exact Hk].
      * destruct Hr as [<-|Hr]; [|right; eauto].
        destruct Hk as (E & Hne & _). subst k.
        apply text_truthy_Some in Hne. congruence.
Qed.

Lemma keys_fold_NoDup (lines : list string) :
  forall acc,
    NoDup acc ->
    NoDup (fold_left
             (fun s raw =>
                let line := trim raw in
                if negb (text_truthy (Some line)) then s
                else if startsWith line "#" then s
                else set_add line s) lines acc).
Proof.
  induction lines as [|raw lines IH]; intros acc H; cbn [fold_left]; auto.
  apply IH. cbv zeta.
  destruct (negb (text_truthy (Some (trim raw)))); auto.
  destruct (startsWith (trim raw) "#"); auto using set_add_NoDup.
Qed.

Lemma keys_of_lines_In (lines : list string) (k : string) :
  In k (keys_of_lines lines) <-> exists raw, In raw lines /\ key_line raw k.
Proof.
  unfold keys_of_lines. rewrite keys_fold. split; auto.
  intros [[]|H]. exact H.
Qed.

Lemma length_pos (A : Type) (l : list A) (x : A) :
  In x l -> (0 <? List.length l)%nat = true.
Proof. destruct l; simpl; [intros []|reflexivity]. Qed.

End AuthFacts.

Import JS JSMore Auth AuthFacts.

(** X5.  After a load of a readable file the key set is exactly what the lines
    of the file trim to, leaving out the empty ones and those that start
    with #, each once; and the file counts as present. *)
Theorem auth_keys_loaded (txt : string) :
  let st := fst (loadApiKeysFromFile (Readable txt)) in
  apiKeysFileExists st = true /\
  NoDup (apiKeySet st) /\
  forall k, In k (apiKeySet st) <->
            exists raw, In raw (split_lines txt) /\ key_line raw k.
Proof.
  cbn. split; [reflexivity|]. split.
  - apply keys_fold_NoDup. constructor.
  - intros k. apply keys_of_lines_In.
Qed.

(** X6.  A request that passes where a key is required carries a key: if
    [validateAuth] answers valid with [authRequired], the provided key is not
    empty and is a key of the file when the file is present with at least
    one key, and is [API_KEY] otherwise. *)
Theorem auth_valid_sound
    (API_KEY_ENV : option string) (st : AuthState) (req : Headers) :
  valid (validateAuth API_KEY_ENV st req) = true ->
  authRequired (validateAuth API_KEY_ENV st req) = true ->
  exists k,
    provided (validateAuth API_KEY_ENV st req) = Some k /\
    k <> EmptyString /\
    (apiKeysFileExists st = true /\ In k (apiKeySet st) \/
     (apiKeysFileExists st = false \/ apiKeySet st = []) /\
     API_KEY_ENV = Some k).
Proof.
  unfold validateAuth.
  destruct (apiKeysFileExists st) eqn:Ef; cbn [andb].
  - destruct (0 <? List.length (apiKeySet st))%nat eqn:En.
    + cbn [valid authRequired provided]. intros Hv _.
      apply andb_prop in Hv. destruct Hv as [Ht Hh].
      destruct (provided_of req) as [k|]; [|discriminate Ht].
      exists k. split; [reflexivity|]. split; [now apply text_truthy_Some|].
      left. split; [reflexivity|now apply set_has_In].
    + destruct (text_truthy API_KEY_ENV) eqn:Ee;
        cbn [valid authRequired provided]; [|discriminate].
      intros Hv _. apply andb_prop in Hv. destruct Hv as [Ht Hh].
      destruct (provided_of req) as [k|]; [|discriminate Ht].
      destruct API_KEY_ENV as [e|]; [|discriminate Hh].
      apply String.eqb_eq in Hh. subst e.
      exists k. split; [reflexivity|]. split; [now apply text_truthy_Some|].
      right. split; [|reflexivity]. right.
      destruct (apiKeySet st); [reflexivity|discriminate En].
  - destruct (text_truthy API_KEY_ENV) eqn:Ee;
      cbn [valid authRequired provided]; [|discriminate].
    intros Hv _. apply andb_prop in Hv. destruct Hv as [Ht Hh].
    destruct (provided_of req) as [k|]; [|discriminate Ht].
    destruct API_KEY_ENV as [e|]; [|discriminate Hh].
    apply String.eqb_eq in Hh. subst e.
    exists k. split; [reflexivity|]. split; [now apply text_truthy_Some|].
    right. split; [now left|reflexivity].
Qed.

Lemma auth_valid_sound_witness :
  exists k,
    provided (validateAuth None {| apiKeySet := ["k1"; "k2"]%string;
                                   apiKeysFileExists := true |}
                {| authorization := Some "Bearer k2"%string;
                   x_api_key := None |}) = Some k /\
    k <> EmptyString.
Proof.
  destruct (auth_valid_sound None
              {| apiKeySet := ["k1"; "k2"]%string; apiKeysFileExists := true |}
              {| authorization := Some "Bearer k2"%string; x_api_key := None |}
              eq_refl eq_refl) as (k & H1 & H2 & _).
  exists k. split; assumption.
Defined.

(** X7.  Authentication fails open.  When the keys file is missing, cannot be
    read, or has no key line, and [API_KEY] is unset or empty, every
    request is valid, whatever its headers, and no key is required. *)
Theorem auth_fails_open
    (f : KeysFile) (env_API_KEY : option string) (req : Headers) :
  (f = Missing \/ (exists err, f = Unreadable err) \/
   exists txt, f = Readable txt /\
     Forall (fun raw => trim raw = EmptyString \/
                        startsWith (trim raw) "#" = true) (split_lines txt)) ->
  text_truthy env_API_KEY = false ->
  validateAuth (API_KEY_ENV_of env_API_KEY) (fst (loadApiKeysFromFile f)) req =
    {| valid := true; authRequired := false; provided := provided_of req |}.
Proof.
  intros Hf He.
  assert (En : text_truthy (API_KEY_ENV_of env_API_KEY) = false)
    by (unfold API_KEY_ENV_of; now rewrite He).
  assert (Hk : apiKeySet (fst (loadApiKeysFromFile f)) = []).
  { destruct Hf as [->|[[err ->]|(txt & -> & Hall)]]; try reflexivity.
    cbn. destruct (keys_of_lines (split_lines txt)) as [|k l] eqn:E; auto.
    assert (Hin : In k (keys_of_lines (split_lines txt)))
      by (rewrite E; now left).
    apply keys_of_lines_In in Hin. destruct Hin as (raw & Hr & Ht & Hne & Hc).
    rewrite Forall_forall in Hall. destruct (Hall raw Hr) as [H|H].
    - congruence.
    - rewrite Ht in H. congruence. }
  unfold validateAuth. rewrite Hk, En. cbn [List.length Nat.ltb Nat.leb].
  now rewrite andb_false_r.
Qed.

Lemma auth_fails_open_witness :
  valid (validateAuth (API_KEY_ENV_of (Some ""%string))
           (fst (loadApiKeysFromFile (Unreadable "EACCES")))
           {| authorization := None; x_api_key := None |}) = true.
Proof.
  rewrite (auth_fails_open (Unreadable "EACCES") (Some ""%string)
             {| authorization := None; x_api_key := None |}).
  - reflexivity.
  - right. left. eexists. reflexivity.
  - reflexivity.
Defined.

(** X8.  A key of the file opens the door.  If a line of a readable keys file
    trims to a key [k] that is not empty and is no comment, a request whose
    Authorization header starts with bearer and a space, in any case, and
    trims to [k] after them is valid, whatever [API_KEY] and the X-API-Key
    header are. *)
Theorem auth_accepts_listed_key
    (txt raw k h : string) (API_KEY_ENV x : option string) :
  In raw (split_lines txt) ->
  key_line raw k ->
  startsWith (toLowerCase h) "bearer " = true ->
  trim (slice_from 7 h) = k ->
  validateAuth API_KEY_ENV (fst (loadApiKeysFromFile (Readable txt)))
    {| authorization := Some h; x_api_key := x |} =
    {| valid := true; authRequired := true; provided := Some k |}.
Proof.
  intros Hr Hk Hb Ht.
  assert (Hin : In k (keys_of_lines (split_lines txt)))
    by (apply keys_of_lines_In; eauto).
  assert (Hh : text_truthy (Some h) = true).
  { apply text_truthy_Some. intros ->. discriminate Hb. }
  unfold validateAuth, provided_of.
  cbn [loadApiKeysFromFile fst apiKeysFileExists apiKeySet authorization
       x_api_key option_map].
  rewrite Hh, Hb, Ht. cbn [andb].
  rewrite (length_pos _ _ _ Hin).
  assert (Hne : text_truthy (Some k) = true)
    by (apply text_truthy_Some; apply Hk).
  rewrite Hne. cbn [andb].
  assert (Hs : set_has (keys_of_lines (split_lines txt)) k = true)
    by (now apply set_has_In).
  now rewrite Hs.
Qed.

Lemma auth_accepts_listed_key_witness :
  valid (validateAuth (Some "other"%string)
           (fst (loadApiKeysFromFile (Readable sample_keys_file)))
           {| authorization := Some ("BEARER   secret-0 " ++ Examples.nbsp)%string;
              x_api_key := Some "nonsense"%string |}) = true.
Proof.
  rewrite (auth_accepts_listed_key sample_keys_file
             (Examples.bom ++ "secret-0") "secret-0"
             ("BEARER   secret-0 " ++ Examples.nbsp)
             (Some "other"%string) (Some "nonsense"%string)).
  - reflexivity.
  - vm_compute. auto.
  - repeat split; try (vm_compute; reflexivity). discriminate.
  - reflexivity.
  - vm_compute. reflexivity.
Defined.

(** X9.  Which credential counts.  A Bearer Authorization header hides the
    X-API-Key header, even when the first carries a wrong key and the
    second a right one; and when the file is present with at least one
    key, [API_KEY] is not consulted. *)
Theorem auth_precedence
    (st : AuthState) (h : string) (x1 x2 e1 e2 : option string) (req : Headers) :
  (startsWith (toLowerCase h) "bearer " = true ->
   validateAuth e1 st {| authorization := Some h; x_api_key := x1 |} =
   validateAuth e1 st {| authorization := Some h; x_api_key := x2 |}) /\
  (apiKeysFileExists st = true -> apiKeySet st <> [] ->
   validateAuth e1 st req = validateAuth e2 st req) /\
  (startsWith (toLowerCase h) "bearer " = true ->
   apiKeysFileExists st = true -> apiKeySet st <> [] ->
   ~ In (trim (slice_from 7 h)) (apiKeySet st) ->
   valid (validateAuth e1 st {| authorization := Some h; x_api_key := x1 |})
     = false).
Proof.
  assert (P : startsWith (toLowerCase h) "bearer " = true ->
              forall x, provided_of {| authorization := Some h; x_api_key := x |}
                        = Some (trim (slice_from 7 h))).
  { intros Hb x. unfold provided_of. cbn [authorization x_api_key option_map].
    assert (Hh : text_truthy (Some h) = true).
    { apply text_truthy_Some. intros ->. discriminate Hb. }
    now rewrite Hh, Hb. }
  split; [|split].
  - intros Hb. unfold validateAuth. now rewrite !(P Hb).
  - intros Hf Hn. unfold validateAuth. rewrite Hf.
    destruct (apiKeySet st); [contradiction|reflexivity].
  - intros Hb Hf Hn Hnot. unfold validateAuth. rewrite Hf, (P Hb).
    destruct (apiKeySet st) as [|a l] eqn:E; [contradiction|].
    cbn [List.length Nat.ltb Nat.leb andb valid].
    destruct (set_has (a :: l) (trim (slice_from 7 h))) eqn:Es.
    + apply set_has_In in Es. contradiction.
    + apply andb_false_r.
Qed.

(** ** Further properties: the middleware of [server.js] *)

Module ServerFacts.
Import JS JSMore Server.

Section Config.
Variables (MAX WINDOW : Z) (env : option string) (st : Auth.AuthState).

Lemma serve_all_cons (r : Incoming) (reqs : list Incoming) (c : RateLimit.Counters) :
  serve_all MAX WINDOW env st (r :: reqs) c =
  (fst (middleware MAX WINDOW env st (arrival r) (headers r) (peer r) c)
     :: fst (serve_all MAX WINDOW env st reqs
               (snd (middleware MAX WINDOW env st (arrival r) (headers r) (peer r) c))),
   snd (serve_all MAX WINDOW env st reqs
          (snd (middleware MAX WINDOW env st (arrival r) (headers r) (peer r) c)))).
Proof.
  cbn [serve_all].
  destruct (middleware MAX WINDOW env st (arrival r) (headers r) (peer r) c) as [p c1].
  cbn [fst snd]. destruct (serve_all MAX WINDOW env st reqs c1). reflexivity.
Qed.

(** A request that is not valid ends in 401 and leaves the counters; a
    valid one does not end in 401. *)
Lemma middleware_401 (r : Incoming) (c : RateLimit.Counters) :
  (authorized env st r = false ->
   middleware MAX WINDOW env st (arrival r) (headers r) (peer r) c
     = (Unauthorized_401, c)) /\
  (authorized env st r = true ->
   is_401 (fst (middleware MAX WINDOW env st (arrival r) (headers r) (peer r) c))
     = false).
Proof.
  unfold authorized, middleware. split; intros H; rewrite H; cbn [negb].
  - reflexivity.
  - destruct (RateLimit.isRateLimitedFor MAX WINDOW (arrival r) _ c) as [rl c'].
    destruct (RateLimit.limited rl); reflexivity.
Qed.

End Config.

End ServerFacts.

Import Server ServerFacts.

(** X10.  Requests without a valid key cost no quota.  Over any sequence of
    requests, those that [validateAuth] rejects end in 401 and change no
    counter: the other requests end as they do, and the counters are left
    as they are, when the rejected requests are never made. *)
Theorem unauthorized_requests_cost_no_quota
    (MAX WINDOW : Z) (env : option string) (st : Auth.AuthState)
    (reqs : list Incoming) (c : RateLimit.Counters) :
  filter (fun p => negb (is_401 p)) (fst (serve_all MAX WINDOW env st reqs c)) =
    fst (serve_all MAX WINDOW env st (filter (authorized env st) reqs) c) /\
  snd (serve_all MAX WINDOW env st reqs c) =
    snd (serve_all MAX WINDOW env st (filter (authorized env st) reqs) c).
Proof.
  revert c. induction reqs as [|r reqs IH]; intros c.
  - split; reflexivity.
  - rewrite serve_all_cons. cbn [filter fst snd].
    destruct (middleware_401 MAX WINDOW env st r c) as [H0 H1].
    destruct (authorized env st r) eqn:E.
    + rewrite serve_all_cons. cbn [fst snd].
      rewrite (H1 eq_refl). cbn [negb].
      destruct (IH (snd (middleware MAX WINDOW env st (arrival r) (headers r)
                           (peer r) c))) as [IH1 IH2].
      rewrite IH1, IH2. split; reflexivity.
    + rewrite (H0 eq_refl). cbn [fst snd is_401 negb]. apply IH.
Qed.

(** X11.  With no key required, a request is counted under the key it presents.
    So a sequence of requests that each present a different key, not empty
    and without a record yet, all pass, never limited, whatever the maximum
    and whatever address they come from. *)
Theorem fresh_keys_are_never_limited
    (MAX WINDOW : Z) (env : option string) (st : Auth.AuthState)
    (reqs : list Incoming) (keys : list string) (c : RateLimit.Counters) :
  Auth.apiKeysFileExists st = false \/ Auth.apiKeySet st = [] ->
  text_truthy env = false ->
  map (fun r => Auth.provided_of (headers r)) reqs = map Some keys ->
  NoDup keys ->
  Forall (fun k => k <> EmptyString /\ c k = None) keys ->
  forallb is_next (fst (serve_all MAX WINDOW env st reqs c)) = true.
Proof.
  intros Hst Henv. revert keys c.
  induction reqs as [|r reqs IH]; intros keys c Hk Hnd Hall.
  - reflexivity.
  - destruct keys as [|k keys]; [discriminate Hk|].
    cbn [map] in Hk. injection Hk as Hk1 Hk2.
    inversion Hnd as [|? ? Hnotin Hnd']; subst.
    inversion Hall as [|? ? [Hne Hc] Hall']; subst.
    rewrite serve_all_cons. cbn [fst forallb].
    assert (Ev : Auth.validateAuth env st (headers r) =
                 {| Auth.valid := true; Auth.authRequired := false;
                    Auth.provided := Some k |}).
    { unfold Auth.validateAuth. rewrite Hk1, Henv.
      destruct Hst as [-> | ->]; [reflexivity|].
      cbn [List.length Nat.ltb Nat.leb]. now rewrite andb_false_r. }
    assert (Em : middleware MAX WINDOW env st (arrival r) (headers r) (peer r) c =
                 (Next {| x_ratelimit_limit := MAX;
                          x_ratelimit_remaining := MAX - 1;
                          x_ratelimit_reset := ceil_div_1000 WINDOW |} k,
                  RateLimit.counters_set c k
                    {| RateLimit.windowStart := arrival r; RateLimit.count := 1 |})).
    { unfold middleware. rewrite Ev. cbn [Auth.valid Auth.provided negb].
      assert (Eid : rate_limit_id (Some k) (peer r) = k).
      { unfold rate_limit_id, text_or.
        assert (Ht : text_truthy (Some k) = true)
          by (now apply AuthFacts.text_truthy_Some).
        now rewrite Ht. }
      rewrite Eid. unfold RateLimit.isRateLimitedFor. rewrite Hc. reflexivity. }
    rewrite Em. cbn [fst snd is_next andb].
    apply (IH keys); auto.
    rewrite Forall_forall in *. intros k' Hk'.
    destruct (Hall' k' Hk') as [Hne' Hc']. split; [exact Hne'|].
    rewrite RateLimitFacts.counters_set_other; auto.
    intros ->. contradiction.
Qed.

Lemma fresh_keys_are_never_limited_witness :
  forallb is_next
    (fst (serve_all 0 60000 None
            {| Auth.apiKeySet := []; Auth.apiKeysFileExists := false |}
            [ {| arrival := 1;
                 headers := {| Auth.authorization := None;
                               Auth.x_api_key := Some "a"%string |};
                 peer := {| ip := Some "10.0.0.7"%string; remoteAddress := None |} |};
              {| arrival := 2;
                 headers := {| Auth.authorization := Some "Bearer b"%string;
                               Auth.x_api_key := None |};
                 peer := {| ip := Some "10.0.0.7"%string; remoteAddress := None |} |} ]
            RateLimit.no_counters)) = true.
Proof.
  apply (fresh_keys_are_never_limited 0 60000 None _ _ ["a"; "b"]%string).
  - left. reflexivity.
  - reflexivity.
  - reflexivity.
  - repeat constructor; simpl; intuition discriminate.
  - repeat constructor; discriminate.
Defined.

(** ** Further properties: [src/render.js] *)

Module RenderFacts.
Import JS Render Examples Statements F64 FitFacts RenderRuns.

(** [renderBody] launches nothing and leaves the [browser] variable. *)
Lemma renderBody_browser (be : Backend) (html : string) (opts : Options)
    (w : World) :
  browser (snd (renderBody be html opts w)) = browser w /\
  launches (snd (renderBody be html opts w)) = launches w.
Proof.
  unfold renderBody, bind, perform_on, perform, lift, ret, try_catch_ignore,
    launches.
  destruct (setContent be html); [|split; reflexivity].
  destruct (evaluate be _ html) as [cs|]; [|split; reflexivity].
  destruct (fit opts cs) as [f|]; [|split; reflexivity].
  destruct (truthy (png opts)).
  - destruct (setViewportSize be _ _); destruct (screenshot be _ _);
      split; reflexivity.
  - destruct (pdf be _); split; reflexivity.
Qed.

(** The [finally] block, when both closes return. *)
Lemma teardown_ok (be : Backend) (w : World) :
  page_close be = Ok tt -> context_close be = Ok tt ->
  teardown be w =
    (Ok tt, {| browser := browser w;
               openContexts := pred (openContexts w);
               openPages := pred (openPages w);
               page := page w;
               calls := ContextClose :: PageClose :: calls w |}).
Proof.
  intros H1 H2. unfold teardown, bind, perform. rewrite H1, H2. reflexivity.
Qed.


(** A session that opens, on a backend that can launch. *)
Lemma openSession_ok (be : Backend) (opts : Options) (w : World)
    (ctx : ContextOptions) :
  contextOptions_of opts = Ok ctx ->
  launch be = Ok tt ->
  newContext be ctx = Ok tt ->
  newPage be = Ok tt ->
  exists w1,
    openSession be opts w = (Ok tt, w1) /\
    browser w1 = true /\
    openContexts w1 = S (openContexts w) /\
    openPages w1 = S (openPages w) /\
    launches w1 = ((if browser w then 0 else 1) + launches w)%nat.
Proof.
  intros Hx Hl Hc Hp.
  unfold openSession, initBrowser, bind, perform, logger_info, lift, ret,
    launches.
  rewrite Hl, Hx, Hc, Hp. destruct (browser w) eqn:E.
  - eexists. split; [reflexivity|]. cbn. rewrite E. auto.
  - eexists. split; [reflexivity|]. cbn. auto.
Qed.

(** A session whose context options cannot be computed: nothing is
    opened. *)
Lemma openSession_no_options (be : Backend) (opts : Options) (w : World)
    (e : string) :
  contextOptions_of opts = Throw e ->
  launch be = Ok tt ->
  fst (openSession be opts w) = Throw e /\
  browser (snd (openSession be opts w)) = true /\
  openContexts (snd (openSession be opts w)) = openContexts w /\
  openPages (snd (openSession be opts w)) = openPages w /\
  launches (snd (openSession be opts w)) =
    ((if browser w then 0 else 1) + launches w)%nat.
Proof.
  intros Hx Hl.
  unfold openSession, initBrowser, bind, perform, logger_info, lift, ret,
    launches.
  rewrite Hl, Hx. destruct (browser w) eqn:E; cbn; rewrite ?E; auto.
Qed.

Lemma serve_requests_cons (be : Backend) (html : string) (opts : Options)
    (reqs : list (string * Options)) (w : World) :
  serve_requests be ((html, opts) :: reqs) w =
  (fst (renderHtmlToBuffer be html opts w)
     :: fst (serve_requests be reqs (snd (renderHtmlToBuffer be html opts w))),
   snd (serve_requests be reqs (snd (renderHtmlToBuffer be html opts w)))).
Proof.
  cbn [serve_requests]. destruct (renderHtmlToBuffer be html opts w) as [r w1].
  cbn [fst snd]. destruct (serve_requests be reqs w1). reflexivity.
Qed.

(** One request on a backend whose session opens and closes. *)
Lemma request_leaves_no_session (be : Backend) (html : string)
    (opts : Options) (w : World) :
  launch be = Ok tt ->
  (forall ctx, contextOptions_of opts = Ok ctx -> newContext be ctx = Ok tt) ->
  newPage be = Ok tt ->
  page_close be = Ok tt -> context_close be = Ok tt ->
  let w' := snd (renderHtmlToBuffer be html opts w) in
  browser w' = true /\
  openContexts w' = openContexts w /\
  openPages w' = openPages w /\
  launches w' = ((if browser w then 0 else 1) + launches w)%nat.
Proof.
  intros Hl Hc Hp Hpc Hcc. cbv zeta.
  destruct (contextOptions_of opts) as [ctx|e] eqn:Ex.
  - destruct (openSession_ok be opts w ctx Ex Hl (Hc ctx eq_refl) Hp)
      as (w1 & Ho & Hb & Hoc & Hop & Hla).
    destruct (renderBody_browser be html opts w1) as [Hb2 Hl2].
    destruct (renderBody_counters be html opts w1) as [Hc2 Hp2].
    assert (E : renderHtmlToBuffer be html opts w =
                try_finally (renderBody be html opts) (teardown be) w1)
      by (unfold renderHtmlToBuffer, bind; rewrite Ho; reflexivity).
    rewrite E. unfold try_finally.
    destruct (renderBody be html opts w1) as [r w2]. cbn [snd] in *.
    rewrite (teardown_ok be w2 Hpc Hcc). cbn [snd browser openContexts openPages].
    rewrite Hb2, Hb, Hc2, Hoc, Hp2, Hop. repeat split; auto.
    rewrite <- Hla, <- Hl2. unfold launches. reflexivity.
  - destruct (openSession_no_options be opts w e Ex Hl)
      as (Ho & Hb & Hoc & Hop & Hla).
    unfold renderHtmlToBuffer, bind.
    destruct (openSession be opts w) as [[u|e'] w1]; cbn [fst snd] in *;
      [discriminate Ho|].
    auto.
Qed.

End RenderFacts.

Import RenderRuns RenderFacts.

(** X12.  The available print area is at least one pixel each way.  Whatever the
    options that the fitting accepts, also with a margin larger than the
    paper, infinite or not a number, [availableWidthPx] and
    [availableHeightPx] are numbers that are at least 1. *)
Theorem available_area_at_least_one
    (opts : Options) (cs : ContentBox) (f : Fit) :
  fit opts cs = Ok f ->
  (1 <=? availableWidthPx f) = true /\ (1 <=? availableHeightPx f) = true.
Proof.
  intros H. destruct (fit_available_ge_1 _ _ _ H) as [[_ H1] [_ H2]]. auto.
Qed.

Lemma available_area_at_least_one_witness :
  exists f,
    fit (with_margin (VStr "20cm") defaults) box_800_600 = Ok f /\
    availableWidthPx f = 1 /\
    (1 <=? availableHeightPx f) = true.
Proof.
  eexists.
  match goal with
  | |- ?run = Ok ?f /\ _ => assert (E : run = Ok f) by (vm_compute; reflexivity)
  end.
  split; [exact E|]. split; [reflexivity|].
  exact (proj2 (available_area_at_least_one _ _ _ E)).
Defined.

(** X13.  Requests leave no session behind, and the browser is launched once.  On
    a backend that launches and whose contexts and pages open and close,
    whatever happens inside the [try] block of each request: after any
    sequence of requests the numbers of open contexts and pages are what
    they were, and the browser was launched once if it was not launched
    before (and there was a request), never again. *)
Theorem requests_leave_no_session
    (be : Backend) (reqs : list (string * Options)) (w : World) :
  launch be = Ok tt ->
  (forall o, newContext be o = Ok tt) ->
  newPage be = Ok tt ->
  page_close be = Ok tt -> context_close be = Ok tt ->
  let w' := snd (serve_requests be reqs w) in
  openContexts w' = openContexts w /\
  openPages w' = openPages w /\
  launches w' =
    ((if browser w then 0 else match reqs with [] => 0 | _ => 1 end)
     + launches w)%nat /\
  (reqs <> [] -> browser w' = true).
Proof.
  intros Hl Hc Hp Hpc Hcc. cbv zeta. revert w.
  induction reqs as [|[html opts] reqs IH]; intros w.
  - cbn. destruct (browser w); repeat split; auto; intros H; contradiction.
  - rewrite serve_requests_cons. cbn [snd].
    destruct (request_leaves_no_session be html opts w Hl
                (fun ctx _ => Hc ctx) Hp Hpc Hcc)
      as (Hb & Hoc & Hop & Hla).
    destruct (IH (snd (renderHtmlToBuffer be html opts w)))
      as (IH1 & IH2 & IH3 & IH4).
    rewrite IH1, IH2, IH3, Hoc, Hop, Hla, Hb.
    repeat split; auto.
    intros _. destruct reqs as [|q reqs]; [exact Hb|].
    apply IH4. discriminate.
Qed.

Lemma requests_leave_no_session_witness :
  launches (snd (serve_requests be_ok
                   [("<p>a</p>"%string, defaults);
                    ("<p>b</p>"%string, with_margin (VBool true) defaults);
                    ("<p>c</p>"%string, with_dpi no_primitive defaults);
                    ("<p>d</p>"%string, defaults)] w_start)) = 1%nat /\
  openContexts (snd (serve_requests be_ok
                   [("<p>a</p>"%string, defaults);
                    ("<p>b</p>"%string, with_margin (VBool true) defaults);
                    ("<p>c</p>"%string, with_dpi no_primitive defaults);
                    ("<p>d</p>"%string, defaults)] w_start)) = 0%nat.
Proof.
  destruct (requests_leave_no_session be_ok
              [("<p>a</p>"%string, defaults);
               ("<p>b</p>"%string, with_margin (VBool true) defaults);
               ("<p>c</p>"%string, with_dpi no_primitive defaults);
               ("<p>d</p>"%string, defaults)] w_start
              eq_refl (fun _ => eq_refl) eq_refl eq_refl eq_refl)
    as (H1 & _ & H3 & _).
  split; [exact H3|exact H1].
Defined.



(** ** Facts about the order of the numbers *)

Module F64Order.
Import JS Render Statements F64 Rank.

Lemma SFcompare_rank (x y : spec_float) :
  x <> S754_nan -> y <> S754_nan ->
  match SFcompare x y with
  | Some Lt => below x y
  | Some Eq => level x y
  | Some Gt => below y x
  | None => False
  end.
Proof.
  intros Hx Hy.
  destruct x as [s|s| |s m e], y as [s'|s'| |s' m' e']; try congruence;
    unfold below, level; cbn [SFcompare r1 r2 r3].
  - lia.
  - destruct s'; lia.
  - destruct s'; lia.
  - destruct s; lia.
  - destruct s, s'; lia.
  - destruct s, s'; lia.
  - destruct s; lia.
  - destruct s, s'; lia.
  - change (Pos.compare_cont Eq m m') with (Pos.compare m m').
    destruct s, s'; try lia.
    + destruct (Z.compare_spec e e'); try lia.
      destruct (Pos.compare_spec m m'); cbn [CompOpp]; lia.
    + destruct (Z.compare_spec e e'); try lia.
      destruct (Pos.compare_spec m m'); lia.
Qed.

Lemma ltb_below (x y : float) :
  (x <? y) = true <->
  nn x /\ nn y /\ below (Prim2SF x) (Prim2SF y).
Proof.
  rewrite FloatAxioms.ltb_spec, !nn_Prim2SF. unfold SFltb. split.
  - intros H.
    assert (Hx : Prim2SF x <> S754_nan)
      by (intros E; rewrite E in H; discriminate).
    assert (Hy : Prim2SF y <> S754_nan)
      by (intros E; rewrite E in H; destruct (Prim2SF x); discriminate).
    pose proof (SFcompare_rank _ _ Hx Hy) as R.
    destruct (SFcompare (Prim2SF x) (Prim2SF y)) as [[]|]; try discriminate.
    auto.
  - intros (Hx & Hy & B).
    pose proof (SFcompare_rank _ _ Hx Hy) as R.
    destruct (SFcompare (Prim2SF x) (Prim2SF y)) as [[]|];
      unfold below, level in *; try reflexivity; try contradiction; lia.
Qed.

Lemma leb_below (x y : float) :
  (x <=? y) = true <->
  nn x /\ nn y /\
  (below (Prim2SF x) (Prim2SF y) \/ level (Prim2SF x) (Prim2SF y)).
Proof.
  rewrite FloatAxioms.leb_spec, !nn_Prim2SF. unfold SFleb. split.
  - intros H.
    assert (Hx : Prim2SF x <> S754_nan)
      by (intros E; rewrite E in H; discriminate).
    assert (Hy : Prim2SF y <> S754_nan)
      by (intros E; rewrite E in H; destruct (Prim2SF x); discriminate).
    pose proof (SFcompare_rank _ _ Hx Hy) as R.
    destruct (SFcompare (Prim2SF x) (Prim2SF y)) as [[]|]; try discriminate;
      auto.
  - intros (Hx & Hy & B).
    pose proof (SFcompare_rank _ _ Hx Hy) as R.
    destruct (SFcompare (Prim2SF x) (Prim2SF y)) as [[]|];
      unfold below, level in *; try reflexivity; try contradiction; lia.
Qed.

(** The order of the numbers is transitive. *)
Lemma leb_trans (x y z : float) :
  (x <=? y) = true -> (y <=? z) = true -> (x <=? z) = true.
Proof.
  rewrite !leb_below. unfold below, level.
  intros (Hx & _ & A) (_ & Hz & B). repeat split; auto. lia.
Qed.

Lemma ltb_leb_trans (x y z : float) :
  (x <? y) = true -> (y <=? z) = true -> (x <? z) = true.
Proof.
  rewrite !leb_below, !ltb_below. unfold below, level.
  intros (Hx & _ & A) (_ & Hz & B). repeat split; auto. lia.
Qed.

Lemma leb_ltb_trans (x y z : float) :
  (x <=? y) = true -> (y <? z) = true -> (x <? z) = true.
Proof.
  rewrite !leb_below, !ltb_below. unfold below, level.
  intros (Hx & _ & A) (_ & Hz & B). repeat split; auto. lia.
Qed.

(** The clamp of lines 95 and 96 keeps the order. *)
Lemma safetyClamp_mono (a b : float) :
  (a <=? b) = true -> (safetyClamp a <=? safetyClamp b) = true.
Proof.
  intros H. destruct (leb_nn _ _ H) as [Ha Hb].
  assert (C1 : (0.1 <=? 0.1) = true) by reflexivity.
  assert (C2 : (0.1 <=? 2) = true) by reflexivity.
  assert (C3 : (2 <=? 2) = true) by reflexivity.
  assert (C4 : (2 <? 0.1) = false) by reflexivity.
  assert (N1 : nn 0.1) by reflexivity.
  assert (N2 : nn 2) by reflexivity.
  unfold safetyClamp.
  destruct (a <? 0.1) eqn:Ea.
  - rewrite C4.
    destruct (b <? 0.1) eqn:Eb; [rewrite C4; exact C1|].
    destruct (2 <? b) eqn:Eb2; [exact C2|].
    apply nlt_le; auto.
  - destruct (2 <? a) eqn:Ea2.
    + pose proof (ltb_leb_trans _ _ _ Ea2 H) as Hb2.
      rewrite (above_2_not_below_tenth _ Hb2), Hb2. exact C3.
    + destruct (b <? 0.1) eqn:Eb.
      * pose proof (leb_ltb_trans _ _ _ H Eb) as Ha'. congruence.
      * destruct (2 <? b) eqn:Eb2; [apply nlt_le; auto|exact H].
Qed.

(** Lines 91 to 94 either keep the scale they are given, or replace it by
    one that does not depend on it, or throw. *)
Lemma overrideScale_keeps_or_replaces (opts : Options) :
  (forall s, overrideScale opts s = Ok s) \/
  (exists cl, nn cl /\ forall s, overrideScale opts s = Ok cl) \/
  (exists e, forall s, overrideScale opts s = Throw e).
Proof.
  unfold overrideScale.
  destruct (truthy (scale opts)); [|left; reflexivity].
  destruct (Number (scale opts)) as [n|e]; cbn [obind];
    [|right; right; exists e; reflexivity].
  destruct (clampScale n) as [cl|]; [|left; reflexivity].
  destruct (num_truthy cl) eqn:E; [|left; reflexivity].
  right. left. exists cl. split; [|reflexivity].
  unfold num_truthy in E. unfold nn. destruct (is_nan cl); [discriminate|reflexivity].
Qed.

End F64Order.

(** ** Further properties: the options of [renderHtmlToBuffer] *)

Module OptionFacts.
Import JS Render Examples Statements F64 FitFacts RenderRuns RenderFacts F64Order.

Lemma or_else_idem (v d : value) : or_else (or_else v d) d = or_else v d.
Proof.
  unfold or_else. destruct (truthy v) eqn:E; [now rewrite E|].
  destruct (truthy d); reflexivity.
Qed.

Lemma paper_of_normalized (o : Options) : paper_of (normalized o) = paper_of o.
Proof. unfold paper_of. cbn [format normalized]. now rewrite or_else_idem. Qed.

Lemma isLandscape_normalized (o : Options) :
  isLandscape (normalized o) = isLandscape o.
Proof.
  unfold isLandscape. cbn [orientation normalized]. unfold or_else.
  destruct (truthy (orientation o)) eqn:E; [reflexivity|].
  destruct (orientation o) as [| |b|n|s|n]; try reflexivity.
  cbn [truthy] in E. destruct s; [reflexivity|discriminate].
Qed.

Lemma marginMm_of_normalized (o : Options) :
  marginMm_of (normalized o) = marginMm_of o.
Proof. unfold marginMm_of. cbn [margin normalized]. now rewrite or_else_idem. Qed.

Lemma overrideScale_normalized (o : Options) (s : float) :
  overrideScale (normalized o) s = overrideScale o s.
Proof.
  unfold overrideScale. cbn [scale normalized].
  destruct (truthy (scale o)) eqn:E; [now rewrite E|reflexivity].
Qed.

Lemma fit_normalized (o : Options) (cs : ContentBox) :
  fit (normalized o) cs = fit o cs.
Proof.
  unfold fit. rewrite paper_of_normalized.
  destruct (paper_of o) as [p|]; [|reflexivity]. cbn [obind].
  unfold orient. rewrite isLandscape_normalized.
  destruct (if isLandscape o then _ else _) as [pw ph].
  rewrite marginMm_of_normalized.
  destruct (marginMm_of o) as [m|]; [|reflexivity]. cbn [obind].
  rewrite overrideScale_normalized.
  unfold computedScale. cbn [single normalized truthy]. reflexivity.
Qed.

Lemma dpi_of_normalized (o : Options) : dpi_of (normalized o) = dpi_of o.
Proof.
  unfold dpi_of. cbn [dpi normalized].
  destruct (truthy (dpi o)) eqn:E; [now rewrite E|].
  vm_compute. reflexivity.
Qed.

Lemma contextOptions_normalized (o : Options) :
  contextOptions_of (normalized o) = contextOptions_of o.
Proof.
  unfold contextOptions_of. rewrite dpi_of_normalized.
  cbn [png normalized truthy]. reflexivity.
Qed.

Lemma pdfOptions_normalized (o : Options) (f : Fit) :
  pdfOptions_of (normalized o) f = pdfOptions_of o f.
Proof.
  unfold pdfOptions_of. fold (isLandscape (normalized o)). fold (isLandscape o).
  cbn [margin normalized]. now rewrite or_else_idem, isLandscape_normalized.
Qed.

Lemma renderBody_normalized (be : Backend) (html : string) (o : Options)
    (w : World) :
  renderBody be html (normalized o) w = renderBody be html o w.
Proof.
  unfold renderBody.
  cbn [png single orientation normalized truthy]. rewrite or_else_idem.
  unfold bind, perform_on, perform, lift, ret, try_catch_ignore.
  destruct (setContent be html); [|reflexivity].
  destruct (evaluate be _ html) as [cs|]; [|reflexivity].
  rewrite fit_normalized.
  destruct (fit o cs) as [f|]; [|reflexivity].
  rewrite pdfOptions_normalized. reflexivity.
Qed.

(** The request reads its options through their normal form only. *)
Lemma renderHtmlToBuffer_normalized (be : Backend) (html : string)
    (o : Options) (w : World) :
  renderHtmlToBuffer be html (normalized o) w = renderHtmlToBuffer be html o w.
Proof.
  unfold renderHtmlToBuffer, bind, openSession.
  rewrite contextOptions_normalized.
  destruct (bind _ _ w) as [[u|e] w1]; [|reflexivity].
  unfold try_finally. now rewrite renderBody_normalized.
Qed.

Lemma or_else_drop (d : value) (g : option value) :
  or_else (Server.assign d (drop_falsy g)) d = or_else (Server.assign d g) d.
Proof.
  destruct g as [v|]; [|reflexivity]. cbn [drop_falsy].
  destruct (truthy v) eqn:E; cbn [Server.assign]; [reflexivity|].
  unfold or_else. rewrite E. destruct (truthy d); reflexivity.
Qed.

Lemma truthy_drop (d : value) (g : option value) :
  truthy d = false ->
  truthy (Server.assign d (drop_falsy g)) = truthy (Server.assign d g).
Proof.
  intros Hd. destruct g as [v|]; [|reflexivity]. cbn [drop_falsy].
  destruct (truthy v) eqn:E; cbn [Server.assign]; congruence.
Qed.

Lemma pick_drop (d : value) (g : option value) :
  (if truthy (Server.assign d (drop_falsy g))
   then Server.assign d (drop_falsy g) else d) =
  (if truthy (Server.assign d g) then Server.assign d g else d).
Proof.
  destruct g as [v|]; [|reflexivity]. cbn [drop_falsy].
  destruct (truthy v) eqn:E; cbn [Server.assign]; [reflexivity|].
  rewrite E. destruct (truthy d); reflexivity.
Qed.

Lemma normalized_without_falsy (b : Server.BodyOptions) :
  normalized (Server.options_of (without_falsy b)) =
  normalized (Server.options_of b).
Proof.
  destruct b as [f o m s sc p d].
  unfold normalized, Server.options_of, without_falsy.
  cbn [format orientation margin single scale png dpi
       Server.b_format Server.b_orientation Server.b_margin Server.b_single
       Server.b_scale Server.b_png Server.b_dpi].
  rewrite !or_else_drop.
  rewrite (truthy_drop (VBool false) s eq_refl).
  rewrite (truthy_drop (VBool false) p eq_refl).
  rewrite (pick_drop VNull sc), (pick_drop (VNum 96) d).
  reflexivity.
Qed.

Lemma PAPER_SIZES_has_In (p : string) :
  PAPER_SIZES_has p = true -> In p PAPER_SIZES.
Proof.
  unfold PAPER_SIZES_has. rewrite existsb_exists.
  intros (x & Hx & E). apply String.eqb_eq in E. now subst.
Qed.




(** [closeBrowser] launches nothing. *)
Lemma closeBrowser_launches (close : outcome unit) (w : World) :
  launches (snd (closeBrowser close w)) = launches w.
Proof.
  unfold closeBrowser, bind, lift, logger_info, perform, ret, launches.
  destruct (browser w); [|reflexivity].
  destruct close; reflexivity.
Qed.

End OptionFacts.

Import F64Order OptionFacts.

(** X15.  Single-page mode never enlarges.  For a content box of positive
    (finite) width and height, the final scale of a request with [single]
    set is at most the final scale of the same request without it, with or
    without a manual scale. *)
Theorem single_page_never_enlarges
    (opts : Options) (v : value) (cs : ContentBox) (f0 f1 : Fit) :
  truthy (single opts) = false ->
  truthy v = true ->
  (0 <? width cs) = true -> (width cs <? infinity) = true ->
  (0 <? height cs) = true -> (height cs <? infinity) = true ->
  fit opts cs = Ok f0 ->
  fit (with_single v opts) cs = Ok f1 ->
  (scaleFinal f1 <=? scaleFinal f0) = true.
Proof.
  intros Hs Hv Hw0 Hw1 Hh0 Hh1 H0 H1.
  destruct (fit_available_ge_1 _ _ _ H0) as [[Ha _] [Hb _]].
  unfold fit in H0, H1.
  change (paper_of (with_single v opts)) with (paper_of opts) in H1.
  destruct (paper_of opts) as [p|]; [|discriminate]. cbn [obind] in H0, H1.
  change (orient (with_single v opts) (paperMm p))
    with (orient opts (paperMm p)) in H1.
  destruct (orient opts (paperMm p)) as [pw ph].
  change (marginMm_of (with_single v opts)) with (marginMm_of opts) in H1.
  destruct (marginMm_of opts) as [m|]; [|discriminate]. cbn [obind] in H0, H1.
  change (overrideScale (with_single v opts)) with (overrideScale opts) in H1.
  destruct (overrideScale_keeps_or_replaces opts)
    as [K|[(cl & Hcl & K)|(e & K)]]; rewrite K in H0, H1; cbn [obind] in H0, H1;
    try discriminate.
  - injection H0 as <-. injection H1 as <-.
    cbn [scaleFinal availableWidthPx availableHeightPx] in *.
    apply safetyClamp_mono.
    unfold computedScale. cbn [single with_single]. rewrite Hs, Hv.
    apply Math_min_le; apply div_nn; auto using positive_finite.
  - injection H0 as <-. injection H1 as <-.
    cbn [scaleFinal]. apply safetyClamp_mono. now apply leb_refl.
Qed.

Lemma single_page_never_enlarges_witness :
  exists f0 f1,
    fit defaults {| width := 800; height := 2000 |} = Ok f0 /\
    fit (with_single (VBool true) defaults) {| width := 800; height := 2000 |}
      = Ok f1 /\
    (scaleFinal f1 <=? scaleFinal f0) = true /\
    (scaleFinal f1 <? scaleFinal f0) = true.
Proof.
  eexists. eexists.
  match goal with
  | |- ?a = Ok ?f0 /\ ?b = Ok ?f1 /\ _ =>
      assert (E0 : a = Ok f0) by (vm_compute; reflexivity);
      assert (E1 : b = Ok f1) by (vm_compute; reflexivity)
  end.
  split; [exact E0|]. split; [exact E1|]. split.
  - exact (single_page_never_enlarges defaults (VBool true)
             {| width := 800; height := 2000 |} _ _
             eq_refl eq_refl eq_refl eq_refl eq_refl eq_refl E0 E1).
  - vm_compute. reflexivity.
Defined.



(** X17.  A page that cannot be opened leaves its context open.  When
    [context.newPage()] throws, the request throws that error before the
    [try] block is entered: the context that was just created is counted
    open and [context.close()] is never called. *)
Theorem failed_newPage_leaks_context
    (be : Backend) (html : string) (opts : Options) (w : World)
    (ctx : ContextOptions) (e : string) :
  browser w = true \/ launch be = Ok tt ->
  contextOptions_of opts = Ok ctx ->
  newContext be ctx = Ok tt ->
  newPage be = Throw e ->
  let w' := snd (renderHtmlToBuffer be html opts w) in
  fst (renderHtmlToBuffer be html opts w) = Throw e /\
  openContexts w' = S (openContexts w) /\
  openPages w' = openPages w /\
  filter is_context_close (calls w') = filter is_context_close (calls w) /\
  hd_error (calls w') = Some NewPage.
Proof.
  intros Hb Hx Hc Hp. cbv zeta.
  unfold renderHtmlToBuffer, openSession, initBrowser, bind, perform,
    logger_info, lift, ret.
  rewrite Hx, Hc, Hp.
  destruct (browser w) eqn:E.
  - cbn. repeat apply conj; reflexivity.
  - destruct Hb as [Hb|Hb]; [discriminate|]. rewrite Hb.
    cbn. repeat apply conj; reflexivity.
Qed.

Lemma failed_newPage_leaks_context_witness :
  fst (renderHtmlToBuffer (with_newPage (Throw "Target closed") be_ok)
         "<p>x</p>" defaults w_start) = Throw "Target closed"%string /\
  openContexts (snd (renderHtmlToBuffer (with_newPage (Throw "Target closed") be_ok)
         "<p>x</p>" defaults w_start)) = 1%nat.
Proof.
  destruct (failed_newPage_leaks_context
              (with_newPage (Throw "Target closed") be_ok)
              "<p>x</p>" defaults w_start
              {| deviceScaleFactor := None; viewport := None |} "Target closed"
              (or_intror eq_refl) eq_refl eq_refl eq_refl)
    as (H1 & H2 & _).
  split; [exact H1|exact H2].
Defined.

(** X18.  The calls of a document request.  A request for a document that
    returns, with the browser launched, made exactly these calls, in this
    order: a context with no viewport, a page, the content, the
    measurement, one [page.pdf], [page.close], [context.close].  The paper
    given to [page.pdf] is one of [PAPER_SIZES], and its scale is the scale
    of the result. *)
Theorem document_request_calls
    (be : Backend) (html : string) (opts : Options) (w w' : World)
    (r : Result) :
  browser w = true ->
  truthy (png opts) = false ->
  renderHtmlToBuffer be html opts w = (Ok r, w') ->
  exists f,
    fit opts (r_contentSize r) = Ok f /\
    calls w' =
      ContextClose :: PageClose :: Pdf (pdfOptions_of opts f) :: Evaluate
        :: SetContent html :: NewPage
        :: NewContext {| deviceScaleFactor := None; viewport := None |}
        :: calls w /\
    In (pdf_format (pdfOptions_of opts f)) PAPER_SIZES /\
    pdf_scale (pdfOptions_of opts f) = r_scale r.
Proof.
  intros Hb Hpng.
  assert (Ec : contextOptions_of opts =
               Ok {| deviceScaleFactor := None; viewport := None |} \/
               exists e, contextOptions_of opts = Throw e).
  { unfold contextOptions_of. destruct (dpi_of opts) as [n|e]; cbn [obind].
    - left. now rewrite Hpng.
    - right. eauto. }
  unfold renderHtmlToBuffer, openSession, initBrowser, bind, lift, ret,
    try_finally, renderBody, teardown, bind, perform_on, perform, lift, ret.
  rewrite Hb, Hpng.
  destruct Ec as [Ec|[e Ec]]; rewrite Ec; [|discriminate].
  destruct (newContext be _) as [[]|]; [|discriminate].
  destruct (newPage be) as [[]|]; [|discriminate].
  cbn [page add_page add_context].
  destruct (setContent be html) as [[]|];
    [|destruct (page_close be) as [[]|]; [|discriminate];
      destruct (context_close be) as [[]|]; discriminate].
  destruct (evaluate be _ html) as [cs|];
    [|destruct (page_close be) as [[]|]; [|discriminate];
      destruct (context_close be) as [[]|]; discriminate].
  destruct (fit opts cs) as [f|] eqn:Ef;
    [|destruct (page_close be) as [[]|]; [|discriminate];
      destruct (context_close be) as [[]|]; discriminate].
  destruct (pdf be _) as [buf|];
    [|destruct (page_close be) as [[]|]; [|discriminate];
      destruct (context_close be) as [[]|]; discriminate].
  destruct (page_close be) as [[]|]; [|discriminate].
  destruct (context_close be) as [[]|]; [|discriminate].
  intros [= <- <-]. cbn [r_contentSize r_scale calls].
  exists f. split; [exact Ef|]. split; [reflexivity|]. split; [|reflexivity].
  unfold pdfOptions_of. cbn [pdf_format].
  destruct (PAPER_SIZES_has (paper f)) eqn:E.
  - now apply PAPER_SIZES_has_In.
  - left. reflexivity.
Qed.

Lemma document_request_calls_witness :
  exists r w' f,
    renderHtmlToBuffer be_ok "<p>x</p>" (with_format (VStr "tabloid") defaults)
      (set_browser true w_start) = (Ok r, w') /\
    fit (with_format (VStr "tabloid") defaults) (r_contentSize r) = Ok f /\
    r_paper r = "TABLOID"%string /\
    pdf_format (pdfOptions_of (with_format (VStr "tabloid") defaults) f)
      = "A4"%string.
Proof.
  eexists. eexists.
  match goal with
  | |- exists f, ?run = (Ok ?r, ?w) /\ _ =>
      assert (E : run = (Ok r, w)) by (vm_compute; reflexivity)
  end.
  destruct (document_request_calls be_ok "<p>x</p>"
              (with_format (VStr "tabloid") defaults)
              (set_browser true w_start) _ _ eq_refl eq_refl E)
    as (f & Hf & _ & _ & _).
  exists f. split; [exact E|]. split; [exact Hf|].
  split; [reflexivity|].
  cbn [r_contentSize] in Hf.
  assert (Ep : paper f = "TABLOID"%string).
  { destruct (fit_inv _ _ _ Hf) as (Hp & _).
    vm_compute in Hp. injection Hp as Hp. symmetry. exact Hp. }
  unfold pdfOptions_of. cbn [pdf_format]. rewrite Ep. reflexivity.
Defined.

(** X19.  A falsy option is an absent option.  Whatever [body.options] holds,
    leaving out every key whose value is falsy ([null], [false], [0], the
    empty string, NaN) changes nothing to the request: same result or
    error, same calls. *)
Theorem falsy_option_is_absent
    (be : Backend) (html : string) (b : Server.BodyOptions) (w : World) :
  renderHtmlToBuffer be html (Server.options_of (without_falsy b)) w =
  renderHtmlToBuffer be html (Server.options_of b) w.
Proof.
  rewrite <- (renderHtmlToBuffer_normalized be html
                (Server.options_of (without_falsy b))).
  rewrite <- (renderHtmlToBuffer_normalized be html (Server.options_of b)).
  now rewrite normalized_without_falsy.
Qed.

(** X20.  A closed browser is launched again.  After [closeBrowser()] a second
    [closeBrowser()] does nothing, and the next request launches the
    browser anew; if [browser.close()] throws, [closeBrowser] throws and
    the [browser] variable stays set. *)
Theorem closed_browser_is_relaunched
    (be : Backend) (html : string) (opts : Options) (w : World)
    (ctx : ContextOptions) :
  browser w = true ->
  launch be = Ok tt ->
  contextOptions_of opts = Ok ctx ->
  newContext be ctx = Ok tt ->
  newPage be = Ok tt ->
  page_close be = Ok tt -> context_close be = Ok tt ->
  let w1 := snd (closeBrowser (Ok tt) w) in
  browser w1 = false /\
  closeBrowser (Ok tt) w1 = (Ok tt, w1) /\
  launches (snd (renderHtmlToBuffer be html opts w1)) = S (launches w) /\
  (forall e, fst (closeBrowser (Throw e) w) = Throw e /\
             browser (snd (closeBrowser (Throw e) w)) = true).
Proof.
  intros Hb Hl Hx Hc Hp Hpc Hcc. cbv zeta.
  assert (B1 : browser (snd (closeBrowser (Ok tt) w)) = false)
    by (unfold closeBrowser, bind, lift, logger_info, perform, ret;
        rewrite Hb; reflexivity).
  assert (Hc' : forall c, contextOptions_of opts = Ok c -> newContext be c = Ok tt)
    by (intros c Hx'; rewrite Hx in Hx'; injection Hx' as <-; exact Hc).
  split; [exact B1|]. split.
  - unfold closeBrowser at 1. rewrite B1. reflexivity.
  - split.
    + destruct (request_leaves_no_session be html opts
                  (snd (closeBrowser (Ok tt) w)) Hl Hc' Hp Hpc Hcc)
        as (_ & _ & _ & H).
      rewrite H, B1, closeBrowser_launches. reflexivity.
    + intros e. unfold closeBrowser, bind, lift, logger_info, perform, ret.
      rewrite Hb. cbn. auto.
Qed.

Lemma closed_browser_is_relaunched_witness :
  launches (snd (renderHtmlToBuffer be_ok "<p>x</p>" defaults
                   (snd (closeBrowser (Ok tt)
                           (snd (renderHtmlToBuffer be_ok "<p>x</p>" defaults
                                   w_start)))))) = 2%nat.
Proof.
  destruct (closed_browser_is_relaunched be_ok "<p>x</p>" defaults
              (snd (renderHtmlToBuffer be_ok "<p>x</p>" defaults w_start))
              {| deviceScaleFactor := None; viewport := None |}
              eq_refl eq_refl eq_refl eq_refl eq_refl eq_refl eq_refl)
    as (_ & _ & H & _).
  exact H.
Defined.
